(** * WeatherViz: a model of [script.js] and its verified properties

    The dashboard is a single script: a handful of global variables, a
    set of DOM nodes written through [textContent] and [classList], two
    network calls ([geocode] and [forecast]) made from [async] functions,
    a position request, and one debounce timer.  The model below follows
    the script function by function.

    - JavaScript strings are sequences of UTF-16 code units ([jsstr]).
    - JavaScript numbers that come from the JSON payloads are exact
      rationals ([Q]); [Math.round] is [floor (x + 1/2)].  Where the
      script multiplies or divides, the result is rounded to binary64
      ([Binary64.round]).
    - The DOM is a store indexed by element id.
    - An [async] function is a resumption: it runs on the global state
      until it finishes or reaches an [await] on a network call, where it
      hands back the request and a continuation that is resumed, on the
      state of that later moment, with the outcome of the call.  A call
      that fails before it reaches [fetch] (its URL cannot be built)
      makes no request: its rejection is handled in the same task. *)

From Stdlib Require Import ZArith NArith QArith Qround Qcanon Qabs Qpower Lqa List String Ascii Lia Bool.
From stdpp Require Import base gmap strings list fin_maps.

Local Open Scope Z_scope.

(** ** Strings *)

Module JsString.

(** A JavaScript string: its UTF-16 code units. *)
Definition jsstr : Type := list N.

(** Code points of a UTF-8 byte sequence.  Source literals are written
    as Rocq strings, which hold UTF-8 bytes. *)
Fixpoint code_points (bs : list N) : list N :=
  match bs with
  | [] => []
  | b0 :: r =>
      if (b0 <? 128)%N then b0 :: code_points r
      else if (b0 <? 224)%N then
        match r with
        | b1 :: r1 => ((b0 - 192) * 64 + (b1 - 128))%N :: code_points r1
        | _ => []
        end
      else if (b0 <? 240)%N then
        match r with
        | b1 :: b2 :: r2 =>
            ((b0 - 224) * 4096 + (b1 - 128) * 64 + (b2 - 128))%N
              :: code_points r2
        | _ => []
        end
      else
        match r with
        | b1 :: b2 :: b3 :: r3 =>
            ((b0 - 240) * 262144 + (b1 - 128) * 4096
             + (b2 - 128) * 64 + (b3 - 128))%N :: code_points r3
        | _ => []
        end
  end.

(** UTF-16 code units of a code point: one unit in the basic plane, a
    surrogate pair above it. *)
Definition code_units (cp : N) : list N :=
  if (cp <? 65536)%N then [cp]
  else [(55296 + (cp - 65536) / 1024)%N; (56320 + (cp - 65536) mod 1024)%N].

Fixpoint bytes_of (s : string) : list N :=
  match s with
  | EmptyString => []
  | String c r => N_of_ascii c :: bytes_of r
  end.

(** The JavaScript string denoted by a source literal. *)
Definition js (s : string) : jsstr :=
  concat (map code_units (code_points (bytes_of s))).

(** WhiteSpace and LineTerminator code units, the ones
    [String.prototype.trim] strips. *)
Definition is_space (c : N) : bool :=
  ((9 <=? c) && (c <=? 13) || (c =? 32) || (c =? 160) || (c =? 5760)
   || (8192 <=? c) && (c <=? 8202) || (c =? 8232) || (c =? 8233)
   || (c =? 8239) || (c =? 8287) || (c =? 12288) || (c =? 65279))%N.

Fixpoint trimStart (s : jsstr) : jsstr :=
  match s with
  | c :: r => if is_space c then trimStart r else s
  | [] => []
  end.

Definition trimEnd (s : jsstr) : jsstr := rev (trimStart (rev s)).

(** [s.trim()] *)
Definition trim (s : jsstr) : jsstr := trimEnd (trimStart s).

(** Truthiness of a string: only the empty string is falsy. *)
Definition truthy (s : jsstr) : bool :=
  match s with [] => false | _ => true end.

(** [s.isWellFormed()]: no lone surrogate.  A leading surrogate
    (D800-DBFF) must be followed by a trailing one (DC00-DFFF), and a
    trailing one must follow a leading one.  [encodeURIComponent] throws a
    [URIError] exactly on the strings that are not well formed. *)
Fixpoint isWellFormed (s : jsstr) : bool :=
  match s with
  | [] => true
  | c :: r =>
      if ((55296 <=? c) && (c <=? 56319))%N then
        match r with
        | d :: r' => ((56320 <=? d) && (d <=? 57343))%N && isWellFormed r'
        | [] => false
        end
      else if ((56320 <=? c) && (c <=? 57343))%N then false
      else isWellFormed r
  end.

Example js_ascii : js "Pu" = [80%N; 117%N].
Proof. reflexivity. Qed.

Example js_dash : js "—" = [8212%N].
Proof. reflexivity. Qed.

Example js_sun : js "☀️" = [9728%N; 65039%N].
Proof. reflexivity. Qed.

Example js_thermometer : js "🌡️" = [55356%N; 57121%N; 65039%N].
Proof. reflexivity. Qed.

Example trim_example : trim (js "  Pune ") = js "Pune".
Proof. reflexivity. Qed.

End JsString.
Import JsString.

(** ** Numbers and JSON fields *)

(** A JavaScript number as the script can compute one: NaN or a finite
    value. *)
Inductive number : Type :=
| NaN
| Fin (q : Q).

(** A numeric JSON field as the script reads it: the key is missing
    ([undefined]), or holds [null], or holds a number. *)
Inductive field : Type :=
| Undefined
| Null
| Number (q : Q).

(** What the script assigns to a node's [textContent]: a string or a
    number (which the DOM then prints). *)
Inductive text : Type :=
| Str (s : jsstr)
| Numeral (n : number).

(** [Math.round]: the nearest integer, ties towards +infinity.
    [Math.round(null)] is 0 and [Math.round(undefined)] is NaN. *)
Definition round_half_up (q : Q) : Z := Qfloor (q + (1 # 2))%Q.

Definition Math_round (v : field) : number :=
  match v with
  | Undefined => NaN
  | Null => Fin 0
  | Number q => Fin (inject_Z (round_half_up q))
  end.

(** Binary64 arithmetic on the rationals: the exact result of an
    operation, rounded to the nearest double. *)
Module Binary64.

(** A double that is not NaN: a finite value or an infinity. *)
Inductive t : Type :=
| Finite (q : Q)
| Infinity (negative : bool).

(** [floor (log2 q)] for a positive [q]. *)
Definition ilog2 (q : Q) : Z :=
  let c := Z.log2 (Qnum q) - Z.log2 (Zpos (Qden q)) in
  if Qle_bool (2 ^ c) q then c else c - 1.

(** The nearest integer, ties to the even one. *)
Definition round_half_even (q : Q) : Z :=
  let f := Qfloor q in
  match (q - inject_Z f ?= 1 # 2)%Q with
  | Lt => f
  | Gt => f + 1
  | Eq => if Z.even f then f else f + 1
  end.

(** The exponent of the last place of the doubles next to [q]: 52 binary
    places below the leading bit, and -1074 among the subnormal
    numbers. *)
Definition quantum (q : Q) : Z := Z.max (ilog2 (Qabs q) - 52) (-1074).

(** The multiple of the last place nearest to [q]. *)
Definition nearest (q : Q) : Q :=
  (inject_Z (round_half_even (q / 2 ^ quantum q)) * 2 ^ quantum q)%Q.

(** Rounding to nearest, ties to even; a result that rounds to 2^1024
    or beyond overflows to the infinity of its sign. *)
Definition round (q : Q) : t :=
  if Qeq_bool q 0 then Finite 0
  else if Qle_bool (2 ^ 1024) (Qabs (nearest q)) then Infinity (Qle_bool q 0)
  else Finite (Qred (nearest q)).

End Binary64.

(** [v ?? d] *)
Definition nullish {A} (v : field) (d : A) (f : Q -> A) : A :=
  match v with
  | Number q => f q
  | _ => d
  end.

(** [v != null] *)
Definition not_nullish (v : field) : bool :=
  match v with
  | Number _ => true
  | _ => false
  end.

(** [arr[i]]: [undefined] past the end. *)
Definition index (arr : list field) (i : nat) : field := nth i arr Undefined.

(** ** Weather codes *)

Module Wx.
Record info := { t : jsstr; i : jsstr }.
End Wx.
Abbreviation WxInfo := Wx.info.

(** The object literal [map] of [decodeWeatherCode]. *)
Definition wx_table : gmap Z WxInfo :=
  list_to_map
    [ (0,  {| Wx.t := js "Clear sky"; Wx.i := js "☀️" |});
      (1,  {| Wx.t := js "Mainly clear"; Wx.i := js "🌤️" |});
      (2,  {| Wx.t := js "Partly cloudy"; Wx.i := js "⛅" |});
      (3,  {| Wx.t := js "Overcast"; Wx.i := js "☁️" |});
      (45, {| Wx.t := js "Fog"; Wx.i := js "🌫️" |});
      (48, {| Wx.t := js "Depositing rime fog"; Wx.i := js "🌫️" |});
      (51, {| Wx.t := js "Light drizzle"; Wx.i := js "🌦️" |});
      (53, {| Wx.t := js "Drizzle"; Wx.i := js "🌦️" |});
      (55, {| Wx.t := js "Dense drizzle"; Wx.i := js "🌧️" |});
      (56, {| Wx.t := js "Freezing drizzle"; Wx.i := js "🌧️" |});
      (57, {| Wx.t := js "Freezing drizzle"; Wx.i := js "🌧️" |});
      (61, {| Wx.t := js "Slight rain"; Wx.i := js "🌧️" |});
      (63, {| Wx.t := js "Rain"; Wx.i := js "🌧️" |});
      (65, {| Wx.t := js "Heavy rain"; Wx.i := js "⛈️" |});
      (66, {| Wx.t := js "Freezing rain"; Wx.i := js "🌧️" |});
      (67, {| Wx.t := js "Freezing rain"; Wx.i := js "🌧️" |});
      (71, {| Wx.t := js "Slight snow"; Wx.i := js "🌨️" |});
      (73, {| Wx.t := js "Snow"; Wx.i := js "🌨️" |});
      (75, {| Wx.t := js "Heavy snow"; Wx.i := js "❄️" |});
      (77, {| Wx.t := js "Snow grains"; Wx.i := js "🌨️" |});
      (80, {| Wx.t := js "Rain showers"; Wx.i := js "🌦️" |});
      (81, {| Wx.t := js "Rain showers"; Wx.i := js "🌦️" |});
      (82, {| Wx.t := js "Violent showers"; Wx.i := js "⛈️" |});
      (85, {| Wx.t := js "Snow showers"; Wx.i := js "🌨️" |});
      (86, {| Wx.t := js "Heavy snow showers"; Wx.i := js "❄️" |});
      (95, {| Wx.t := js "Thunderstorm"; Wx.i := js "⛈️" |});
      (96, {| Wx.t := js "Thunderstorm w/ hail"; Wx.i := js "⛈️" |});
      (99, {| Wx.t := js "Thunderstorm w/ hail"; Wx.i := js "⛈️" |}) ].

Definition wx_unknown : WxInfo := {| Wx.t := js "Unknown"; Wx.i := js "🌡️" |}.

(** The property key a value selects in [map]: an integer-valued number
    selects the key of that integer; no other value ([undefined], [null],
    a fraction) names a key of the table. *)
Definition table_key (code : field) : option Z :=
  match code with
  | Number q =>
      let r := Qred q in
      if (Zpos (Qden r) =? 1) then Some (Qnum r) else None
  | _ => None
  end.

(** [decodeWeatherCode(code)]: [map[code] || {t:"Unknown", i:"🌡️"}].
    Every entry of [map] is an object, hence truthy. *)
Definition decodeWeatherCode (code : field) : WxInfo :=
  match table_key code with
  | Some k =>
      match wx_table !! k with
      | Some w => w
      | None => wx_unknown
      end
  | None => wx_unknown
  end.

Example decode_95 : Wx.t (decodeWeatherCode (Number 95)) = js "Thunderstorm".
Proof. vm_compute. reflexivity. Qed.

(** ** Payloads of the two services *)

(** One geocoding result. *)
Module Candidate.
Record t := {
  name : jsstr;
  admin1 : option jsstr;
  country : option jsstr;
  latitude : Q;
  longitude : Q
}.
End Candidate.

(** The JSON body of a geocoding response: [null], or an object whose
    [results] key may be missing. *)
Inductive GeoBody : Type :=
| GeoNull
| GeoObject (results : option (list Candidate.t)).

(** [data.current] *)
Module Current.
Record t := {
  time : option jsstr;
  temperature_2m : field;
  apparent_temperature : field;
  relative_humidity_2m : field;
  precipitation : field;
  weather_code : field;
  wind_speed_10m : field
}.
End Current.

(** The numeric columns of [data.hourly] that the script reads. *)
Module Key.
Inductive t : Type :=
| temperature_2m
| precipitation_probability
| wind_speed_10m.
End Key.

(** [data.hourly]: parallel arrays, any of which may be missing. *)
Module Hourly.
Record t := {
  time : option (list jsstr);
  temperature_2m : option (list field);
  precipitation_probability : option (list field);
  wind_speed_10m : option (list field)
}.

(** [hourly[key]] *)
Definition get (h : t) (key : Key.t) : option (list field) :=
  match key with
  | Key.temperature_2m => temperature_2m h
  | Key.precipitation_probability => precipitation_probability h
  | Key.wind_speed_10m => wind_speed_10m h
  end.
End Hourly.

(** [data.daily] *)
Module Daily.
Record t := {
  time : option (list jsstr);
  temperature_2m_max : option (list field);
  temperature_2m_min : option (list field);
  precipitation_sum : option (list field);
  precipitation_probability_max : option (list field);
  weather_code : option (list field)
}.
End Daily.

(** The JSON body of a forecast response. *)
Record Forecast := {
  current : option Current.t;
  hourly : option Hourly.t;
  daily : option Daily.t
}.

(** ** Exceptions and the outcome of a network call *)

Record exn := Error { message : jsstr }.

Inductive result (A : Type) : Type :=
| Return (a : A)
| Throw (e : exn).
Arguments Return {A} a.
Arguments Throw {A} e.

(** What [fetch(url)] followed by [res.json()] comes to: the promise
    rejects, or the response arrives with [res.ok] false, or it arrives
    with a JSON body. *)
Inductive response (B : Type) : Type :=
| Rejects (e : exn)
| NotOk
| Json (body : B).
Arguments Rejects {B} e.
Arguments NotOk {B}.
Arguments Json {B} body.

(** ** Global state of the page *)

Module Unit.
Inductive t := C | F.
End Unit.

Module Place.
Record t := {
  name : jsstr;
  lat : option Q;
  lon : option Q;
  tz : jsstr
}.
End Place.

(** A Chart.js instance, by the configuration that the script passes to
    [new Chart]: the canvas, the type, the labels, the single dataset and
    the title of the y axis (and its [suggestedMax]).  [destroyed]
    records a call of [destroy()]. *)
Record Chart := {
  canvas : string;
  chart_type : jsstr;
  chart_labels : list jsstr;
  dataset_label : jsstr;
  dataset_data : list field;
  y_title : jsstr;
  suggestedMax : option Z;
  destroyed : bool
}.

Record Charts := {
  tempChart : option Chart;
  rainChart : option Chart;
  windChart : option Chart
}.

(** What [next24HoursSeries] returns: the series of the three charts. *)
Module Series.
Record t := {
  labels : list jsstr;
  temps : list field;
  rainP : list field;
  wind : list field
}.
End Series.

(** A child of [forecastGrid]: the values interpolated into the card's
    template. *)
Record Card := {
  fDay : jsstr;
  fMeta : jsstr;
  fIcon_title : jsstr;
  fIcon : jsstr;
  fTemps_min : number;
  fTemps_max : number;
  fTemps_unit : jsstr;
  fRain : text;
  fPrecip : jsstr
}.

(** A child of [suggestions]: the values interpolated into the item's
    template, and the result its click listener closes over. *)
Record SuggItem := {
  suggName : jsstr;
  suggMeta : jsstr;
  suggLat : Binary64.t;
  suggLon : Binary64.t;
  suggTarget : Candidate.t
}.

(** The timers of the host: the pending timeouts (identifier, due time
    in milliseconds), the next identifier and the clock.  The only
    callback the script ever schedules is [handleAutocomplete]. *)
Record Timers := {
  clock : Z;
  pending : list (positive * Z);
  next_id : positive
}.

Record State := {
  (* variables of the script *)
  unit' : Unit.t;
  currentPlace : Place.t;
  charts : Charts;
  debounceTimer : option positive;
  lastSuggestions : list Candidate.t;
  (* the document *)
  textContent : gmap string text;
  classList : gset (string * string);
  attributes : gmap (string * string) jsstr;
  cityInput_value : jsstr;
  forecastGrid : list Card;
  suggestions_children : list SuggItem;
  (* the host *)
  window_Chart : bool;
  timers : Timers
}.

Definition set_unit (u : Unit.t) (s : State) : State :=
  Build_State u (currentPlace s) (charts s) (debounceTimer s) (lastSuggestions s) (textContent s) (classList s) (attributes s) (cityInput_value s) (forecastGrid s) (suggestions_children s) (window_Chart s) (timers s).

Definition set_currentPlace (p : Place.t) (s : State) : State :=
  Build_State (unit' s) p (charts s) (debounceTimer s) (lastSuggestions s) (textContent s) (classList s) (attributes s) (cityInput_value s) (forecastGrid s) (suggestions_children s) (window_Chart s) (timers s).

Definition set_charts (c : Charts) (s : State) : State :=
  Build_State (unit' s) (currentPlace s) c (debounceTimer s) (lastSuggestions s) (textContent s) (classList s) (attributes s) (cityInput_value s) (forecastGrid s) (suggestions_children s) (window_Chart s) (timers s).

Definition set_debounceTimer (d : option positive) (s : State) : State :=
  Build_State (unit' s) (currentPlace s) (charts s) d (lastSuggestions s) (textContent s) (classList s) (attributes s) (cityInput_value s) (forecastGrid s) (suggestions_children s) (window_Chart s) (timers s).

Definition set_lastSuggestions (l : list Candidate.t) (s : State) : State :=
  Build_State (unit' s) (currentPlace s) (charts s) (debounceTimer s) l (textContent s) (classList s) (attributes s) (cityInput_value s) (forecastGrid s) (suggestions_children s) (window_Chart s) (timers s).

Definition set_textContent (id : string) (v : text) (s : State) : State :=
  Build_State (unit' s) (currentPlace s) (charts s) (debounceTimer s) (lastSuggestions s) (<[id := v]> (textContent s)) (classList s) (attributes s) (cityInput_value s) (forecastGrid s) (suggestions_children s) (window_Chart s) (timers s).

Definition set_classList (c : gset (string * string)) (s : State) : State :=
  Build_State (unit' s) (currentPlace s) (charts s) (debounceTimer s) (lastSuggestions s) (textContent s) c (attributes s) (cityInput_value s) (forecastGrid s) (suggestions_children s) (window_Chart s) (timers s).

Definition setAttribute (id attr : string) (v : jsstr) (s : State) : State :=
  Build_State (unit' s) (currentPlace s) (charts s) (debounceTimer s) (lastSuggestions s) (textContent s) (classList s) (<[(id, attr) := v]> (attributes s)) (cityInput_value s) (forecastGrid s) (suggestions_children s) (window_Chart s) (timers s).

Definition set_cityInput_value (v : jsstr) (s : State) : State :=
  Build_State (unit' s) (currentPlace s) (charts s) (debounceTimer s) (lastSuggestions s) (textContent s) (classList s) (attributes s) v (forecastGrid s) (suggestions_children s) (window_Chart s) (timers s).

Definition set_forecastGrid (g : list Card) (s : State) : State :=
  Build_State (unit' s) (currentPlace s) (charts s) (debounceTimer s) (lastSuggestions s) (textContent s) (classList s) (attributes s) (cityInput_value s) g (suggestions_children s) (window_Chart s) (timers s).

Definition set_suggestions_children (l : list SuggItem) (s : State) : State :=
  Build_State (unit' s) (currentPlace s) (charts s) (debounceTimer s) (lastSuggestions s) (textContent s) (classList s) (attributes s) (cityInput_value s) (forecastGrid s) l (window_Chart s) (timers s).

Definition set_timers (tm : Timers) (s : State) : State :=
  Build_State (unit' s) (currentPlace s) (charts s) (debounceTimer s) (lastSuggestions s) (textContent s) (classList s) (attributes s) (cityInput_value s) (forecastGrid s) (suggestions_children s) (window_Chart s) tm.

(** [classList.add], [classList.remove], [classList.toggle(c, force)],
    [classList.contains] *)
Definition classList_add (id c : string) (s : State) : State :=
  set_classList ({[ (id, c) ]} ∪ classList s) s.

Definition classList_remove (id c : string) (s : State) : State :=
  set_classList (classList s ∖ {[ (id, c) ]}) s.

Definition classList_toggle (id c : string) (force : bool) (s : State) : State :=
  if force then classList_add id c s else classList_remove id c s.

Definition classList_contains (id c : string) (s : State) : bool :=
  bool_decide ((id, c) ∈ classList s).

(** The text a node shows. *)
Definition shown (id : string) (s : State) : option text := textContent s !! id.

(** ** Asynchronous procedures *)

(** The query string of a forecast request. *)
Record ForecastRequest := {
  rq_latitude : Q;
  rq_longitude : Q;
  rq_timezone : jsstr;
  rq_temperature_unit : jsstr;
  rq_windspeed_unit : jsstr;
  rq_forecast_days : Z
}.

(** A run of an [async] function on the page: finished (normally or by a
    throw), or suspended at the [await] of a network call. *)
Inductive Proc (A : Type) : Type :=
| Done (s : State) (r : result A)
| AwaitGeocode (s : State) (query : jsstr)
    (k : response GeoBody -> State -> Proc A)
| AwaitForecast (s : State) (rq : ForecastRequest)
    (k : response Forecast -> State -> Proc A).
Arguments Done {A} s r.
Arguments AwaitGeocode {A} s query k.
Arguments AwaitForecast {A} s rq k.

Definition M (A : Type) : Type := State -> Proc A.

Definition ret {A} (a : A) : M A := fun s => Done s (Return a).

Definition throw {A} (e : exn) : M A := fun s => Done s (Throw e).

Fixpoint bindP {A B} (p : Proc A) (f : A -> M B) : Proc B :=
  match p with
  | Done s (Return a) => f a s
  | Done s (Throw e) => Done s (Throw e)
  | AwaitGeocode s q k => AwaitGeocode s q (fun r s' => bindP (k r s') f)
  | AwaitForecast s rq k => AwaitForecast s rq (fun r s' => bindP (k r s') f)
  end.

Definition bind {A B} (m : M A) (f : A -> M B) : M B := fun s => bindP (m s) f.

(** [try { p } catch (err) { h err }] *)
Fixpoint catchP {A} (p : Proc A) (h : exn -> M A) : Proc A :=
  match p with
  | Done s (Return a) => Done s (Return a)
  | Done s (Throw e) => h e s
  | AwaitGeocode s q k => AwaitGeocode s q (fun r s' => catchP (k r s') h)
  | AwaitForecast s rq k => AwaitForecast s rq (fun r s' => catchP (k r s') h)
  end.

Definition try_catch {A} (m : M A) (h : exn -> M A) : M A :=
  fun s => catchP (m s) h.

(** [try { p } finally { fin }], for a [fin] that only updates the
    state. *)
Fixpoint finallyP {A} (p : Proc A) (fin : State -> State) : Proc A :=
  match p with
  | Done s r => Done (fin s) r
  | AwaitGeocode s q k => AwaitGeocode s q (fun r s' => finallyP (k r s') fin)
  | AwaitForecast s rq k => AwaitForecast s rq (fun r s' => finallyP (k r s') fin)
  end.

Definition try_finally {A} (m : M A) (fin : State -> State) : M A :=
  fun s => finallyP (m s) fin.

(** A statement that only updates the state. *)
Definition act (f : State -> State) : M unit := fun s => Done (f s) (Return tt).

(** Reading the state. *)
Definition gets {A} (f : State -> A) : M A := fun s => Done s (Return (f s)).

(** A computation that does not touch the state. *)
Definition lift {A} (r : result A) : M A := fun s => Done s r.

Declare Scope proc_scope.
Delimit Scope proc_scope with proc.
Notation "'let!' x ':=' m 'in' k" := (bind m (fun x => k))
  (at level 10, x name, m at level 100, k at level 200) : proc_scope.
Notation "m '>>' k" := (bind m (fun _ => k))
  (at level 90, right associativity) : proc_scope.
Local Open Scope proc_scope.

(** The requests a run has issued when it is handed to the event loop,
    and the state it leaves. *)
Inductive Request : Type :=
| GeocodeRequest (query : jsstr)
| ForecastRequest_ (rq : ForecastRequest).

Definition state_of {A} (p : Proc A) : State :=
  match p with
  | Done s _ => s
  | AwaitGeocode s _ _ => s
  | AwaitForecast s _ _ => s
  end.

Definition request_of {A} (p : Proc A) : list Request :=
  match p with
  | Done _ _ => []
  | AwaitGeocode _ q _ => [GeocodeRequest q]
  | AwaitForecast _ rq _ => [ForecastRequest_ rq]
  end.

(** ** The script *)

(** The formats the script asks of [Date.prototype.toLocale*String]. *)
Inductive DateFormat : Type :=
| WeekdayHourMinute   (* toLocaleString: weekday short, hour and minute 2-digit *)
| HourMinute          (* toLocaleTimeString: hour and minute 2-digit *)
| WeekdayShort        (* toLocaleDateString: weekday short *)
| MonthDay.           (* toLocaleDateString: month short, day numeric *)

(** What the host provides and the model leaves open: the locale's
    rendering of [new Date(iso)] ([None] is [undefined]),
    [Number.prototype.toFixed], the [TypeError] the engine throws when a
    property of [undefined] or [null] is read, the [URIError]
    [encodeURIComponent] throws on a lone surrogate, and whether
    [navigator.geolocation] is there. *)
Record Host := {
  toLocale : DateFormat -> option jsstr -> jsstr;
  toFixed : Q -> nat -> jsstr;
  TypeError : exn;
  URIError : exn;
  geolocation : bool
}.

Section Script.

Variable host : Host.

(** Reading a property of [o]: a [TypeError] when [o] is [undefined]. *)
Definition read {A} (o : option A) : result A :=
  match o with
  | Some a => Return a
  | None => Throw (TypeError host)
  end.

(** *** Helpers *)

Definition setLoading (isLoading : bool) (s : State) : State :=
  set_textContent "statusPill"
    (Str (if isLoading then js "Loading…" else js "Ready"))
    (classList_toggle "loading" "hidden" (negb isLoading) s).

Definition showError (title subtitle : jsstr) (s : State) : State :=
  set_textContent "statusPill" (Str (js "Error"))
    (set_textContent "errorSub" (Str subtitle)
       (set_textContent "errorTitle" (Str title)
          (classList_remove "errorBox" "hidden" s))).

Definition clearError (s : State) : State :=
  classList_add "errorBox" "hidden" s.

(** [formatLocalTime]: the locale routine returns a string for every
    date, the invalid one included, so the [catch] branch of the source is
    never taken. *)
Definition formatLocalTime (isoString : option jsstr) : jsstr :=
  toLocale host WeekdayHourMinute isoString.

(** [ensureChartJs] *)
Definition ensureChartJs (s : State) : State * bool :=
  if negb (window_Chart s) then
    (showError (js "Could not load charts")
       (js "Chart.js is not available (CDN blocked / offline). Change CDN in index.html or use another network.")
       s, false)
  else (s, true).

(** *** API calls *)

(** What [geocode] makes of the response once it is there:
    [if(!res.ok) throw new Error(...); return res.json();] *)
Definition geocode_response (res : response GeoBody) : result GeoBody :=
  match res with
  | Rejects e => Throw e
  | NotOk => Throw (Error (js "Geocoding request failed."))
  | Json body => Return body
  end.

(** [geocode]: the URL is built first, and [encodeURIComponent(query)]
    throws on a query that is not well formed; the function being
    [async], its promise is then rejected and [fetch] is never called.
    The caller's [await] passes the error on within the same task. *)
Definition geocode (query : jsstr) : M GeoBody :=
  fun s =>
    if isWellFormed query then
      AwaitGeocode s query (fun res => lift (geocode_response res))
    else Done s (Throw (URIError host)).

Definition forecast_response (res : response Forecast) : result Forecast :=
  match res with
  | Rejects e => Throw e
  | NotOk => Throw (Error (js "Forecast request failed."))
  | Json body => Return body
  end.

Definition forecast (lat lon : Q) (tz : jsstr) : M Forecast :=
  fun s =>
    let tempUnitParam :=
      match unit' s with Unit.F => js "fahrenheit" | Unit.C => js "celsius" end in
    let windUnitParam := js "kmh" in
    if isWellFormed tz then
      AwaitForecast s
        {| rq_latitude := lat; rq_longitude := lon; rq_timezone := tz;
           rq_temperature_unit := tempUnitParam;
           rq_windspeed_unit := windUnitParam;
           rq_forecast_days := 7 |}
        (fun res => lift (forecast_response res))
    else Done s (Throw (URIError host)).

(** *** UI updates *)

Definition setPlace (name : jsstr) (lat lon : Q) (tz : jsstr) (s : State) : State :=
  set_textContent "placePill" (Str name)
    (set_currentPlace
       {| Place.name := name; Place.lat := Some lat; Place.lon := Some lon;
          Place.tz := tz |} s).

Definition setTimePill (nowIso : option jsstr) (s : State) : State :=
  set_textContent "timePill" (Str (js "Updated: " ++ formatLocalTime nowIso)) s.

(** [arr.indexOf(x)] on an array of strings: the first index holding a
    string equal to [x]; [None] is -1.  [undefined] equals no string. *)
Fixpoint indexOf_from (arr : list jsstr) (x : jsstr) (n : nat) : option nat :=
  match arr with
  | [] => None
  | y :: r => if bool_decide (y = x) then Some n else indexOf_from r x (S n)
  end.

Definition indexOf (arr : list jsstr) (x : option jsstr) : option nat :=
  match x with
  | Some x => indexOf_from arr x 0
  | None => None
  end.

(** The [try] block of [getClosestHourly]. *)
Definition getClosestHourly_try (data : Forecast) (key : Key.t) : result field :=
  match read (current data) with
  | Throw e => Throw e
  | Return c =>
      let now := Current.time c in
      match read (hourly data) with
      | Throw e => Throw e
      | Return h =>
          match read (Hourly.time h) with
          | Throw e => Throw e
          | Return times =>
              match indexOf times now with
              | Some idx =>
                  match read (Hourly.get h key) with
                  | Throw e => Throw e
                  | Return col => Return (index col idx)
                  end
              | None =>
                  match read (Hourly.get h key) with
                  | Throw e => Throw e
                  | Return col => Return (index col 0)
                  end
              end
          end
      end
  end.

Definition getClosestHourly (data : Forecast) (key : Key.t) : field :=
  match getClosestHourly_try data key with
  | Return v => v
  | Throw _ => Null
  end.

Definition unit_suffix (u : Unit.t) : jsstr :=
  match u with Unit.F => js "°F" | Unit.C => js "°C" end.

Definition setTodayCard (data : Forecast) : M unit :=
  let! c := lift (read (current data)) in
  let w := decodeWeatherCode (Current.weather_code c) in
  act (set_textContent "wxIcon" (Str (Wx.i w))) >>
  act (set_textContent "wxMain" (Str (Wx.t w))) >>
  act (set_textContent "conditionBadge" (Str (Wx.t w))) >>
  act (set_textContent "tempNow" (Numeral (Math_round (Current.temperature_2m c)))) >>
  act (set_textContent "tempFeel" (Numeral (Math_round (Current.apparent_temperature c)))) >>
  act (set_textContent "windNow" (Numeral (Math_round (Current.wind_speed_10m c)))) >>
  act (set_textContent "humNow"
         (nullish (Current.relative_humidity_2m c) (Str (js "—"))
            (fun q => Numeral (Fin q)))) >>
  act (set_textContent "precipNow"
         (Str (toFixed host (nullish (Current.precipitation c) 0%Q id) 1))) >>
  let rainProb := getClosestHourly data Key.precipitation_probability in
  act (set_textContent "rainNow"
         (if not_nullish rainProb then Numeral (Math_round rainProb)
          else Str (js "—"))) >>
  let! u := gets unit' in
  act (set_textContent "tempUnit" (Str (unit_suffix u))) >>
  act (set_textContent "feelUnit" (Str (unit_suffix u))) >>
  act (set_textContent "windUnit" (Str (js "km/h"))) >>
  act (set_textContent "rainUnit" (Str (js "%"))) >>
  let! place := gets currentPlace in
  let! lat := lift (read (Place.lat place)) in
  let! lon := lift (read (Place.lon place)) in
  act (set_textContent "wxSub"
         (Str (js "Lat " ++ toFixed host lat 2 ++ js " • Lon " ++ toFixed host lon 2))).

(** One pass of the loop of [buildForecastCards], for day [i]. *)
Definition forecast_card (d : Daily.t) (day : jsstr) (i : nat) : M Card :=
  let dayName := toLocale host WeekdayShort (Some day) in
  let dateName := toLocale host MonthDay (Some day) in
  let! wcode := lift (read (Daily.weather_code d)) in
  let w := decodeWeatherCode (index wcode i) in
  let! tmin := lift (read (Daily.temperature_2m_min d)) in
  let! u := gets unit' in
  let! tmax := lift (read (Daily.temperature_2m_max d)) in
  let! pmax := lift (read (Daily.precipitation_probability_max d)) in
  let! psum := lift (read (Daily.precipitation_sum d)) in
  ret {| fDay := dayName;
         fMeta := dateName;
         fIcon_title := Wx.t w;
         fIcon := Wx.i w;
         fTemps_min := Math_round (index tmin i);
         fTemps_max := Math_round (index tmax i);
         fTemps_unit := unit_suffix u;
         fRain := nullish (index pmax i) (Str (js "—")) (fun q => Numeral (Fin q));
         fPrecip := toFixed host (nullish (index psum i) 0%Q id) 1 |}.

(** [forecastGrid.appendChild(card)] *)
Definition appendCard (card : Card) (s : State) : State :=
  set_forecastGrid (forecastGrid s ++ [card]) s.

(** The loop [for (let i = 0; i < days.length; i++)], from index [i] on
    the days that remain. *)
Fixpoint forecast_loop (d : Daily.t) (days : list jsstr) (i : nat) : M unit :=
  match days with
  | [] => ret tt
  | day :: rest =>
      let! card := forecast_card d day i in
      act (appendCard card) >>
      forecast_loop d rest (S i)
  end.

Definition buildForecastCards (data : Forecast) : M unit :=
  let! d := lift (read (daily data)) in
  act (set_forecastGrid []) >>
  let! days := lift (read (Daily.time d)) in
  forecast_loop d days 0 >>
  let! u := gets unit' in
  act (set_textContent "forecastChip" (Str (js "Daily • " ++ unit_suffix u))).

(** [arr.slice(0, n)] *)
Definition slice0 {A} (n : nat) (arr : list A) : list A := firstn n arr.

Definition next24HoursSeries (data : Forecast) : result Series.t :=
  match read (hourly data) with
  | Throw e => Throw e
  | Return h =>
      match read (Hourly.time h) with
      | Throw e => Throw e
      | Return times =>
          let t := slice0 24 times in
          let labels := map (fun x => toLocale host HourMinute (Some x)) t in
          match read (Hourly.temperature_2m h) with
          | Throw e => Throw e
          | Return temperature =>
              let temps := slice0 24 temperature in
              match read (Hourly.precipitation_probability h) with
              | Throw e => Throw e
              | Return probability =>
                  let rainP := slice0 24 probability in
                  match read (Hourly.wind_speed_10m h) with
                  | Throw e => Throw e
                  | Return speed =>
                      let wind := slice0 24 speed in
                      Return {| Series.labels := labels; Series.temps := temps;
                                Series.rainP := rainP; Series.wind := wind |}
                  end
              end
          end
      end
  end.

(** *** Charts *)

Definition destroy (c : Chart) : Chart :=
  {| canvas := canvas c; chart_type := chart_type c; chart_labels := chart_labels c;
     dataset_label := dataset_label c; dataset_data := dataset_data c;
     y_title := y_title c;
     suggestedMax := suggestedMax c; destroyed := true |}.

(** [tempChart?.destroy(); rainChart?.destroy(); windChart?.destroy();] *)
Definition destroyCharts (s : State) : State :=
  set_charts
    {| tempChart := destroy <$> tempChart (charts s);
       rainChart := destroy <$> rainChart (charts s);
       windChart := destroy <$> windChart (charts s) |} s.

Definition makeCharts (series : Series.t) (s : State) : State :=
  let (s1, ok) := ensureChartJs s in
  if negb ok then s1
  else
    let s2 := destroyCharts s1 in
    set_charts
      {| tempChart := Some
           {| canvas := "tempChart"; chart_type := js "line";
              chart_labels := Series.labels series; dataset_label := js "Temp";
              dataset_data := Series.temps series;
              y_title := unit_suffix (unit' s2);
              suggestedMax := None; destroyed := false |};
         rainChart := Some
           {| canvas := "rainChart"; chart_type := js "bar";
              chart_labels := Series.labels series; dataset_label := js "Rain %";
              dataset_data := map (fun v => nullish v (Number 0) Number) (Series.rainP series);
              y_title := js "%";
              suggestedMax := Some 100; destroyed := false |};
         windChart := Some
           {| canvas := "windChart"; chart_type := js "line";
              chart_labels := Series.labels series; dataset_label := js "Wind";
              dataset_data := Series.wind series;
              y_title := js "km/h";
              suggestedMax := None; destroyed := false |} |} s2.

(** *** Main flow *)

(** [err?.message || fallback] *)
Definition message_or (err : exn) (fallback : jsstr) : jsstr :=
  if truthy (message err) then message err else fallback.

Definition loadWeatherByCoords (lat lon : Q) (label tz : jsstr) : M unit :=
  act clearError >>
  act (setLoading true) >>
  try_finally
    (try_catch
       (act (setPlace label lat lon tz) >>
        let! data := forecast lat lon tz in
        let! c := lift (read (current data)) in
        act (setTimePill (Current.time c)) >>
        setTodayCard data >>
        buildForecastCards data >>
        let! series := lift (next24HoursSeries data) in
        act (makeCharts series) >>
        act (set_textContent "statusPill" (Str (js "Updated"))))
       (fun err =>
          act (showError (js "Could not load weather")
                 (message_or err (js "Check your internet and try again.")))))
    (setLoading false).

(** [!g?.results || g.results.length === 0] *)
Definition no_results (g : GeoBody) : bool :=
  match g with
  | GeoNull => true
  | GeoObject None => true
  | GeoObject (Some []) => true
  | GeoObject (Some (_ :: _)) => false
  end.

(** [g?.results || []] *)
Definition results_or_empty (g : GeoBody) : list Candidate.t :=
  match g with
  | GeoObject (Some l) => l
  | _ => []
  end.

(** [x ? ", " + x : ""] for an optional string [x]. *)
Definition comma_if (x : option jsstr) : jsstr :=
  match x with
  | Some v => if truthy v then js ", " ++ v else []
  | None => []
  end.

(** The label built from a result: name, region, country. *)
Definition place_label (r : Candidate.t) : jsstr :=
  Candidate.name r ++ comma_if (Candidate.admin1 r) ++ comma_if (Candidate.country r).

Definition loadWeatherByCityName (name : jsstr) : M unit :=
  act clearError >>
  act (setLoading true) >>
  try_finally
    (try_catch
       (let! g := geocode name in
        if no_results g then
          act (showError (js "No results")
                 (js "Try a different city name (example: Pune, Kathmandu, Patna)."))
        else
          let! r := lift (read (head (results_or_empty g))) in
          loadWeatherByCoords (Candidate.latitude r) (Candidate.longitude r)
            (place_label r) (js "auto"))
       (fun err =>
          act (showError (js "City search failed")
                 (message_or err (js "Try again.")))))
    (setLoading false).

(** *** Autocomplete *)

Definition hideSuggestions (s : State) : State :=
  setAttribute "suggestions" "aria-hidden" (js "true")
    (classList_remove "suggestions" "show" s).

(** [[r.admin1, r.country].filter(Boolean).join(", ")] *)
Definition sugg_meta (r : Candidate.t) : jsstr :=
  let keep (x : option jsstr) : list jsstr :=
    match x with
    | Some v => if truthy v then [v] else []
    | None => []
    end in
  match keep (Candidate.admin1 r) ++ keep (Candidate.country r) with
  | [] => []
  | [a] => a
  | a :: b :: _ => a ++ js ", " ++ b
  end.

(** [Math.round(x * 100) / 100]: the product and the quotient are
    rounded to binary64; [Math.round] of a double is exact and leaves an
    infinity as it is. *)
Definition round2 (x : Q) : Binary64.t :=
  match Binary64.round (x * 100) with
  | Binary64.Finite p => Binary64.round (inject_Z (round_half_up p) / 100)
  | Binary64.Infinity negative => Binary64.Infinity negative
  end.

Definition sugg_item (r : Candidate.t) : SuggItem :=
  {| suggName := Candidate.name r;
     suggMeta := sugg_meta r;
     suggLat := round2 (Candidate.latitude r);
     suggLon := round2 (Candidate.longitude r);
     suggTarget := r |}.

Definition showSuggestions (items : list Candidate.t) (s : State) : State :=
  let s1 := set_suggestions_children [] (set_lastSuggestions items s) in
  match items with
  | [] => hideSuggestions s1
  | _ :: _ =>
      setAttribute "suggestions" "aria-hidden" (js "false")
        (classList_add "suggestions" "show"
           (set_suggestions_children (map sugg_item items) s1))
  end.

(** The click listener of a suggestion. *)
Definition suggItem_click (r : Candidate.t) : M unit :=
  act (set_cityInput_value (Candidate.name r ++ comma_if (Candidate.country r))) >>
  act hideSuggestions >>
  loadWeatherByCoords (Candidate.latitude r) (Candidate.longitude r)
    (place_label r) (js "auto").

Definition handleAutocomplete : M unit :=
  let! q := gets (fun s => trim (cityInput_value s)) in
  if (length q <? 2)%nat then act hideSuggestions
  else
    try_catch
      (let! g := geocode q in
       act (showSuggestions (results_or_empty g)))
      (fun _ => act hideSuggestions).

(** *** Events *)

(** The [click] listener of [searchBtn]. *)
Definition searchBtn_click : M unit :=
  let! q := gets (fun s => trim (cityInput_value s)) in
  if negb (truthy q) then
    act (showError (js "Type a city name")
           (js "Example: Pune, Kathmandu, Patna, New York."))
  else
    act hideSuggestions >>
    loadWeatherByCityName q.

(** [clearTimeout(id)]: the timeout is no longer pending. *)
Definition clearTimeout (id : positive) (s : State) : State :=
  set_timers
    {| clock := clock (timers s);
       pending := List.filter (fun p => negb (Pos.eqb (fst p) id)) (pending (timers s));
       next_id := next_id (timers s) |} s.

(** [setTimeout(handleAutocomplete, delay)]: a fresh identifier, due
    [delay] milliseconds from now. *)
Definition setTimeout (delay : Z) (s : State) : State * positive :=
  let id := next_id (timers s) in
  (set_timers
     {| clock := clock (timers s);
        pending := pending (timers s) ++ [(id, clock (timers s) + delay)];
        next_id := Pos.succ id |} s,
   id).

(** The [input] listener of [cityInput]; the field already holds the new
    text when it runs. *)
Definition cityInput_input (s : State) : State :=
  let s1 := clearError s in
  let s2 :=
    match debounceTimer s1 with
    | Some id => clearTimeout id s1
    | None => s1
    end in
  let (s3, id) := setTimeout 280 s2 in
  set_debounceTimer (Some id) s3.

Inductive KeyName : Type := Enter | Escape | OtherKey.

(** The [click] listener of [document]; [outside] says that the target
    is neither inside [suggestions] nor [cityInput] itself. *)
Definition document_click (outside : bool) (s : State) : State :=
  if outside then hideSuggestions s else s.

Definition toggle (u : Unit.t) : Unit.t :=
  match u with Unit.C => Unit.F | _ => Unit.C end.

(** The [click] listener of [unitBtn]. *)
Definition unitBtn_click : M unit :=
  let! u0 := gets unit' in
  act (set_unit (toggle u0)) >>
  let! u := gets unit' in
  act (set_textContent "unitBtn" (Str (unit_suffix u))) >>
  let! place := gets currentPlace in
  match Place.lat place, Place.lon place with
  | Some lat, Some lon =>
      loadWeatherByCoords lat lon (Place.name place) (Place.tz place)
  | _, _ =>
      act (set_textContent "statusPill" (Str (js "Unit: " ++ unit_suffix u)))
  end.

(** [init] *)
Definition init : M unit := loadWeatherByCityName (js "Kathmandu").

(** The [click] listener of [geoBtn].  [supported] is the truthiness of
    [navigator.geolocation]; the second component says whether
    [getCurrentPosition] was called, which later calls one of the two
    callbacks below. *)
Definition geoBtn_click (supported : bool) (s : State) : State * bool :=
  let s1 := clearError s in
  if negb supported then
    (showError (js "Geolocation not supported")
       (js "Your browser does not support location access.") s1,
     false)
  else (setLoading true s1, true).

(** The success callback, with [pos.coords.latitude] and
    [pos.coords.longitude]. *)
Definition geo_success (latitude longitude : Q) : M unit :=
  loadWeatherByCoords latitude longitude (js "My location") (js "auto").

(** The error callback. *)
Definition geo_error (err : exn) (s : State) : State :=
  showError (js "Location denied")
    (message_or err (js "Allow location permission and try again."))
    (setLoading false s).

(** ** The event loop *)

(** The page between two events: its state, the network requests issued
    so far (oldest first), the runs suspended on a request, and the number
    of calls of [getCurrentPosition] that have not called back yet. *)
Record World := {
  page : State;
  issued : list Request;
  suspended : list (Proc unit);
  locating : nat
}.

(** A run is handed to the loop: its request, if it stopped at one, goes
    out and the run waits; a finished run leaves only its state (a throw
    that nothing caught is an unhandled rejection, without effect). *)
Definition settle (p : Proc unit) (w : World) : World :=
  {| page := state_of p;
     issued := issued w ++ request_of p;
     suspended :=
       match p with
       | Done _ _ => suspended w
       | _ => suspended w ++ [p]
       end;
     locating := locating w |}.

(** A listener or callback runs on the current state. *)
Definition start (m : M unit) (w : World) : World := settle (m (page w)) w.

Definition on_page (f : State -> State) (w : World) : World :=
  {| page := f (page w); issued := issued w; suspended := suspended w;
     locating := locating w |}.

(** The pending timeouts due at time [t], earliest first. *)
Fixpoint insert_due (x : positive * Z) (l : list (positive * Z)) : list (positive * Z) :=
  match l with
  | [] => [x]
  | y :: r => if snd x <? snd y then x :: l else y :: insert_due x r
  end.

Definition due (t : Z) (tm : Timers) : list (positive * Z) :=
  fold_right insert_due [] (List.filter (fun p => snd p <=? t) (pending tm)).

Definition is_pending (id : positive) (s : State) : bool :=
  existsb (fun p => Pos.eqb (fst p) id) (pending (timers s)).

Definition set_clock (t : Z) (s : State) : State :=
  set_timers
    {| clock := Z.max (clock (timers s)) t;
       pending := pending (timers s);
       next_id := next_id (timers s) |} s.

(** The timeouts of [l] fire in turn: each one still pending is taken
    off the table and its callback, [handleAutocomplete], runs at its due
    time. *)
Fixpoint fire (l : list (positive * Z)) (w : World) : World :=
  match l with
  | [] => w
  | (id, d) :: r =>
      if is_pending id (page w) then
        fire r (start handleAutocomplete (on_page (fun s => clearTimeout id (set_clock d s)) w))
      else fire r w
  end.

(** Time passes until [t]. *)
Definition advance (t : Z) (w : World) : World :=
  on_page (set_clock t) (fire (due t (timers (page w))) w).

(** The outcome of a network call, by the kind of the call. *)
Inductive Reply : Type :=
| GeocodeReply (r : response GeoBody)
| ForecastReply (r : response Forecast).

Definition resume (p : Proc unit) (reply : Reply) (s : State) : option (Proc unit) :=
  match p, reply with
  | AwaitGeocode _ _ k, GeocodeReply r => Some (k r s)
  | AwaitForecast _ _ k, ForecastReply r => Some (k r s)
  | _, _ => None
  end.

(** The [n]-th suspended run receives the outcome of its call. *)
Definition respond (n : nat) (reply : Reply) (w : World) : World :=
  match suspended w !! n with
  | Some p =>
      match resume p reply (page w) with
      | Some p' =>
          settle p'
            {| page := page w; issued := issued w;
               suspended := take n (suspended w) ++ drop (S n) (suspended w);
               locating := locating w |}
      | None => w
      end
  | None => w
  end.

Inductive Event : Type :=
| Input (value : jsstr)            (* the user edits [cityInput] *)
| SearchClick
| KeyDown (key : KeyName)
| DocumentClick (outside : bool)
| SuggestionClick (r : Candidate.t)
| UnitClick
| GeoClick
| Position (latitude longitude : Q)   (* the position is there *)
| PositionError (err : exn)           (* it is refused, unavailable or late *)
| Respond (n : nat) (reply : Reply).

(** A click on a button: its own listener runs, up to its first
    [await], and then the event reaches the listener of [document], for
    which a button lies outside the input and the suggestion list. *)
Definition click_button (listener : M unit) (w : World) : World :=
  on_page (document_click true) (start listener w).

(** The [keydown] listener of [cityInput]: Enter calls
    [searchBtn.click()], which dispatches a click on the button; Escape
    hides the suggestions. *)
Definition cityInput_keydown (key : KeyName) (w : World) : World :=
  let w1 := match key with Enter => click_button searchBtn_click w | _ => w end in
  match key with Escape => on_page hideSuggestions w1 | _ => w1 end.

(** A click on [geoBtn]: the listener runs, a call of
    [getCurrentPosition] is noted, and the event reaches [document]. *)
Definition geoBtn_clicked (w : World) : World :=
  let (s1, asked) := geoBtn_click (geolocation host) (page w) in
  on_page (document_click true)
    {| page := s1; issued := issued w; suspended := suspended w;
       locating := if asked then S (locating w) else locating w |}.

(** The host calls back with the position, or with an error: once for
    each call of [getCurrentPosition], and never without one. *)
Definition located (callback : World -> World) (w : World) : World :=
  match locating w with
  | O => w
  | S n =>
      callback {| page := page w; issued := issued w; suspended := suspended w;
                  locating := n |}
  end.

Definition handle (e : Event) (w : World) : World :=
  match e with
  | Input value => on_page (fun s => cityInput_input (set_cityInput_value value s)) w
  | SearchClick => click_button searchBtn_click w
  | KeyDown key => cityInput_keydown key w
  | DocumentClick outside => on_page (document_click outside) w
  | SuggestionClick r => on_page (document_click false) (start (suggItem_click r) w)
  | UnitClick => click_button unitBtn_click w
  | GeoClick => geoBtn_clicked w
  | Position latitude longitude => located (start (geo_success latitude longitude)) w
  | PositionError err => located (on_page (geo_error err)) w
  | Respond n reply => respond n reply w
  end.

(** A timed trace: each event is handled once the timeouts due by its
    time have fired. *)
Fixpoint run (trace : list (Z * Event)) (w : World) : World :=
  match trace with
  | [] => w
  | (t, e) :: r => run r (handle e (advance t w))
  end.

(** The variables as the script's top level leaves them, before [init],
    over a blank document. *)
Definition initial_state (chartjs : bool) : State :=
  {| unit' := Unit.C;
     currentPlace :=
       {| Place.name := js "—"; Place.lat := None; Place.lon := None;
          Place.tz := js "auto" |};
     charts := {| tempChart := None; rainChart := None; windChart := None |};
     debounceTimer := None;
     lastSuggestions := [];
     textContent := ∅;
     classList := ∅;
     attributes := ∅;
     cityInput_value := [];
     forecastGrid := [];
     suggestions_children := [];
     window_Chart := chartjs;
     timers := {| clock := 0; pending := []; next_id := 1 |} |}.

Definition initial_world (chartjs : bool) : World :=
  start init
    {| page := initial_state chartjs; issued := []; suspended := []; locating := 0 |}.

End Script.

(** * Properties *)

(** A host for the concrete runs below: a date prints as its ISO text,
    [toFixed] prints the integer part. *)
Definition demo_host : Host :=
  {| toLocale := fun _ iso => match iso with Some x => x | None => js "Invalid Date" end;
     toFixed := fun q _ => js (if Qfloor q =? 0 then "0" else "n");
     TypeError := Error (js "TypeError");
     URIError := Error (js "URI malformed");
     geolocation := true |}.

(** ** Weather codes *)

Lemma table_key_integer (z : Z) : table_key (Number (inject_Z z)) = Some z.
Proof.
  unfold table_key.
  rewrite Qred_identity by (simpl; apply Z.gcd_1_r).
  reflexivity.
Qed.

Lemma wx_table_entries_nonempty (z : Z) (w : WxInfo) :
  wx_table !! z = Some w -> Wx.t w <> [] /\ Wx.i w <> [].
Proof.
  intros E. apply elem_of_list_to_map_2 in E.
  repeat (apply elem_of_cons in E as [E | E];
          [inversion E; subst; split; discriminate |]).
  inversion E.
Qed.

(** C1. [decodeWeatherCode] is total on the integers: an integer code
    that is a key of the table yields that entry, every other integer
    yields the fallback ["Unknown"] with the default glyph; either way the
    label and the icon are non-empty strings; code 0 yields the label
    ["Clear sky"]. *)
Theorem decodeWeatherCode_total :
  (forall z : Z,
     decodeWeatherCode (Number (inject_Z z))
       = default {| Wx.t := js "Unknown"; Wx.i := js "🌡️" |} (wx_table !! z)
     /\ Wx.t (decodeWeatherCode (Number (inject_Z z))) <> []
     /\ Wx.i (decodeWeatherCode (Number (inject_Z z))) <> [])
  /\ Wx.t (decodeWeatherCode (Number (inject_Z 0))) = js "Clear sky"
  /\ decodeWeatherCode (Number (inject_Z 4)) = {| Wx.t := js "Unknown"; Wx.i := js "🌡️" |}
  /\ decodeWeatherCode (Number (inject_Z (-1))) = {| Wx.t := js "Unknown"; Wx.i := js "🌡️" |}
  /\ decodeWeatherCode (Number (inject_Z 100)) = {| Wx.t := js "Unknown"; Wx.i := js "🌡️" |}.
Proof.
  split.
  - intros z. unfold decodeWeatherCode. rewrite table_key_integer.
    destruct (wx_table !! z) as [w|] eqn:E; simpl.
    + split; [reflexivity|]. exact (wx_table_entries_nonempty z w E).
    + split; [reflexivity|]. split; discriminate.
  - repeat split; vm_compute; reflexivity.
Qed.

(** ** The 24-hour series *)

Section Series_facts.

Variable host : Host.

(** C2. On a payload whose four hourly arrays are present,
    [next24HoursSeries] returns the first 24 entries of each array, and
    each label is the locale's hour:minute rendering of the timestamp at
    the same index.  When the arrays hold [n <= 24] entries (24, or 10) all
    [n] are returned, nothing is padded; when they hold [n >= 24] entries
    (30) exactly the first 24 are returned. *)
Theorem next24HoursSeries_first_24
    (data : Forecast) (h : Hourly.t) (times : list jsstr)
    (temperature probability speed : list field) :
  hourly data = Some h ->
  Hourly.time h = Some times ->
  Hourly.temperature_2m h = Some temperature ->
  Hourly.precipitation_probability h = Some probability ->
  Hourly.wind_speed_10m h = Some speed ->
  exists sr,
    next24HoursSeries host data = Return sr
    /\ Series.labels sr
       = map (fun x => toLocale host HourMinute (Some x)) (firstn 24 times)
    /\ Series.temps sr = firstn 24 temperature
    /\ Series.rainP sr = firstn 24 probability
    /\ Series.wind sr = firstn 24 speed
    /\ (forall n : nat,
          length times = n -> length temperature = n ->
          length probability = n -> length speed = n ->
          ((n <= 24)%nat ->
             Series.labels sr = map (fun x => toLocale host HourMinute (Some x)) times
             /\ Series.temps sr = temperature
             /\ Series.rainP sr = probability
             /\ Series.wind sr = speed
             /\ length (Series.labels sr) = n)
          /\ ((24 <= n)%nat ->
                length (Series.labels sr) = 24%nat
                /\ length (Series.temps sr) = 24%nat
                /\ length (Series.rainP sr) = 24%nat
                /\ length (Series.wind sr) = 24%nat)).
Proof.
  intros Hh Ht Htemp Hprob Hwind.
  unfold next24HoursSeries, read, slice0.
  rewrite Hh, Ht, Htemp, Hprob, Hwind.
  eexists. split; [reflexivity |]. cbn -[firstn].
  repeat (split; [reflexivity |]).
  intros n L1 L2 L3 L4. split; intros Hn.
  - rewrite !firstn_all2 by lia.
    rewrite length_map. repeat split; try reflexivity. exact L1.
  - rewrite length_map, !length_firstn. lia.
Qed.

End Series_facts.

(** Hourly payloads of a given length, for the concrete runs. *)
Definition stamp (k : nat) : jsstr := js "2024-05-01T" ++ [N.of_nat (48 + k / 10); N.of_nat (48 + k mod 10)] ++ js ":00".

Definition hourly_of_length (n : nat) : Forecast :=
  {| current := None;
     hourly := Some
       {| Hourly.time := Some (map stamp (seq 0 n));
          Hourly.temperature_2m := Some (map (fun k => Number (inject_Z (Z.of_nat k))) (seq 0 n));
          Hourly.precipitation_probability := Some (map (fun k => Number (inject_Z (Z.of_nat k))) (seq 0 n));
          Hourly.wind_speed_10m := Some (map (fun k => Number (inject_Z (Z.of_nat k))) (seq 0 n)) |};
     daily := None |}.

Lemma next24HoursSeries_first_24_witness :
  (exists sr, next24HoursSeries demo_host (hourly_of_length 24) = Return sr
              /\ length (Series.labels sr) = 24%nat
              /\ Series.temps sr = map (fun k => Number (inject_Z (Z.of_nat k))) (seq 0 24))
  /\ (exists sr, next24HoursSeries demo_host (hourly_of_length 10) = Return sr
                 /\ length (Series.labels sr) = 10%nat
                 /\ Series.temps sr = map (fun k => Number (inject_Z (Z.of_nat k))) (seq 0 10))
  /\ (exists sr, next24HoursSeries demo_host (hourly_of_length 30) = Return sr
                 /\ length (Series.labels sr) = 24%nat
                 /\ Series.temps sr = map (fun k => Number (inject_Z (Z.of_nat k))) (seq 0 24)).
Proof.
  split; [| split].
  - destruct (next24HoursSeries_first_24 demo_host (hourly_of_length 24) _ _ _ _ _
                eq_refl eq_refl eq_refl eq_refl eq_refl) as (sr & E & _ & Ht & _ & _ & Hn).
    exists sr. split; [exact E |].
    destruct (Hn 24%nat eq_refl eq_refl eq_refl eq_refl) as [Hall _].
    destruct (Hall (le_n 24)) as (_ & Htemps & _ & _ & Hlen).
    split; [exact Hlen | exact Htemps].
  - destruct (next24HoursSeries_first_24 demo_host (hourly_of_length 10) _ _ _ _ _
                eq_refl eq_refl eq_refl eq_refl eq_refl) as (sr & E & _ & Ht & _ & _ & Hn).
    exists sr. split; [exact E |].
    destruct (Hn 10%nat eq_refl eq_refl eq_refl eq_refl) as [Hall _].
    destruct (Hall ltac:(lia)) as (_ & Htemps & _ & _ & Hlen).
    split; [exact Hlen | exact Htemps].
  - destruct (next24HoursSeries_first_24 demo_host (hourly_of_length 30) _ _ _ _ _
                eq_refl eq_refl eq_refl eq_refl eq_refl) as (sr & E & _ & Ht & _ & _ & Hn).
    exists sr. split; [exact E |].
    destruct (Hn 30%nat eq_refl eq_refl eq_refl eq_refl) as [_ Hcut].
    destruct (Hcut ltac:(lia)) as (Hlen & _).
    split; [exact Hlen | exact Ht].
Defined.

(** ** The document store *)

Lemma shown_set_eq (id : string) (v : text) (s : State) :
  shown id (set_textContent id v s) = Some v.
Proof. unfold shown. simpl. apply lookup_insert_eq. Qed.

Lemma shown_set_ne (id id' : string) (v : text) (s : State) :
  id <> id' -> shown id (set_textContent id' v s) = shown id s.
Proof. intros Hne. unfold shown. simpl. apply lookup_insert_ne. congruence. Qed.

Lemma shown_set_forecastGrid (id : string) (g : list Card) (s : State) :
  shown id (set_forecastGrid g s) = shown id s.
Proof. reflexivity. Qed.

Lemma shown_set_charts (id : string) (c : Charts) (s : State) :
  shown id (set_charts c s) = shown id s.
Proof. reflexivity. Qed.

Lemma shown_set_classList (id : string) (c : gset (string * string)) (s : State) :
  shown id (set_classList c s) = shown id s.
Proof. reflexivity. Qed.

Lemma shown_set_currentPlace (id : string) (p : Place.t) (s : State) :
  shown id (set_currentPlace p s) = shown id s.
Proof. reflexivity. Qed.

(** Looking a node up in a state built by the script's writes. *)
Ltac shown_step :=
  first
    [ rewrite shown_set_eq
    | rewrite shown_set_ne by discriminate
    | rewrite shown_set_forecastGrid
    | rewrite shown_set_charts
    | rewrite shown_set_classList
    | rewrite shown_set_currentPlace ].

Ltac shown_solve := repeat shown_step; try reflexivity.

(** Running a procedure through its binds, and projecting a variable of
    the script out of a state built by the script's writes. *)
Ltac run_proc :=
  cbn [bind bindP catchP finallyP try_catch try_finally act gets ret lift throw].

Ltac state_proj :=
  cbn [unit' currentPlace charts debounceTimer lastSuggestions classList
       attributes cityInput_value forecastGrid suggestions_children
       window_Chart timers
       set_unit set_currentPlace set_charts set_debounceTimer
       set_lastSuggestions set_textContent set_classList setAttribute
       set_cityInput_value set_forecastGrid set_suggestions_children
       set_timers classList_add classList_remove classList_toggle].

(** ** Rounding *)

Lemma round_half_up_nearest (q : Q) :
  (inject_Z (round_half_up q) - (1 # 2) <= q
   /\ q < inject_Z (round_half_up q) + (1 # 2))%Q.
Proof.
  unfold round_half_up.
  pose proof (Qfloor_le (q + (1 # 2))) as Hlo.
  pose proof (Qlt_floor (q + (1 # 2))) as Hhi.
  rewrite inject_Z_plus in Hhi.
  change (inject_Z 1) with 1%Q in Hhi.
  split; lra.
Qed.

Example Math_round_21_6 : Math_round (Number 21.6) = Fin 22.
Proof. reflexivity. Qed.

Example Math_round_half : Math_round (Number 2.5) = Fin 3
                          /\ Math_round (Number (-2.5)) = Fin (-2).
Proof. split; reflexivity. Qed.

(** ** The today card *)

Section Today.

Variable host : Host.

(** The writes of [setTodayCard] that precede the line of [wxSub]. *)
Definition today_written (data : Forecast) (c : Current.t) (s : State) : State :=
  let w := decodeWeatherCode (Current.weather_code c) in
  let rainProb := getClosestHourly host data Key.precipitation_probability in
  set_textContent "rainUnit" (Str (js "%"))
    (set_textContent "windUnit" (Str (js "km/h"))
       (set_textContent "feelUnit" (Str (unit_suffix (unit' s)))
          (set_textContent "tempUnit" (Str (unit_suffix (unit' s)))
             (set_textContent "rainNow"
                (if not_nullish rainProb then Numeral (Math_round rainProb)
                 else Str (js "—"))
                (set_textContent "precipNow"
                   (Str (toFixed host (nullish (Current.precipitation c) 0%Q id) 1))
                   (set_textContent "humNow"
                      (nullish (Current.relative_humidity_2m c) (Str (js "—"))
                         (fun q => Numeral (Fin q)))
                      (set_textContent "windNow"
                         (Numeral (Math_round (Current.wind_speed_10m c)))
                         (set_textContent "tempFeel"
                            (Numeral (Math_round (Current.apparent_temperature c)))
                            (set_textContent "tempNow"
                               (Numeral (Math_round (Current.temperature_2m c)))
                               (set_textContent "conditionBadge" (Str (Wx.t w))
                                  (set_textContent "wxMain" (Str (Wx.t w))
                                     (set_textContent "wxIcon" (Str (Wx.i w)) s)))))))))))).

Definition today_wxSub (lat lon : Q) : text :=
  Str (js "Lat " ++ toFixed host lat 2 ++ js " • Lon " ++ toFixed host lon 2).

(** [setTodayCard] runs to its end without suspending.  It throws in two
    cases only: [data.current] is missing (nothing is written), or the
    current place has no coordinates (everything but [wxSub] is
    written). *)
Lemma setTodayCard_run (data : Forecast) (s : State) :
  setTodayCard host data s =
  match current data with
  | None => Done s (Throw (TypeError host))
  | Some c =>
      match Place.lat (currentPlace s), Place.lon (currentPlace s) with
      | Some lat, Some lon =>
          Done (set_textContent "wxSub" (today_wxSub lat lon) (today_written data c s))
               (Return tt)
      | _, _ => Done (today_written data c s) (Throw (TypeError host))
      end
  end.
Proof.
  unfold setTodayCard, lift, read.
  destruct (current data) as [c |]; [| reflexivity].
  run_proc. state_proj.
  destruct (Place.lat (currentPlace s)) as [lat |];
    [destruct (Place.lon (currentPlace s)) as [lon |] |];
    unfold today_written, today_wxSub; cbv zeta; reflexivity.
Qed.

(** C7. [setTodayCard] shows the current temperature rounded to the
    nearest whole number (21.6 is shown as 22), and when the payload's
    [relative_humidity_2m] is missing (or [null]) it shows the placeholder
    ["—"] in [humNow]; a missing humidity makes nothing throw: on a page
    whose current place has coordinates the function returns normally. *)
Theorem setTodayCard_rounds_temperature
    (data : Forecast) (c : Current.t) (s : State) :
  current data = Some c ->
  exists s' r,
    setTodayCard host data s = Done s' r
    /\ (forall q, Current.temperature_2m c = Number q ->
          exists z : Z,
            shown "tempNow" s' = Some (Numeral (Fin (inject_Z z)))
            /\ (inject_Z z - (1 # 2) <= q /\ q < inject_Z z + (1 # 2))%Q)
    /\ (Current.temperature_2m c = Number 21.6 ->
          shown "tempNow" s' = Some (Numeral (Fin 22)))
    /\ (Current.relative_humidity_2m c = Undefined
        \/ Current.relative_humidity_2m c = Null ->
          shown "humNow" s' = Some (Str (js "—")))
    /\ (forall q, Current.relative_humidity_2m c = Number q ->
          shown "humNow" s' = Some (Numeral (Fin q)))
    /\ (is_Some (Place.lat (currentPlace s)) ->
        is_Some (Place.lon (currentPlace s)) ->
          r = Return tt).
Proof.
  intros Hc.
  rewrite setTodayCard_run, Hc.
  assert (Hw : shown "tempNow" (today_written data c s)
               = Some (Numeral (Math_round (Current.temperature_2m c)))
               /\ shown "humNow" (today_written data c s)
                  = Some (nullish (Current.relative_humidity_2m c) (Str (js "—"))
                            (fun q => Numeral (Fin q)))).
  { unfold today_written. cbv zeta. split; shown_solve. }
  destruct Hw as [Htemp Hhum].
  assert (Hgoal : forall s' r,
    shown "tempNow" s' = shown "tempNow" (today_written data c s) ->
    shown "humNow" s' = shown "humNow" (today_written data c s) ->
    (is_Some (Place.lat (currentPlace s)) ->
     is_Some (Place.lon (currentPlace s)) -> r = Return tt) ->
    (forall q, Current.temperature_2m c = Number q ->
       exists z : Z,
         shown "tempNow" s' = Some (Numeral (Fin (inject_Z z)))
         /\ (inject_Z z - (1 # 2) <= q /\ q < inject_Z z + (1 # 2))%Q)
    /\ (Current.temperature_2m c = Number 21.6 ->
          shown "tempNow" s' = Some (Numeral (Fin 22)))
    /\ (Current.relative_humidity_2m c = Undefined
        \/ Current.relative_humidity_2m c = Null ->
          shown "humNow" s' = Some (Str (js "—")))
    /\ (forall q, Current.relative_humidity_2m c = Number q ->
          shown "humNow" s' = Some (Numeral (Fin q)))
    /\ (is_Some (Place.lat (currentPlace s)) ->
        is_Some (Place.lon (currentPlace s)) -> r = Return tt)).
  { intros s' r E1 E2 Hr. rewrite E1, E2, Htemp, Hhum.
    split; [| split; [| split; [| split]]].
    - intros q Hq. exists (round_half_up q). rewrite Hq.
      split; [reflexivity | apply round_half_up_nearest].
    - intros Hq. rewrite Hq. reflexivity.
    - intros [Hu | Hu]; rewrite Hu; reflexivity.
    - intros q Hq. rewrite Hq. reflexivity.
    - exact Hr. }
  destruct (Place.lat (currentPlace s)) as [lat |];
    [destruct (Place.lon (currentPlace s)) as [lon |] |];
    eexists _, _; (split; [reflexivity |]); apply Hgoal;
    try (rewrite !shown_set_ne by discriminate; reflexivity);
    try reflexivity;
    intros [? Hl] [? Hn]; discriminate || reflexivity.
Qed.

End Today.

(** A payload whose current temperature is 21.6 and whose humidity is
    missing, with timestamps on the hour that do not include the current
    quarter of an hour. *)
Definition payload_21_6 : Forecast :=
  {| current := Some
       {| Current.time := Some (js "2024-05-01T10:15");
          Current.temperature_2m := Number 21.6;
          Current.apparent_temperature := Number 20.4;
          Current.relative_humidity_2m := Undefined;
          Current.precipitation := Null;
          Current.weather_code := Number 0;
          Current.wind_speed_10m := Number 7.5 |};
     hourly := Some
       {| Hourly.time := Some [js "2024-05-01T00:00"; js "2024-05-01T01:00"; js "2024-05-01T02:00"];
          Hourly.temperature_2m := Some [Number 18; Number 17.5; Number 17];
          Hourly.precipitation_probability := Some [Number 40; Number 55; Null];
          Hourly.wind_speed_10m := Some [Number 5; Number 6; Number 6.5] |};
     daily := Some
       {| Daily.time := Some [js "2024-05-01"; js "2024-05-02"];
          Daily.temperature_2m_max := Some [Number 24.4; Number 25.5];
          Daily.temperature_2m_min := Some [Number 12.5; Number 13.2];
          Daily.precipitation_sum := Some [Number 0; Null];
          Daily.precipitation_probability_max := Some [Number 40; Null];
          Daily.weather_code := Some [Number 0; Number 61] |} |}.

(** The page once Kathmandu has been set as the current place. *)
Definition page_kathmandu (chartjs : bool) : State :=
  setPlace (js "Kathmandu, Bagmati, Nepal") 27.7 85.32 (js "auto")
    (initial_state chartjs).

Lemma setTodayCard_rounds_temperature_witness :
  exists s',
    setTodayCard demo_host payload_21_6 (page_kathmandu true) = Done s' (Return tt)
    /\ shown "tempNow" s' = Some (Numeral (Fin 22))
    /\ shown "humNow" s' = Some (Str (js "—")).
Proof.
  destruct (setTodayCard_rounds_temperature demo_host payload_21_6 _
              (page_kathmandu true) eq_refl)
    as (s' & r & E & _ & Htemp & Hhum & _ & Hr).
  exists s'. split; [| split].
  - rewrite E. f_equal. apply Hr; eexists; reflexivity.
  - apply Htemp. reflexivity.
  - apply Hhum. left. reflexivity.
Defined.

(** ** Rain chance now *)

Lemma indexOf_from_first (arr : list jsstr) (x : jsstr) (n k : nat) :
  arr !! k = Some x ->
  (forall j, (j < k)%nat -> arr !! j <> Some x) ->
  indexOf_from arr x n = Some (n + k)%nat.
Proof.
  revert n k. induction arr as [| y r IH]; intros n k Hk Hfirst.
  - destruct k; discriminate.
  - simpl. destruct k as [| k].
    + simpl in Hk. injection Hk as ->.
      rewrite bool_decide_eq_true_2 by reflexivity. f_equal. lia.
    + rewrite bool_decide_eq_false_2.
      * rewrite (IH (S n) k).
        -- f_equal. lia.
        -- exact Hk.
        -- intros j Hj. apply (Hfirst (S j)). lia.
      * intros ->. apply (Hfirst 0%nat); [lia | reflexivity].
Qed.

Lemma indexOf_from_absent (arr : list jsstr) (x : jsstr) (n : nat) :
  x ∉ arr -> indexOf_from arr x n = None.
Proof.
  revert n. induction arr as [| y r IH]; intros n Hx; [reflexivity |].
  simpl. apply not_elem_of_cons in Hx as [Hne Hr].
  rewrite bool_decide_eq_false_2 by congruence.
  apply IH. exact Hr.
Qed.

Section Rain.

Variable host : Host.

(** C8. The "rain chance now" figure.  [getClosestHourly] returns the
    entry of [hourly.precipitation_probability] at the first index whose
    timestamp equals [current.time]; when no hourly timestamp equals it,
    the entry at index 0; when [data.hourly], its [time] array or its
    probability array cannot be read, [null].  [setTodayCard] shows the
    figure rounded, and shows the placeholder ["—"] when it is [null] or
    [undefined]. *)
Theorem rain_chance_now (data : Forecast) (c : Current.t) :
  current data = Some c ->
  (forall h times col,
     hourly data = Some h ->
     Hourly.time h = Some times ->
     Hourly.precipitation_probability h = Some col ->
     (forall now idx,
        Current.time c = Some now ->
        times !! idx = Some now ->
        (forall j, (j < idx)%nat -> times !! j <> Some now) ->
        getClosestHourly host data Key.precipitation_probability = index col idx)
     /\ ((forall now, Current.time c = Some now -> now ∉ times) ->
         getClosestHourly host data Key.precipitation_probability = index col 0))
  /\ (hourly data = None
      \/ (exists h, hourly data = Some h
                    /\ (Hourly.time h = None
                        \/ Hourly.precipitation_probability h = None)) ->
      getClosestHourly host data Key.precipitation_probability = Null)
  /\ (forall s, exists s' r,
        setTodayCard host data s = Done s' r
        /\ shown "rainNow" s'
           = Some match getClosestHourly host data Key.precipitation_probability with
                  | Number q => Numeral (Fin (inject_Z (round_half_up q)))
                  | _ => Str (js "—")
                  end).
Proof.
  intros Hc. split; [| split].
  - intros h times col Hh Ht Hcol. split.
    + intros now idx Hnow Hidx Hfirst.
      unfold getClosestHourly, getClosestHourly_try, read, indexOf.
      rewrite Hc, Hh, Ht, Hnow.
      rewrite (indexOf_from_first times now 0 idx Hidx Hfirst).
      simpl. rewrite Hcol. reflexivity.
    + intros Hnone.
      unfold getClosestHourly, getClosestHourly_try, read, indexOf.
      rewrite Hc, Hh, Ht.
      destruct (Current.time c) as [now |].
      * rewrite (indexOf_from_absent times now 0 (Hnone now eq_refl)).
        simpl. rewrite Hcol. reflexivity.
      * simpl. rewrite Hcol. reflexivity.
  - unfold getClosestHourly, getClosestHourly_try, read.
    rewrite Hc.
    intros [Hh | (h & Hh & [Ht | Hcol])]; rewrite Hh; [reflexivity | |].
    + rewrite Ht. reflexivity.
    + destruct (Hourly.time h) as [times |]; [| reflexivity].
      destruct (indexOf times (Current.time c)); simpl; rewrite Hcol; reflexivity.
  - intros s. rewrite setTodayCard_run, Hc.
    assert (Hw : shown "rainNow" (today_written host data c s)
                 = Some match getClosestHourly host data Key.precipitation_probability with
                        | Number q => Numeral (Fin (inject_Z (round_half_up q)))
                        | _ => Str (js "—")
                        end).
    { unfold today_written. cbv zeta. repeat shown_step.
      destruct (getClosestHourly host data Key.precipitation_probability);
        reflexivity. }
    destruct (Place.lat (currentPlace s)) as [lat |];
      [destruct (Place.lon (currentPlace s)) as [lon |] |];
      eexists _, _; (split; [reflexivity |]);
      rewrite ?shown_set_ne by discriminate; exact Hw.
Qed.

End Rain.

Lemma rain_chance_now_witness :
  getClosestHourly demo_host payload_21_6 Key.precipitation_probability = Number 40
  /\ exists s' r,
       setTodayCard demo_host payload_21_6 (page_kathmandu true) = Done s' r
       /\ shown "rainNow" s' = Some (Numeral (Fin 40)).
Proof.
  destruct (rain_chance_now demo_host payload_21_6 _ eq_refl) as (Hsel & _ & Hshow).
  destruct (Hsel _ _ _ eq_refl eq_refl eq_refl) as [_ Hfirst].
  assert (E : getClosestHourly demo_host payload_21_6 Key.precipitation_probability
              = Number 40).
  { rewrite Hfirst; [reflexivity |].
    intros now Hnow. injection Hnow as <-.
    intros Hin. repeat (apply elem_of_cons in Hin as [Hin | Hin]; [discriminate |]).
    inversion Hin. }
  split; [exact E |].
  destruct (Hshow (page_kathmandu true)) as (s' & r & Hrun & Hrain).
  exists s', r. split; [exact Hrun |].
  rewrite Hrain, E. reflexivity.
Defined.

(** ** The load sequences *)

Section Flow.

Variable host : Host.

(** The request [forecast] builds on a given state. *)
Definition forecast_request (lat lon : Q) (tz : jsstr) (s : State) : ForecastRequest :=
  {| rq_latitude := lat; rq_longitude := lon; rq_timezone := tz;
     rq_temperature_unit :=
       match unit' s with Unit.F => js "fahrenheit" | Unit.C => js "celsius" end;
     rq_windspeed_unit := js "kmh";
     rq_forecast_days := 7 |}.

(** The [catch] clause of [loadWeatherByCoords]. *)
Definition coords_catch (err : exn) : M unit :=
  act (showError (js "Could not load weather")
         (message_or err (js "Check your internet and try again."))).

(** The statements of [loadWeatherByCoords] that follow the [await]. *)
Definition render (data : Forecast) : M unit :=
  let! c := lift (read host (current data)) in
  act (setTimePill host (Current.time c)) >>
  setTodayCard host data >>
  buildForecastCards host data >>
  let! series := lift (next24HoursSeries host data) in
  act (makeCharts series) >>
  act (set_textContent "statusPill" (Str (js "Updated"))).

(** [loadWeatherByCoords] from the moment the response is there. *)
Definition coords_resume (res : response Forecast) : M unit :=
  try_finally
    (try_catch (let! data := lift (forecast_response res) in render data)
       coords_catch)
    (setLoading false).

(** Up to the [await]: the error box is hidden, the loading indicator is
    shown, the place is overwritten, and the request goes out. *)
Lemma loadWeatherByCoords_start (lat lon : Q) (label tz : jsstr) (s : State) :
  isWellFormed tz = true ->
  loadWeatherByCoords host lat lon label tz s
  = AwaitForecast
      (setPlace label lat lon tz (setLoading true (clearError s)))
      (forecast_request lat lon tz s)
      coords_resume.
Proof.
  intros Htz. unfold loadWeatherByCoords, forecast, bind, act, try_finally, try_catch.
  cbn [bindP catchP finallyP]. cbv zeta. rewrite Htz. reflexivity.
Qed.

(** The timezone the script passes everywhere. *)
Lemma loadWeatherByCoords_auto (lat lon : Q) (label : jsstr) (s : State) :
  loadWeatherByCoords host lat lon label (js "auto") s
  = AwaitForecast
      (setPlace label lat lon (js "auto") (setLoading true (clearError s)))
      (forecast_request lat lon (js "auto") s)
      coords_resume.
Proof. apply loadWeatherByCoords_start. reflexivity. Qed.

(** A timezone that [encodeURIComponent] refuses: no request; the error
    is shown at once, after the place has been overwritten. *)
Lemma loadWeatherByCoords_malformed (lat lon : Q) (label tz : jsstr) (s : State) :
  isWellFormed tz = false ->
  loadWeatherByCoords host lat lon label tz s
  = Done (setLoading false
            (showError (js "Could not load weather")
               (message_or (URIError host) (js "Check your internet and try again."))
               (setPlace label lat lon tz (setLoading true (clearError s)))))
         (Return tt).
Proof.
  intros Htz. unfold loadWeatherByCoords, forecast, bind, act, try_finally, try_catch.
  cbn [bindP catchP finallyP]. cbv zeta. rewrite Htz. reflexivity.
Qed.

(** A failed fetch: the error is shown and the indicator cleared. *)
Lemma coords_resume_failure (res : response Forecast) (e : exn) (s : State) :
  forecast_response res = Throw e ->
  coords_resume res s
  = Done (setLoading false
            (showError (js "Could not load weather")
               (message_or e (js "Check your internet and try again.")) s))
         (Return tt).
Proof.
  intros E. unfold coords_resume, try_finally, try_catch, bind, lift.
  rewrite E. reflexivity.
Qed.

(** The [catch] clause of [loadWeatherByCityName]. *)
Definition city_catch (err : exn) : M unit :=
  act (showError (js "City search failed") (message_or err (js "Try again."))).

(** [loadWeatherByCityName] from the moment the response is there. *)
Definition city_resume (res : response GeoBody) : M unit :=
  try_finally
    (try_catch
       (let! g := lift (geocode_response res) in
        if no_results g then
          act (showError (js "No results")
                 (js "Try a different city name (example: Pune, Kathmandu, Patna)."))
        else
          let! r := lift (read host (head (results_or_empty g))) in
          loadWeatherByCoords host (Candidate.latitude r) (Candidate.longitude r)
            (place_label r) (js "auto"))
       city_catch)
    (setLoading false).

Lemma loadWeatherByCityName_start (name : jsstr) (s : State) :
  isWellFormed name = true ->
  loadWeatherByCityName host name s
  = AwaitGeocode (setLoading true (clearError s)) name city_resume.
Proof.
  intros Hname. unfold loadWeatherByCityName, geocode, bind, act, try_finally, try_catch.
  cbn [bindP catchP finallyP]. rewrite Hname. reflexivity.
Qed.

(** A name that [encodeURIComponent] refuses: no request; the search
    fails at once. *)
Lemma loadWeatherByCityName_malformed (name : jsstr) (s : State) :
  isWellFormed name = false ->
  loadWeatherByCityName host name s
  = Done (setLoading false
            (showError (js "City search failed")
               (message_or (URIError host) (js "Try again."))
               (setLoading true (clearError s))))
         (Return tt).
Proof.
  intros Hname. unfold loadWeatherByCityName, geocode, bind, act, try_finally, try_catch.
  cbn [bindP catchP finallyP]. rewrite Hname. reflexivity.
Qed.

Lemma city_resume_no_results (g : GeoBody) (s : State) :
  no_results g = true ->
  city_resume (Json g) s
  = Done (setLoading false
            (showError (js "No results")
               (js "Try a different city name (example: Pune, Kathmandu, Patna).") s))
         (Return tt).
Proof.
  intros E. unfold city_resume, try_finally, try_catch, bind, lift.
  cbn [geocode_response bindP]. rewrite E. reflexivity.
Qed.

Lemma city_resume_failure (res : response GeoBody) (e : exn) (s : State) :
  geocode_response res = Throw e ->
  city_resume res s
  = Done (setLoading false
            (showError (js "City search failed") (message_or e (js "Try again.")) s))
         (Return tt).
Proof.
  intros E. unfold city_resume, try_finally, try_catch, bind, lift.
  rewrite E. reflexivity.
Qed.

(** What an error message leaves alone. *)
Lemma showError_frame (title subtitle : jsstr) (s : State) :
  currentPlace (showError title subtitle s) = currentPlace s
  /\ charts (showError title subtitle s) = charts s
  /\ forecastGrid (showError title subtitle s) = forecastGrid s
  /\ unit' (showError title subtitle s) = unit' s
  /\ shown "placePill" (showError title subtitle s) = shown "placePill" s.
Proof.
  unfold showError. repeat split; try reflexivity.
  rewrite !shown_set_ne by discriminate. reflexivity.
Qed.

Lemma showError_shown (title subtitle : jsstr) (id : string) (s : State) :
  id <> "statusPill" -> id <> "errorTitle" -> id <> "errorSub" ->
  shown id (showError title subtitle s) = shown id s.
Proof.
  intros H1 H2 H3. unfold showError.
  rewrite !shown_set_ne by assumption. reflexivity.
Qed.

Lemma setLoading_shown (b : bool) (id : string) (s : State) :
  id <> "statusPill" -> shown id (setLoading b s) = shown id s.
Proof.
  intros H. unfold setLoading. rewrite shown_set_ne by exact H.
  destruct b; reflexivity.
Qed.

Lemma setLoading_frame (b : bool) (s : State) :
  currentPlace (setLoading b s) = currentPlace s
  /\ charts (setLoading b s) = charts s
  /\ forecastGrid (setLoading b s) = forecastGrid s
  /\ unit' (setLoading b s) = unit' s
  /\ (forall id, id <> "statusPill" -> shown id (setLoading b s) = shown id s).
Proof.
  unfold setLoading. destruct b; repeat split; try reflexivity;
    intros id Hid; rewrite shown_set_ne by exact Hid; reflexivity.
Qed.

Lemma classList_setLoading (b : bool) (s : State) :
  classList (setLoading b s)
  = if b then classList s ∖ {[ ("loading", "hidden") ]}
    else {[ ("loading", "hidden") ]} ∪ classList s.
Proof. destruct b; reflexivity. Qed.

Lemma classList_showError (title subtitle : jsstr) (s : State) :
  classList (showError title subtitle s) = classList s ∖ {[ ("errorBox", "hidden") ]}.
Proof. reflexivity. Qed.

Lemma classList_set_textContent (id : string) (v : text) (s : State) :
  classList (set_textContent id v s) = classList s.
Proof. reflexivity. Qed.

Lemma errorBox_not_hidden (b : bool) (cl : gset (string * string)) :
  ("errorBox", "hidden")
    ∉ (if b then (cl ∖ {[ ("errorBox", "hidden") ]}) ∖ {[ ("loading", "hidden") ]}
       else {[ ("loading", "hidden") ]} ∪ (cl ∖ {[ ("errorBox", "hidden") ]})).
Proof.
  destruct b; intros H.
  - apply elem_of_difference in H as [H _].
    apply elem_of_difference in H as [_ H]. apply H. apply elem_of_singleton. reflexivity.
  - apply elem_of_union in H as [H | H].
    + apply elem_of_singleton in H. discriminate.
    + apply elem_of_difference in H as [_ H]. apply H. apply elem_of_singleton. reflexivity.
Qed.

Lemma errorBox_visible_after_showError (title subtitle : jsstr) (b : bool) (s : State) :
  classList_contains "errorBox" "hidden" (setLoading b (showError title subtitle s)) = false
  /\ shown "errorTitle" (setLoading b (showError title subtitle s)) = Some (Str title)
  /\ shown "errorSub" (setLoading b (showError title subtitle s)) = Some (Str subtitle).
Proof.
  split; [| split].
  - unfold classList_contains. apply bool_decide_eq_false_2.
    rewrite classList_setLoading, classList_showError.
    apply errorBox_not_hidden.
  - destruct (setLoading_frame b (showError title subtitle s)) as (_ & _ & _ & _ & H).
    rewrite H by (intros ?; discriminate). unfold showError. shown_solve.
  - destruct (setLoading_frame b (showError title subtitle s)) as (_ & _ & _ & _ & H).
    rewrite H by (intros ?; discriminate). unfold showError. shown_solve.
Qed.

(** C10. [loadWeatherByCoords] overwrites the current place (and the
    label shown in [placePill]) with the requested one before it issues
    the forecast request; when the fetch then fails, by rejection or by a
    response that is not ok, the error path shows the error and leaves the
    place as it finds it: the new place stays, the previous one is not
    restored.  The same holds when the request cannot even be built (a
    timezone [encodeURIComponent] refuses; the script only ever passes
    "auto"): the place is overwritten, the error is shown, and the
    place is not restored. *)
Theorem place_overwritten_before_fetch
    (lat lon : Q) (label tz : jsstr) (s : State) :
  (isWellFormed tz = true ->
   exists s1 rq k,
     loadWeatherByCoords host lat lon label tz s = AwaitForecast s1 rq k
     /\ currentPlace s1
        = {| Place.name := label; Place.lat := Some lat; Place.lon := Some lon;
             Place.tz := tz |}
     /\ shown "placePill" s1 = Some (Str label)
     /\ (forall res,
           res = NotOk \/ (exists e, res = Rejects e) ->
           (forall s2, exists s3,
              k res s2 = Done s3 (Return tt)
              /\ currentPlace s3 = currentPlace s2
              /\ shown "placePill" s3 = shown "placePill" s2
              /\ shown "errorTitle" s3 = Some (Str (js "Could not load weather")))
           /\ exists s3,
                k res s1 = Done s3 (Return tt)
                /\ currentPlace s3
                   = {| Place.name := label; Place.lat := Some lat;
                        Place.lon := Some lon; Place.tz := tz |}
                /\ shown "placePill" s3 = Some (Str label)))
  /\ (isWellFormed tz = false ->
      exists s3,
        loadWeatherByCoords host lat lon label tz s = Done s3 (Return tt)
        /\ currentPlace s3
           = {| Place.name := label; Place.lat := Some lat;
                Place.lon := Some lon; Place.tz := tz |}
        /\ shown "placePill" s3 = Some (Str label)
        /\ shown "errorTitle" s3 = Some (Str (js "Could not load weather"))).
Proof.
  split; [intros Htz | intros Htz].
  2: { eexists. split; [apply (loadWeatherByCoords_malformed _ _ _ _ _ Htz) |].
       set (s1 := setPlace label lat lon tz (setLoading true (clearError s))).
       set (sub := message_or (URIError host) (js "Check your internet and try again.")).
       destruct (setLoading_frame false (showError (js "Could not load weather") sub s1))
         as (Hp & _ & _ & _ & Hs).
       destruct (showError_frame (js "Could not load weather") sub s1)
         as (Hp' & _ & _ & _ & Hs').
       split; [rewrite Hp, Hp'; reflexivity |].
       split; [rewrite Hs by discriminate; rewrite Hs'; unfold s1, setPlace; shown_solve |].
       apply errorBox_visible_after_showError. }
  eexists _, _, _. split; [apply (loadWeatherByCoords_start _ _ _ _ _ Htz) |].
  split; [reflexivity |]. split; [unfold setPlace; shown_solve |].
  intros res Hres.
  assert (Hfail : exists e, forecast_response res = Throw e).
  { destruct Hres as [-> | [e ->]]; eexists; reflexivity. }
  destruct Hfail as [e He].
  assert (Hany : forall s2, exists s3,
             coords_resume res s2 = Done s3 (Return tt)
             /\ currentPlace s3 = currentPlace s2
             /\ shown "placePill" s3 = shown "placePill" s2
             /\ shown "errorTitle" s3 = Some (Str (js "Could not load weather"))).
  { intros s2. eexists. split; [apply (coords_resume_failure res e s2 He) |].
    destruct (setLoading_frame false
                (showError (js "Could not load weather")
                   (message_or e (js "Check your internet and try again.")) s2))
      as (Hp & _ & _ & _ & Hs).
    destruct (showError_frame (js "Could not load weather")
                (message_or e (js "Check your internet and try again.")) s2)
      as (Hp' & _ & _ & _ & Hs').
    split; [rewrite Hp; exact Hp' |].
    split; [rewrite Hs by discriminate; exact Hs' |].
    apply errorBox_visible_after_showError. }
  split; [exact Hany |].
  destruct (Hany (setPlace label lat lon tz (setLoading true (clearError s))))
    as (s3 & E & Hp & Hs & _).
  exists s3. split; [exact E |]. split.
  - rewrite Hp. reflexivity.
  - rewrite Hs. unfold setPlace. shown_solve.
Qed.

(** C3. A search whose geocoding response carries no result (a [null]
    body, no [results] key, or an empty [results] array) ends with the
    error box showing ["No results"]; no forecast request follows, and the
    current place, the charts and the forecast grid are as they were.  A
    transport failure (the request rejects, or the response is not ok)
    ends instead with the error box showing ["City search failed"], a
    different title.  So does a name for which no request can be built (a
    lone surrogate, which [encodeURIComponent] refuses): the search fails
    at once, without a request, and the place is as it was. *)
Theorem no_results_leaves_place (name : jsstr) (s : State) :
  (isWellFormed name = true ->
   exists s1 k,
     loadWeatherByCityName host name s = AwaitGeocode s1 name k
     /\ (forall g s2,
           no_results g = true ->
           exists s3,
             k (Json g) s2 = Done s3 (Return tt)
             /\ classList_contains "errorBox" "hidden" s3 = false
             /\ shown "errorTitle" s3 = Some (Str (js "No results"))
             /\ currentPlace s3 = currentPlace s2
             /\ shown "placePill" s3 = shown "placePill" s2
             /\ charts s3 = charts s2
             /\ forecastGrid s3 = forecastGrid s2)
     /\ (forall res s2,
           res = NotOk \/ (exists e, res = Rejects e) ->
           exists s3,
             k res s2 = Done s3 (Return tt)
             /\ classList_contains "errorBox" "hidden" s3 = false
             /\ shown "errorTitle" s3 = Some (Str (js "City search failed"))
             /\ currentPlace s3 = currentPlace s2)
     /\ (forall s2, exists s3,
           k NotOk s2 = Done s3 (Return tt)
           /\ shown "errorSub" s3 = Some (Str (js "Geocoding request failed.")))
     /\ js "No results" <> js "City search failed")
  /\ (isWellFormed name = false ->
      exists s3,
        loadWeatherByCityName host name s = Done s3 (Return tt)
        /\ classList_contains "errorBox" "hidden" s3 = false
        /\ shown "errorTitle" s3 = Some (Str (js "City search failed"))
        /\ currentPlace s3 = currentPlace s
        /\ shown "placePill" s3 = shown "placePill" s
        /\ charts s3 = charts s
        /\ forecastGrid s3 = forecastGrid s).
Proof.
  split; [intros Hname | intros Hname].
  2: { eexists. split; [apply (loadWeatherByCityName_malformed _ _ Hname) |].
       set (sub := message_or (URIError host) (js "Try again.")).
       set (s1 := setLoading true (clearError s)).
       destruct (setLoading_frame false (showError (js "City search failed") sub s1))
         as (Hp & Hc & Hg & _ & Hs).
       destruct (showError_frame (js "City search failed") sub s1)
         as (Hp' & Hc' & Hg' & _ & Hs').
       destruct (errorBox_visible_after_showError (js "City search failed") sub false s1)
         as (Hbox & Ht & _).
       split; [exact Hbox |]. split; [exact Ht |].
       split; [rewrite Hp, Hp'; reflexivity |].
       split; [rewrite Hs by discriminate; rewrite Hs';
               unfold s1; rewrite setLoading_shown by discriminate; reflexivity |].
       split; [rewrite Hc, Hc'; reflexivity | rewrite Hg, Hg'; reflexivity]. }
  eexists _, _. split; [apply (loadWeatherByCityName_start _ _ Hname) |].
  split; [| split; [| split]].
  - intros g s2 Hg. eexists. split; [apply (city_resume_no_results g s2 Hg) |].
    set (title := js "No results").
    set (sub := js "Try a different city name (example: Pune, Kathmandu, Patna).").
    destruct (setLoading_frame false (showError title sub s2))
      as (Hp & Hc & Hg' & _ & Hs).
    destruct (showError_frame title sub s2) as (Hp' & Hc' & Hg'' & _ & Hs').
    destruct (errorBox_visible_after_showError title sub false s2) as (Hbox & Ht & _).
    split; [exact Hbox |]. split; [exact Ht |].
    split; [rewrite Hp; exact Hp' |].
    split; [rewrite Hs by discriminate; exact Hs' |].
    split; [rewrite Hc; exact Hc' | rewrite Hg'; exact Hg''].
  - intros res s2 Hres.
    assert (Hfail : exists e, geocode_response res = Throw e).
    { destruct Hres as [-> | [e ->]]; eexists; reflexivity. }
    destruct Hfail as [e He].
    eexists. split; [apply (city_resume_failure res e s2 He) |].
    destruct (errorBox_visible_after_showError (js "City search failed")
                (message_or e (js "Try again.")) false s2) as (Hbox & Ht & _).
    split; [exact Hbox |]. split; [exact Ht |].
    destruct (setLoading_frame false
                (showError (js "City search failed") (message_or e (js "Try again.")) s2))
      as (Hp & _).
    rewrite Hp. apply showError_frame.
  - intros s2. eexists.
    split; [apply (city_resume_failure NotOk _ s2 eq_refl) |].
    destruct (errorBox_visible_after_showError (js "City search failed")
                (message_or (Error (js "Geocoding request failed.")) (js "Try again."))
                false s2) as (_ & _ & Hsub).
    rewrite Hsub.
    replace (message_or (Error (js "Geocoding request failed.")) (js "Try again."))
      with (js "Geocoding request failed.") by (vm_compute; reflexivity).
    reflexivity.
  - vm_compute. discriminate.
Qed.

End Flow.

Lemma place_overwritten_before_fetch_witness :
  exists s1 rq k s3,
    loadWeatherByCoords demo_host 18.52 73.86 (js "Pune") (js "auto")
      (page_kathmandu true) = AwaitForecast s1 rq k
    /\ k NotOk s1 = Done s3 (Return tt)
    /\ Place.name (currentPlace s3) = js "Pune"
    /\ Place.lat (currentPlace s3) = Some 18.52%Q.
Proof.
  destruct (place_overwritten_before_fetch demo_host 18.52 73.86 (js "Pune")
              (js "auto") (page_kathmandu true)) as [Hwf _].
  destruct (Hwf eq_refl) as (s1 & rq & k & E & _ & _ & Hfail).
  destruct (Hfail NotOk (or_introl eq_refl)) as (_ & s3 & E3 & Hp & _).
  exists s1, rq, k, s3. split; [exact E |]. split; [exact E3 |].
  rewrite Hp. split; reflexivity.
Defined.

Lemma no_results_leaves_place_witness :
  exists s1 k s3,
    loadWeatherByCityName demo_host (js "zzqxnotaplace") (page_kathmandu true)
      = AwaitGeocode s1 (js "zzqxnotaplace") k
    /\ k (Json (GeoObject None)) s1 = Done s3 (Return tt)
    /\ shown "errorTitle" s3 = Some (Str (js "No results"))
    /\ Place.name (currentPlace s3) = js "Kathmandu, Bagmati, Nepal"
    /\ charts s3 = {| tempChart := None; rainChart := None; windChart := None |}.
Proof.
  destruct (no_results_leaves_place demo_host (js "zzqxnotaplace") (page_kathmandu true))
    as [Hwf _].
  destruct (Hwf eq_refl) as (s1 & k & E & Hnone & _).
  destruct (Hnone (GeoObject None) s1 eq_refl)
    as (s3 & E3 & _ & Ht & Hp & _ & Hc & _).
  exists s1, k, s3. split; [exact E |]. split; [exact E3 |]. split; [exact Ht |].
  rewrite Hp, Hc.
  assert (Es1 : s1 = setLoading true (clearError (page_kathmandu true))).
  { rewrite loadWeatherByCityName_start in E by reflexivity.
    injection E as <- _. reflexivity. }
  rewrite Es1. split; reflexivity.
Defined.

(** ** Autocomplete and the debounce timer *)

Section Timers_facts.

Variable host : Host.

Lemma handleAutocomplete_short (s : State) :
  (length (trim (cityInput_value s)) < 2)%nat ->
  handleAutocomplete host s = Done (hideSuggestions s) (Return tt).
Proof.
  intros Hlen. unfold handleAutocomplete. run_proc.
  destruct (Nat.ltb_spec (length (trim (cityInput_value s))) 2); [reflexivity | lia].
Qed.

Lemma handleAutocomplete_query (s : State) :
  (2 <= length (trim (cityInput_value s)))%nat ->
  isWellFormed (trim (cityInput_value s)) = true ->
  exists k, handleAutocomplete host s = AwaitGeocode s (trim (cityInput_value s)) k.
Proof.
  intros Hlen Hwf. unfold handleAutocomplete. run_proc.
  destruct (Nat.ltb_spec (length (trim (cityInput_value s))) 2); [lia |].
  unfold try_catch, bind, geocode. rewrite Hwf. cbn [bindP catchP].
  eexists. reflexivity.
Qed.

(** A text [encodeURIComponent] refuses: no request; the error is
    swallowed and the list closed. *)
Lemma handleAutocomplete_malformed (s : State) :
  (2 <= length (trim (cityInput_value s)))%nat ->
  isWellFormed (trim (cityInput_value s)) = false ->
  handleAutocomplete host s = Done (hideSuggestions s) (Return tt).
Proof.
  intros Hlen Hwf. unfold handleAutocomplete. run_proc.
  destruct (Nat.ltb_spec (length (trim (cityInput_value s))) 2); [lia |].
  unfold try_catch, bind, geocode. rewrite Hwf. reflexivity.
Qed.

(** The requests a firing of the debounce timer adds, by the text in
    the field. *)
Definition autocomplete_requests (value : jsstr) : list Request :=
  if (length (trim value) <? 2)%nat then []
  else if isWellFormed (trim value) then [GeocodeRequest (trim value)]
  else [].

Lemma handleAutocomplete_effect (s : State) :
  request_of (handleAutocomplete host s) = autocomplete_requests (cityInput_value s)
  /\ timers (state_of (handleAutocomplete host s)) = timers s
  /\ debounceTimer (state_of (handleAutocomplete host s)) = debounceTimer s
  /\ cityInput_value (state_of (handleAutocomplete host s)) = cityInput_value s.
Proof.
  unfold autocomplete_requests.
  destruct (Nat.ltb_spec (length (trim (cityInput_value s))) 2) as [Hlt | Hge].
  - rewrite (handleAutocomplete_short s Hlt). repeat split; reflexivity.
  - destruct (isWellFormed (trim (cityInput_value s))) eqn:Hwf.
    + destruct (handleAutocomplete_query s Hge Hwf) as [k ->]. repeat split; reflexivity.
    + rewrite (handleAutocomplete_malformed s Hge Hwf). repeat split; reflexivity.
Qed.

(** Whitespace-only text, the empty text included, trims to the empty
    string. *)
Lemma trimStart_blank (v : jsstr) : forallb is_space v = true -> trimStart v = [].
Proof.
  induction v as [| c r IH]; [reflexivity |].
  simpl. intros H. apply andb_prop in H as [Hc Hr].
  rewrite Hc. apply IH. exact Hr.
Qed.

Lemma trim_blank (v : jsstr) : forallb is_space v = true -> trim v = [].
Proof.
  intros H. unfold trim, trimEnd. rewrite (trimStart_blank v H). reflexivity.
Qed.

Lemma suggestions_hidden (t : option Z) (s : State) :
  classList_contains "suggestions" "show"
    (match t with Some t => set_clock t (hideSuggestions s) | None => hideSuggestions s end)
  = false.
Proof.
  unfold classList_contains. apply bool_decide_eq_false_2.
  assert (E : classList
                (match t with Some t => set_clock t (hideSuggestions s) | None => hideSuggestions s end)
              = classList s ∖ {[ ("suggestions", "show") ]})
    by (destruct t; reflexivity).
  rewrite E. intros H. apply elem_of_difference in H as [_ H].
  apply H. apply elem_of_singleton. reflexivity.
Qed.

(** The only timeout that can be pending is the one the script
    remembers in [debounceTimer]. *)
Definition one_timer (s : State) : Prop :=
  forall p, In p (pending (timers s)) -> debounceTimer s = Some (fst p).

Lemma filter_out_all (id : positive) (l : list (positive * Z)) :
  (forall p, In p l -> fst p = id) ->
  List.filter (fun p => negb (Pos.eqb (fst p) id)) l = [].
Proof.
  induction l as [| p r IH]; intros Hall; [reflexivity |].
  simpl. rewrite (Hall p (or_introl eq_refl)), Pos.eqb_refl. simpl.
  apply IH. intros q Hq. apply Hall. right. exact Hq.
Qed.

(** A keystroke cancels whatever timeout was pending and arms a new
    one, due 280 ms from now. *)
Lemma cityInput_input_timer (v : jsstr) (s : State) :
  one_timer s ->
  pending (timers (cityInput_input (set_cityInput_value v s)))
    = [(next_id (timers s), clock (timers s) + 280)]
  /\ debounceTimer (cityInput_input (set_cityInput_value v s))
     = Some (next_id (timers s))
  /\ clock (timers (cityInput_input (set_cityInput_value v s))) = clock (timers s)
  /\ cityInput_value (cityInput_input (set_cityInput_value v s)) = v.
Proof.
  intros Hone. unfold cityInput_input, clearError. state_proj.
  assert (Hempty :
            pending (timers
              match debounceTimer s with
              | Some id => clearTimeout id (classList_add "errorBox" "hidden" (set_cityInput_value v s))
              | None => classList_add "errorBox" "hidden" (set_cityInput_value v s)
              end) = []
            /\ clock (timers
              match debounceTimer s with
              | Some id => clearTimeout id (classList_add "errorBox" "hidden" (set_cityInput_value v s))
              | None => classList_add "errorBox" "hidden" (set_cityInput_value v s)
              end) = clock (timers s)
            /\ next_id (timers
              match debounceTimer s with
              | Some id => clearTimeout id (classList_add "errorBox" "hidden" (set_cityInput_value v s))
              | None => classList_add "errorBox" "hidden" (set_cityInput_value v s)
              end) = next_id (timers s)
            /\ cityInput_value
              match debounceTimer s with
              | Some id => clearTimeout id (classList_add "errorBox" "hidden" (set_cityInput_value v s))
              | None => classList_add "errorBox" "hidden" (set_cityInput_value v s)
              end = v).
  { unfold one_timer in Hone. destruct (debounceTimer s) as [id |] eqn:Hd.
    - unfold clearTimeout. state_proj. cbn [pending clock next_id].
      split; [| repeat split].
      apply filter_out_all. intros p Hp.
      specialize (Hone p Hp). congruence.
    - state_proj. split; [| repeat split].
      destruct (pending (timers s)) as [| p r]; [reflexivity |].
      specialize (Hone p (or_introl eq_refl)). discriminate. }
  destruct Hempty as (Hp & Hc & Hn & Hv).
  unfold setTimeout. state_proj. cbn [pending clock next_id].
  rewrite Hp, Hc, Hn, Hv. repeat split.
Qed.

(** Firing timeouts keeps the discipline: the callback touches neither
    the timer table nor [debounceTimer]. *)
Lemma fire_one_timer (l : list (positive * Z)) (w : World) :
  one_timer (page w) -> one_timer (page (fire host l w)).
Proof.
  revert w. induction l as [| [id d] r IH]; intros w Hone; [exact Hone |].
  simpl. destruct (is_pending id (page w)); [| apply IH; exact Hone].
  apply IH. unfold start, settle, on_page. cbn [page].
  destruct (handleAutocomplete_effect (clearTimeout id (set_clock d (page w))))
    as (_ & Ht & Hd & _).
  unfold one_timer. rewrite Ht, Hd.
  unfold clearTimeout, set_clock. state_proj. cbn [pending].
  intros p Hp. apply filter_In in Hp as [Hp _]. apply Hone. exact Hp.
Qed.

Lemma advance_one_timer (t : Z) (w : World) :
  one_timer (page w) -> one_timer (page (advance host t w)).
Proof.
  intros Hone. unfold advance, on_page. cbn [page].
  pose proof (fire_one_timer (due t (timers (page w))) w Hone) as H.
  unfold one_timer, set_clock in *. state_proj. cbn [pending]. exact H.
Qed.

Lemma advance_clock (t : Z) (w : World) :
  t <= clock (timers (page (advance host t w))).
Proof.
  unfold advance, on_page, set_clock. cbn [page]. state_proj. cbn [clock]. lia.
Qed.

(** With a single timeout pending, time passing either leaves it pending
    or fires it once. *)
Lemma advance_single (id : positive) (d T : Z) (w : World) :
  pending (timers (page w)) = [(id, d)] ->
  advance host T w =
  if d <=? T then
    on_page (set_clock T)
      (start (handleAutocomplete host)
         (on_page (fun s => clearTimeout id (set_clock d s)) w))
  else on_page (set_clock T) w.
Proof.
  intros Hp. unfold advance, due. rewrite Hp. simpl.
  destruct (d <=? T); simpl; [| reflexivity].
  unfold is_pending. rewrite Hp. simpl. rewrite Pos.eqb_refl. reflexivity.
Qed.

Lemma insert_due_In (x p : positive * Z) (l : list (positive * Z)) :
  In p (insert_due x l) -> p = x \/ In p l.
Proof.
  induction l as [| y r IH]; simpl.
  - intros [<- | []]. left. reflexivity.
  - destruct (snd x <? snd y); simpl.
    + intros [<- | H]; [left; reflexivity | right; exact H].
    + intros [<- | H]; [right; left; reflexivity |].
      destruct (IH H) as [-> | H']; [left; reflexivity | right; right; exact H'].
Qed.

Lemma due_le (t : Z) (tm : Timers) (p : positive * Z) :
  In p (due t tm) -> snd p <= t.
Proof.
  unfold due.
  assert (Hsub : forall l, In p (fold_right insert_due [] l) -> In p l).
  { induction l as [| x r IH]; simpl; [tauto |].
    intros H. destruct (insert_due_In _ _ _ H) as [-> | H']; [left; reflexivity |].
    right. apply IH. exact H'. }
  intros H. apply Hsub in H. apply filter_In in H as [_ H]. lia.
Qed.

Lemma fire_clock_le (t : Z) (l : list (positive * Z)) (w : World) :
  (forall p, In p l -> snd p <= t) ->
  clock (timers (page (fire host l w))) <= Z.max (clock (timers (page w))) t.
Proof.
  revert w. induction l as [| [id d] r IH]; intros w Hle; [simpl; lia |].
  assert (Hd : d <= t) by (apply (Hle (id, d)); left; reflexivity).
  assert (Hr : forall p, In p r -> snd p <= t) by (intros p Hp; apply Hle; right; exact Hp).
  simpl. destruct (is_pending id (page w)); [| apply IH; exact Hr].
  etransitivity; [apply IH; exact Hr |].
  unfold start, settle, on_page. cbn [page].
  destruct (handleAutocomplete_effect (clearTimeout id (set_clock d (page w))))
    as (_ & Ht & _).
  rewrite Ht. unfold clearTimeout, set_clock. state_proj. cbn [clock]. lia.
Qed.

Lemma advance_clock_exact (t : Z) (w : World) :
  clock (timers (page w)) <= t -> clock (timers (page (advance host t w))) = t.
Proof.
  intros Hc. pose proof (fire_clock_le t (due t (timers (page w))) w (due_le t _)) as H.
  unfold advance, on_page, set_clock. cbn [page]. state_proj. cbn [clock]. lia.
Qed.

End Timers_facts.

Section Debounce.

Variable host : Host.

(** A keystroke, then time passing until [T]: nothing is requested at
    the keystroke; the timer fires once if [T] reaches 280 ms after the
    keystroke, and then requests what the text in the field calls for. *)
Lemma keystroke_then_wait (v : jsstr) (T : Z) (w : World) :
  one_timer (page w) ->
  issued (handle host (Input v) w) = issued w
  /\ suspended (handle host (Input v) w) = suspended w
  /\ one_timer (page (handle host (Input v) w))
  /\ clock (timers (page (handle host (Input v) w))) = clock (timers (page w))
  /\ issued (advance host T (handle host (Input v) w))
     = issued w ++ (if clock (timers (page w)) + 280 <=? T
                    then autocomplete_requests v else [])
  /\ ((length (trim v) < 2)%nat ->
      suspended (advance host T (handle host (Input v) w)) = suspended w
      /\ (clock (timers (page w)) + 280 <= T ->
          classList_contains "suggestions" "show"
            (page (advance host T (handle host (Input v) w))) = false
          /\ pending (timers (page (advance host T (handle host (Input v) w)))) = [])).
Proof.
  intros Hone.
  destruct (cityInput_input_timer v (page w) Hone) as (Hp & Hd & Hc & Hv).
  assert (Ew : handle host (Input v) w
               = {| page := cityInput_input (set_cityInput_value v (page w));
                    issued := issued w; suspended := suspended w;
                    locating := locating w |}) by reflexivity.
  rewrite Ew. clear Ew.
  generalize dependent (cityInput_input (set_cityInput_value v (page w))).
  intros s1 Hp Hd Hc Hv.
  cbn [page issued suspended].
  split; [reflexivity |]. split; [reflexivity |].
  split.
  { unfold one_timer. rewrite Hp, Hd. intros p [<- | []]. reflexivity. }
  split; [exact Hc |].
  rewrite (advance_single host (next_id (timers (page w))) (clock (timers (page w)) + 280) T
             {| page := s1; issued := issued w; suspended := suspended w;
                locating := locating w |} Hp).
  pose (fired := clearTimeout (next_id (timers (page w)))
                  (set_clock (clock (timers (page w)) + 280) s1)).
  assert (Hvalue : cityInput_value fired = v) by exact Hv.
  assert (Hfired_pending : pending (timers fired) = []).
  { unfold fired, clearTimeout, set_clock. state_proj. cbn [pending].
    rewrite Hp. simpl. rewrite Pos.eqb_refl. reflexivity. }
  destruct (handleAutocomplete_effect host fired) as (Hreq & Htm & _ & _).
  rewrite Hvalue in Hreq.
  destruct (Z.leb_spec (clock (timers (page w)) + 280) T) as [Hle | Hgt].
  - unfold on_page, start, settle. cbn [page issued suspended].
    change (clearTimeout (next_id (timers (page w)))
              (set_clock (clock (timers (page w)) + 280) s1)) with fired.
    rewrite Hreq. split; [reflexivity |].
    intros Hshort.
    rewrite (handleAutocomplete_short host fired) by (rewrite Hvalue; exact Hshort).
    cbn [state_of]. split; [reflexivity |]. intros _. split.
    + apply (suggestions_hidden (Some T) fired).
    + exact Hfired_pending.
  - unfold on_page. cbn [page issued suspended].
    split; [rewrite app_nil_r; reflexivity |].
    intros _. split; [reflexivity | lia].
Qed.

(** Two keystrokes less than 280 ms apart on a page that keeps the
    timer discipline: at most one query goes out afterwards, and it is the
    query for the text of the second keystroke. *)
Lemma debounce_pair
    (a b : jsstr) (t1 t2 T : Z) (w : World) :
  one_timer (page w) ->
  t1 <= t2 < t1 + 280 ->
  exists qs,
    issued (advance host T (run host [(t1, Input a); (t2, Input b)] w))
      = issued (advance host t1 w) ++ qs
    /\ (qs = [] \/ qs = [GeocodeRequest (trim b)])
    /\ (T < t2 + 280 \/ (length (trim b) < 2)%nat \/ isWellFormed (trim b) = false ->
        qs = [])
    /\ (clock (timers (page w)) <= t1 -> t2 + 280 <= T ->
        (2 <= length (trim b))%nat -> isWellFormed (trim b) = true ->
        qs = [GeocodeRequest (trim b)]).
Proof.
  intros Hone [H12 H21]. cbn [run].
  set (w0 := advance host t1 w).
  assert (Hone0 : one_timer (page w0)) by (apply advance_one_timer; exact Hone).
  pose proof (advance_clock host t1 w) as Hc0. fold w0 in Hc0.
  destruct (keystroke_then_wait a t2 w0 Hone0) as (Hi1 & _ & Hone1 & Hc1 & Hadv1 & _).
  set (w1 := handle host (Input a) w0) in *.
  set (w2 := advance host t2 w1) in *.
  assert (Hone2 : one_timer (page w2)) by (apply advance_one_timer; exact Hone1).
  assert (Hi2 : issued w2 = issued w0).
  { rewrite Hadv1. destruct (Z.leb_spec (clock (timers (page w0)) + 280) t2);
      [lia | apply app_nil_r]. }
  pose proof (advance_clock host t2 w1) as Hc2. fold w2 in Hc2.
  destruct (keystroke_then_wait b T w2 Hone2) as (_ & _ & _ & _ & Hadv3 & _).
  rewrite Hadv3, Hi2.
  eexists. split; [reflexivity |].
  unfold autocomplete_requests.
  split; [| split].
  - destruct (clock (timers (page w2)) + 280 <=? T); [| left; reflexivity].
    destruct (length (trim b) <? 2)%nat; [left; reflexivity |].
    destruct (isWellFormed (trim b)); [right | left]; reflexivity.
  - intros [Hearly | [Hshort | Hbad]].
    + destruct (Z.leb_spec (clock (timers (page w2)) + 280) T); [lia | reflexivity].
    + destruct (clock (timers (page w2)) + 280 <=? T); [| reflexivity].
      destruct (Nat.ltb_spec (length (trim b)) 2); [reflexivity | lia].
    + rewrite Hbad.
      destruct (clock (timers (page w2)) + 280 <=? T); [| reflexivity].
      destruct (length (trim b) <? 2)%nat; reflexivity.
  - intros Hclock Hlate Hlong Hwf.
    assert (E0 : clock (timers (page w0)) = t1) by (apply advance_clock_exact; exact Hclock).
    assert (E2 : clock (timers (page w2)) = t2).
    { apply advance_clock_exact. rewrite Hc1, E0. exact H12. }
    rewrite E2, Hwf.
    destruct (Z.leb_spec (t2 + 280) T); [| lia].
    destruct (Nat.ltb_spec (length (trim b)) 2); [lia | reflexivity].
Qed.

(** Blank or short text on a page that keeps the timer discipline. *)
Lemma blank_input_from :
  (forall s,
     forallb is_space (cityInput_value s) = true ->
     trim (cityInput_value s) = []
     /\ searchBtn_click host s
        = Done (showError (js "Type a city name")
                  (js "Example: Pune, Kathmandu, Patna, New York.") s)
               (Return tt)
     /\ handleAutocomplete host s = Done (hideSuggestions s) (Return tt))
  /\ (forall s,
        (length (trim (cityInput_value s)) < 2)%nat ->
        handleAutocomplete host s = Done (hideSuggestions s) (Return tt)
        /\ classList_contains "suggestions" "show" (hideSuggestions s) = false)
  /\ (forall w,
        trim (cityInput_value (page w)) = [] ->
        issued (handle host SearchClick w) = issued w
        /\ suspended (handle host SearchClick w) = suspended w)
  /\ (forall w v T,
        one_timer (page w) ->
        (length (trim v) < 2)%nat ->
        issued (advance host T (handle host (Input v) w)) = issued w
        /\ suspended (advance host T (handle host (Input v) w)) = suspended w
        /\ (clock (timers (page w)) + 280 <= T ->
            classList_contains "suggestions" "show"
              (page (advance host T (handle host (Input v) w))) = false
            /\ pending (timers (page (advance host T (handle host (Input v) w)))) = [])).
Proof.
  assert (Hsearch : forall s, trim (cityInput_value s) = [] ->
            searchBtn_click host s
            = Done (showError (js "Type a city name")
                      (js "Example: Pune, Kathmandu, Patna, New York.") s)
                   (Return tt)).
  { intros s Hs. unfold searchBtn_click. run_proc. rewrite Hs. reflexivity. }
  split; [| split; [| split]].
  - intros s Hblank. pose proof (trim_blank _ Hblank) as Ht.
    split; [exact Ht |]. split; [apply Hsearch; exact Ht |].
    apply handleAutocomplete_short. rewrite Ht. simpl. lia.
  - intros s Hshort. split; [apply handleAutocomplete_short; exact Hshort |].
    apply (suggestions_hidden None s).
  - intros w Hblank. cbn [handle]. unfold click_button, on_page, start.
    rewrite (Hsearch _ Hblank).
    unfold settle. cbn [issued suspended request_of]. split; [apply app_nil_r | reflexivity].
  - intros w v T Hone Hshort.
    destruct (keystroke_then_wait v T w Hone) as (_ & _ & _ & _ & Hi & Hs).
    destruct (Hs Hshort) as [Hsusp Hidle].
    split; [| split; [exact Hsusp | exact Hidle]].
    rewrite Hi. unfold autocomplete_requests.
    destruct (Nat.ltb_spec (length (trim v)) 2); [| lia].
    destruct (_ <=? _)%Z; apply app_nil_r.
Qed.

End Debounce.

(** ** The forecast grid *)

Section Grid.

Variable host : Host.

(** The card of day [i]. *)
Definition card_of (wcode tmin tmax pmax psum : list field) (u : Unit.t)
    (day : jsstr) (i : nat) : Card :=
  {| fDay := toLocale host WeekdayShort (Some day);
     fMeta := toLocale host MonthDay (Some day);
     fIcon_title := Wx.t (decodeWeatherCode (index wcode i));
     fIcon := Wx.i (decodeWeatherCode (index wcode i));
     fTemps_min := Math_round (index tmin i);
     fTemps_max := Math_round (index tmax i);
     fTemps_unit := unit_suffix u;
     fRain := nullish (index pmax i) (Str (js "—")) (fun q => Numeral (Fin q));
     fPrecip := toFixed host (nullish (index psum i) 0%Q id) 1 |}.

Fixpoint cards_from (wcode tmin tmax pmax psum : list field) (u : Unit.t)
    (days : list jsstr) (i : nat) : list Card :=
  match days with
  | [] => []
  | day :: rest =>
      card_of wcode tmin tmax pmax psum u day i
        :: cards_from wcode tmin tmax pmax psum u rest (S i)
  end.

Lemma cards_from_length wcode tmin tmax pmax psum u days i :
  length (cards_from wcode tmin tmax pmax psum u days i) = length days.
Proof.
  revert i. induction days as [| day rest IH]; intros i; [reflexivity |].
  simpl. f_equal. apply IH.
Qed.

Variable d : Daily.t.
Variables wcode tmin tmax pmax psum : list field.
Hypothesis Hwcode : Daily.weather_code d = Some wcode.
Hypothesis Htmin : Daily.temperature_2m_min d = Some tmin.
Hypothesis Htmax : Daily.temperature_2m_max d = Some tmax.
Hypothesis Hpmax : Daily.precipitation_probability_max d = Some pmax.
Hypothesis Hpsum : Daily.precipitation_sum d = Some psum.

Lemma forecast_card_run (day : jsstr) (i : nat) (s : State) :
  forecast_card host d day i s
  = Done s (Return (card_of wcode tmin tmax pmax psum (unit' s) day i)).
Proof.
  unfold forecast_card, read. rewrite Hwcode, Htmin, Htmax, Hpmax, Hpsum.
  reflexivity.
Qed.

Lemma set_forecastGrid_id (s : State) : set_forecastGrid (forecastGrid s) s = s.
Proof. destruct s. reflexivity. Qed.

Lemma forecast_loop_run (days : list jsstr) (i : nat) (s : State) :
  forecast_loop host d days i s
  = Done (set_forecastGrid
            (forecastGrid s ++ cards_from wcode tmin tmax pmax psum (unit' s) days i) s)
         (Return tt).
Proof.
  revert i s. induction days as [| day rest IH]; intros i s.
  - simpl. rewrite app_nil_r, set_forecastGrid_id. reflexivity.
  - cbn [forecast_loop cards_from]. unfold bind at 1.
    rewrite forecast_card_run. cbn [bindP]. unfold bind at 1, act at 1.
    cbn [bindP]. rewrite IH. unfold appendCard. state_proj.
    rewrite <- app_assoc. reflexivity.
Qed.

Lemma buildForecastCards_run (data : Forecast) (days : list jsstr) (s : State) :
  daily data = Some d ->
  Daily.time d = Some days ->
  buildForecastCards host data s
  = Done (set_textContent "forecastChip" (Str (js "Daily • " ++ unit_suffix (unit' s)))
            (set_forecastGrid (cards_from wcode tmin tmax pmax psum (unit' s) days 0) s))
         (Return tt).
Proof.
  intros Hd Hdays. unfold buildForecastCards, lift, read. rewrite Hd.
  unfold bind at 1. cbn [bindP]. unfold bind at 1, act at 1. cbn [bindP].
  rewrite Hdays. unfold bind at 1. cbn [bindP]. unfold bind at 1.
  rewrite forecast_loop_run. cbn [bindP]. run_proc. state_proj. reflexivity.
Qed.

End Grid.

(** ** Rendering a forecast *)

Section Render.

Variable host : Host.

Variable data : Forecast.
Variable c : Current.t.
Variable d : Daily.t.
Variable days : list jsstr.
Variables wcode tmin tmax pmax psum : list field.
Variable series : Series.t.
Hypothesis Hcurrent : current data = Some c.
Hypothesis Hdaily : daily data = Some d.
Hypothesis Hdays : Daily.time d = Some days.
Hypothesis Hwcode : Daily.weather_code d = Some wcode.
Hypothesis Htmin : Daily.temperature_2m_min d = Some tmin.
Hypothesis Htmax : Daily.temperature_2m_max d = Some tmax.
Hypothesis Hpmax : Daily.precipitation_probability_max d = Some pmax.
Hypothesis Hpsum : Daily.precipitation_sum d = Some psum.
Hypothesis Hseries : next24HoursSeries host data = Return series.

(** The page once the time pill, the today card and the forecast grid
    have been written, before the charts are touched. *)
Definition summary_and_grid (lat lon : Q) (s : State) : State :=
  set_textContent "forecastChip" (Str (js "Daily • " ++ unit_suffix (unit' s)))
    (set_forecastGrid (cards_from host wcode tmin tmax pmax psum (unit' s) days 0)
       (set_textContent "wxSub" (today_wxSub host lat lon)
          (today_written host data c (setTimePill host (Current.time c) s)))).

Lemma render_run (lat lon : Q) (s : State) :
  Place.lat (currentPlace s) = Some lat ->
  Place.lon (currentPlace s) = Some lon ->
  render host data s
  = Done (set_textContent "statusPill" (Str (js "Updated"))
            (makeCharts series (summary_and_grid lat lon s)))
         (Return tt).
Proof.
  intros Hlat Hlon. unfold render, lift, read. rewrite Hcurrent, Hseries.
  unfold bind at 1. cbn [bindP]. unfold bind at 1, act at 1. cbn [bindP].
  unfold bind at 1. rewrite setTodayCard_run, Hcurrent.
  replace (Place.lat (currentPlace (setTimePill host (Current.time c) s)))
    with (Some lat) by (symmetry; exact Hlat).
  replace (Place.lon (currentPlace (setTimePill host (Current.time c) s)))
    with (Some lon) by (symmetry; exact Hlon).
  cbn [bindP]. unfold bind at 1.
  rewrite (buildForecastCards_run host d wcode tmin tmax pmax psum
             Hwcode Htmin Htmax Hpmax Hpsum data days _ Hdaily Hdays).
  cbn [bindP]. run_proc.
  unfold summary_and_grid. reflexivity.
Qed.

(** Without Chart.js, [makeCharts] only shows the error. *)
Lemma makeCharts_unavailable (s : State) :
  window_Chart s = false ->
  makeCharts series s
  = showError (js "Could not load charts")
      (js "Chart.js is not available (CDN blocked / offline). Change CDN in index.html or use another network.")
      s.
Proof. intros H. unfold makeCharts, ensureChartJs. rewrite H. reflexivity. Qed.

(** With Chart.js, the three charts are replaced. *)
Lemma makeCharts_available (s : State) :
  window_Chart s = true ->
  exists tc rc wc,
    charts (makeCharts series s)
    = {| tempChart := Some tc; rainChart := Some rc; windChart := Some wc |}
    /\ chart_labels tc = Series.labels series /\ dataset_data tc = Series.temps series
    /\ y_title tc = unit_suffix (unit' s)
    /\ chart_labels rc = Series.labels series /\ suggestedMax rc = Some 100
    /\ chart_labels wc = Series.labels series /\ dataset_data wc = Series.wind series
    /\ destroyed tc = false /\ destroyed rc = false /\ destroyed wc = false.
Proof.
  intros H. unfold makeCharts, ensureChartJs. rewrite H. cbn [negb].
  eexists _, _, _. split; [reflexivity |]. repeat split.
Qed.

End Render.

(** ** The chart step without Chart.js *)

Section Charts_unavailable.

Variable host : Host.

Abbreviation charts_error_title := (js "Could not load charts") (only parsing).

Abbreviation charts_error_sub :=
  (js "Chart.js is not available (CDN blocked / offline). Change CDN in index.html or use another network.")
  (only parsing).

(** C4. When Chart.js is not there as a load sequence reaches the chart
    step, on a payload that renders (its current conditions, its daily
    arrays and its hourly arrays are present) and a page whose place has
    coordinates: the sequence still ends normally; the today card and the
    forecast grid hold what the rendering wrote (every node but the status
    pill and the two error texts shows what it shows after the summary and
    the grid were written, one card per day); the three chart variables
    are what they were, no chart is created and none is destroyed; and the
    error box is visible with the title "Could not load charts". *)
Theorem charts_unavailable_rest_renders
    (data : Forecast) (c : Current.t) (d : Daily.t) (days : list jsstr)
    (wcode tmin tmax pmax psum : list field) (series : Series.t)
    (lat lon : Q) (label tz : jsstr) (s : State) :
  isWellFormed tz = true ->
  current data = Some c ->
  daily data = Some d ->
  Daily.time d = Some days ->
  Daily.weather_code d = Some wcode ->
  Daily.temperature_2m_min d = Some tmin ->
  Daily.temperature_2m_max d = Some tmax ->
  Daily.precipitation_probability_max d = Some pmax ->
  Daily.precipitation_sum d = Some psum ->
  next24HoursSeries host data = Return series ->
  exists s1 rq k,
    loadWeatherByCoords host lat lon label tz s = AwaitForecast s1 rq k
    /\ forall s2 lat2 lon2,
         window_Chart s2 = false ->
         Place.lat (currentPlace s2) = Some lat2 ->
         Place.lon (currentPlace s2) = Some lon2 ->
         exists s3,
           k (Json data) s2 = Done s3 (Return tt)
           /\ shown "tempNow" s3 = Some (Numeral (Math_round (Current.temperature_2m c)))
           /\ shown "wxMain" s3
              = Some (Str (Wx.t (decodeWeatherCode (Current.weather_code c))))
           /\ (forall id,
                 id <> "statusPill" -> id <> "errorTitle" -> id <> "errorSub" ->
                 shown id s3
                 = shown id (summary_and_grid host data c days wcode tmin tmax pmax psum
                               lat2 lon2 s2))
           /\ forecastGrid s3
              = cards_from host wcode tmin tmax pmax psum (unit' s2) days 0
           /\ length (forecastGrid s3) = length days
           /\ charts s3 = charts s2
           /\ classList_contains "errorBox" "hidden" s3 = false
           /\ shown "errorTitle" s3 = Some (Str (js "Could not load charts")).
Proof.
  intros Htz Hc Hd Hdays Hwcode Htmin Htmax Hpmax Hpsum Hseries.
  eexists _, _, _. split; [apply (loadWeatherByCoords_start _ _ _ _ _ _ Htz) |].
  intros s2 lat2 lon2 Hchart Hlat Hlon.
  set (mid := summary_and_grid host data c days wcode tmin tmax pmax psum lat2 lon2 s2).
  assert (Hrun : coords_resume host (Json data) s2
                 = Done (setLoading false
                           (set_textContent "statusPill" (Str (js "Updated"))
                              (showError charts_error_title charts_error_sub mid)))
                        (Return tt)).
  { unfold coords_resume, try_finally, try_catch, bind, lift.
    cbn [forecast_response bindP].
    rewrite (render_run host data c d days wcode tmin tmax pmax psum series
               Hc Hd Hdays Hwcode Htmin Htmax Hpmax Hpsum Hseries lat2 lon2 s2 Hlat Hlon).
    cbn [catchP finallyP]. fold mid.
    rewrite (makeCharts_unavailable series mid) by exact Hchart.
    reflexivity. }
  eexists. split; [exact Hrun |].
  assert (Hframe : forall id,
            id <> "statusPill" -> id <> "errorTitle" -> id <> "errorSub" ->
            shown id (setLoading false
                        (set_textContent "statusPill" (Str (js "Updated"))
                           (showError charts_error_title charts_error_sub mid)))
            = shown id mid).
  { intros id H1 H2 H3.
    rewrite setLoading_shown by exact H1.
    rewrite shown_set_ne by exact H1.
    apply showError_shown; assumption. }
  assert (Hgrid : forecastGrid (setLoading false
                        (set_textContent "statusPill" (Str (js "Updated"))
                           (showError charts_error_title charts_error_sub mid)))
                  = cards_from host wcode tmin tmax pmax psum (unit' s2) days 0)
    by reflexivity.
  split; [| split; [| split; [| split; [| split; [| split; [| split]]]]]].
  - rewrite Hframe by discriminate.
    unfold mid, summary_and_grid, today_written. cbv zeta. shown_solve.
  - rewrite Hframe by discriminate.
    unfold mid, summary_and_grid, today_written. cbv zeta. shown_solve.
  - exact Hframe.
  - exact Hgrid.
  - rewrite Hgrid. apply cards_from_length.
  - reflexivity.
  - unfold classList_contains. apply bool_decide_eq_false_2.
    rewrite classList_setLoading, classList_set_textContent, classList_showError.
    apply (errorBox_not_hidden false).
  - rewrite setLoading_shown by discriminate.
    rewrite shown_set_ne by discriminate.
    unfold showError. shown_solve.
Qed.

End Charts_unavailable.

Lemma charts_unavailable_rest_renders_witness :
  exists s1 rq k s3,
    loadWeatherByCoords demo_host 27.7 85.32 (js "Kathmandu") (js "auto")
      (initial_state false) = AwaitForecast s1 rq k
    /\ k (Json payload_21_6) s1 = Done s3 (Return tt)
    /\ shown "tempNow" s3 = Some (Numeral (Fin 22))
    /\ length (forecastGrid s3) = 2%nat
    /\ charts s3 = {| tempChart := None; rainChart := None; windChart := None |}
    /\ classList_contains "errorBox" "hidden" s3 = false
    /\ shown "errorTitle" s3 = Some (Str (js "Could not load charts")).
Proof.
  destruct (charts_unavailable_rest_renders demo_host payload_21_6 _ _ _ _ _ _ _ _ _
              27.7 85.32 (js "Kathmandu") (js "auto") (initial_state false)
              eq_refl eq_refl eq_refl eq_refl eq_refl eq_refl eq_refl eq_refl eq_refl eq_refl)
    as (s1 & rq & k & E & H).
  assert (Es1 : s1 = setPlace (js "Kathmandu") 27.7 85.32 (js "auto")
                       (setLoading true (clearError (initial_state false)))).
  { rewrite loadWeatherByCoords_auto in E. injection E as <- _ _. reflexivity. }
  destruct (H s1 27.7%Q 85.32%Q) as (s3 & E3 & Ht & _ & _ & _ & Hlen & Hch & Hbox & Herr).
  - rewrite Es1. reflexivity.
  - rewrite Es1. reflexivity.
  - rewrite Es1. reflexivity.
  - exists s1, rq, k, s3.
    split; [exact E |]. split; [exact E3 |]. split; [exact Ht |].
    split; [exact Hlen |]. split; [rewrite Hch, Es1; reflexivity |].
    split; [exact Hbox | exact Herr].
Defined.

(** ** What a load sequence leaves alone *)

(** A procedure that runs to its end without suspending, and leaves the
    observation [p] of the state as it finds it. *)
Definition keeps {A B} (p : State -> B) (m : M A) : Prop :=
  forall s, exists s' r, m s = Done s' r /\ p s' = p s.

Section Keeps_laws.

Context {B : Type} (p : State -> B).

Lemma keeps_bind {A C} (m : M A) (f : A -> M C) :
  keeps p m -> (forall a, keeps p (f a)) -> keeps p (bind m f).
Proof.
  intros Hm Hf s. destruct (Hm s) as (s1 & r & E & HR).
  unfold bind. rewrite E. destruct r as [a | e]; cbn [bindP].
  - destruct (Hf a s1) as (s2 & r2 & E2 & HR2).
    exists s2, r2. split; [exact E2 | congruence].
  - exists s1, (Throw e). split; [reflexivity | exact HR].
Qed.

Lemma keeps_act (f : State -> State) :
  (forall s, p (f s) = p s) -> keeps p (act f).
Proof. intros Hf s. exists (f s), (Return tt). split; [reflexivity | apply Hf]. Qed.

Lemma keeps_gets {A} (f : State -> A) : keeps p (gets f).
Proof. intros s. exists s, (Return (f s)). split; reflexivity. Qed.

Lemma keeps_lift {A} (r : result A) : keeps p (lift r).
Proof. intros s. exists s, r. split; reflexivity. Qed.

Lemma keeps_ret {A} (a : A) : keeps p (ret a).
Proof. intros s. exists s, (Return a). split; reflexivity. Qed.

Lemma keeps_try_catch {A} (m : M A) (h : exn -> M A) :
  keeps p m -> (forall e, keeps p (h e)) -> keeps p (try_catch m h).
Proof.
  intros Hm Hh s. destruct (Hm s) as (s1 & r & E & HR).
  unfold try_catch. rewrite E. destruct r as [a | e]; cbn [catchP].
  - exists s1, (Return a). split; [reflexivity | exact HR].
  - destruct (Hh e s1) as (s2 & r2 & E2 & HR2).
    exists s2, r2. split; [exact E2 | congruence].
Qed.

Lemma keeps_try_finally {A} (m : M A) (fin : State -> State) :
  keeps p m -> (forall s, p (fin s) = p s) -> keeps p (try_finally m fin).
Proof.
  intros Hm Hfin s. destruct (Hm s) as (s1 & r & E & HR).
  unfold try_finally. rewrite E. cbn [finallyP].
  exists (fin s1), r. split; [reflexivity |].
  rewrite Hfin. exact HR.
Qed.

End Keeps_laws.

(** The unit preference together with the current place. *)
Definition prefs (s : State) : Unit.t * Place.t := (unit' s, currentPlace s).

Lemma prefs_set_textContent (id : string) (v : text) (s : State) :
  prefs (set_textContent id v s) = prefs s.
Proof. reflexivity. Qed.

Lemma prefs_showError (title subtitle : jsstr) (s : State) :
  prefs (showError title subtitle s) = prefs s.
Proof. reflexivity. Qed.

Lemma prefs_setLoading (b : bool) (s : State) : prefs (setLoading b s) = prefs s.
Proof. destruct b; reflexivity. Qed.

Lemma prefs_makeCharts (series : Series.t) (s : State) :
  prefs (makeCharts series s) = prefs s.
Proof. unfold makeCharts, ensureChartJs. destruct (window_Chart s); reflexivity. Qed.

(** The text of nodes that the steps after the today card do not
    write. *)
Lemma shown_makeCharts (id : string) (series : Series.t) (s : State) :
  id <> "statusPill" -> id <> "errorTitle" -> id <> "errorSub" ->
  shown id (makeCharts series s) = shown id s.
Proof.
  intros H1 H2 H3. unfold makeCharts, ensureChartJs.
  destruct (window_Chart s); cbn [negb].
  - reflexivity.
  - apply showError_shown; assumption.
Qed.

Ltac keeps_prefs :=
  repeat first
    [ apply keeps_bind; [| intros ?]
    | apply keeps_try_finally
    | apply keeps_try_catch; [| intros ?]
    | apply keeps_gets
    | apply keeps_lift
    | apply keeps_ret
    | apply keeps_act; intros ?
    | apply prefs_set_textContent
    | apply prefs_showError
    | apply prefs_setLoading
    | apply prefs_makeCharts ].

Section Keeps.

Variable host : Host.

Lemma keeps_prefs_setTodayCard (data : Forecast) : keeps prefs (setTodayCard host data).
Proof. unfold setTodayCard. keeps_prefs. Qed.

Lemma keeps_forecast_card {B} (p : State -> B) (d : Daily.t) (day : jsstr) (i : nat) :
  keeps p (forecast_card host d day i).
Proof.
  unfold forecast_card.
  repeat first [ apply keeps_bind; [| intros ?] | apply keeps_lift
               | apply keeps_gets | apply keeps_ret ].
Qed.

Lemma keeps_forecast_loop {B} (p : State -> B) (d : Daily.t) (days : list jsstr) (i : nat) :
  (forall card s, p (appendCard card s) = p s) ->
  keeps p (forecast_loop host d days i).
Proof.
  intros Happend.
  revert i. induction days as [| day rest IH]; intros i; cbn [forecast_loop].
  - apply keeps_ret.
  - apply keeps_bind; [apply keeps_forecast_card | intros card].
    apply keeps_bind; [| intros _; apply IH].
    apply keeps_act. apply Happend.
Qed.

(** The steps of [loadWeatherByCoords] that follow the today card. *)
Definition after_today (data : Forecast) : M unit :=
  buildForecastCards host data >>
  let! series := lift (next24HoursSeries host data) in
  act (makeCharts series) >>
  act (set_textContent "statusPill" (Str (js "Updated"))).

Lemma keeps_after_today {B} (p : State -> B) (data : Forecast) :
  (forall g s, p (set_forecastGrid g s) = p s) ->
  (forall v s, p (set_textContent "forecastChip" v s) = p s) ->
  (forall v s, p (set_textContent "statusPill" v s) = p s) ->
  (forall series s, p (makeCharts series s) = p s) ->
  keeps p (after_today data).
Proof.
  intros Hgrid Hchip Hstatus Hcharts.
  unfold after_today, buildForecastCards.
  apply keeps_bind; [| intros _].
  - apply keeps_bind; [apply keeps_lift | intros d].
    apply keeps_bind; [apply keeps_act; apply Hgrid | intros _].
    apply keeps_bind; [apply keeps_lift | intros days].
    apply keeps_bind; [| intros _].
    + apply keeps_forecast_loop. intros card s. apply Hgrid.
    + apply keeps_bind; [apply keeps_gets | intros u].
      apply keeps_act. apply Hchip.
  - apply keeps_bind; [apply keeps_lift | intros series].
    apply keeps_bind; [apply keeps_act; apply Hcharts | intros _].
    apply keeps_act. apply Hstatus.
Qed.

Lemma render_split (data : Forecast) (c : Current.t) (s : State) :
  current data = Some c ->
  render host data s
  = bindP (setTodayCard host data (setTimePill host (Current.time c) s))
      (fun _ => after_today data).
Proof.
  intros Hc. unfold render, lift, read. rewrite Hc. reflexivity.
Qed.

Lemma keeps_prefs_render (data : Forecast) : keeps prefs (render host data).
Proof.
  unfold render.
  apply keeps_bind; [apply keeps_lift | intros c].
  apply keeps_bind; [apply keeps_act; intros s; reflexivity | intros _].
  apply keeps_bind; [apply keeps_prefs_setTodayCard | intros _].
  apply (keeps_after_today prefs data).
  - reflexivity.
  - reflexivity.
  - reflexivity.
  - apply prefs_makeCharts.
Qed.

(** Whatever the response, the rest of [loadWeatherByCoords] runs to its
    end and changes neither the unit preference nor the current place. *)
Lemma keeps_prefs_coords_resume (res : response Forecast) :
  keeps prefs (coords_resume host res).
Proof.
  unfold coords_resume.
  apply keeps_try_finally; [| apply prefs_setLoading].
  apply keeps_try_catch.
  - apply keeps_bind; [apply keeps_lift | intros data; apply keeps_prefs_render].
  - intros e. unfold coords_catch. keeps_prefs.
Qed.

(** A payload with current conditions: however the rest of the sequence
    ends, the unit shown next to the temperature is the preference of the
    moment the response is rendered. *)
Lemma coords_resume_tempUnit (data : Forecast) (c : Current.t) (s : State) :
  current data = Some c ->
  exists s' r,
    coords_resume host (Json data) s = Done s' r
    /\ shown "tempUnit" s' = Some (Str (unit_suffix (unit' s)))
    /\ shown "feelUnit" s' = Some (Str (unit_suffix (unit' s))).
Proof.
  intros Hc.
  set (both := fun s => (shown "tempUnit" s, shown "feelUnit" s)).
  assert (Hcatch : forall e, keeps both (coords_catch e)).
  { intros e. unfold coords_catch. apply keeps_act. intros s0. unfold both.
    rewrite !showError_shown by discriminate. reflexivity. }
  assert (Hfin : forall s0, both (setLoading false s0) = both s0).
  { intros s0. unfold both. rewrite !setLoading_shown by discriminate. reflexivity. }
  assert (Htail : keeps both (try_finally (try_catch (after_today data) coords_catch)
                                (setLoading false))).
  { apply keeps_try_finally; [| exact Hfin].
    apply keeps_try_catch; [| exact Hcatch].
    apply keeps_after_today.
    - intros g s0. reflexivity.
    - intros v s0. unfold both. rewrite !shown_set_ne by discriminate. reflexivity.
    - intros v s0. unfold both. rewrite !shown_set_ne by discriminate. reflexivity.
    - intros series s0. unfold both.
      rewrite !shown_makeCharts by discriminate. reflexivity. }
  assert (Hwritten : forall s0,
            both (today_written host data c s0)
            = (Some (Str (unit_suffix (unit' s0))), Some (Str (unit_suffix (unit' s0))))).
  { intros s0. unfold both, today_written. cbv zeta. f_equal; shown_solve. }
  unfold coords_resume, try_finally, try_catch, bind, lift.
  cbn [forecast_response bindP].
  rewrite (render_split data c s Hc), setTodayCard_run, Hc.
  set (s0 := setTimePill host (Current.time c) s).
  assert (Hu : unit' s0 = unit' s) by reflexivity.
  assert (Hthrow : exists s' r,
            finallyP (catchP (Done (today_written host data c s0) (Throw (TypeError host)))
                        coords_catch) (setLoading false) = Done s' r
            /\ shown "tempUnit" s' = Some (Str (unit_suffix (unit' s)))
            /\ shown "feelUnit" s' = Some (Str (unit_suffix (unit' s)))).
  { cbn [catchP]. destruct (Hcatch (TypeError host) (today_written host data c s0))
      as (s1 & r1 & E1 & H1).
    rewrite E1. cbn [finallyP]. eexists _, _. split; [reflexivity |].
    pose proof (Hfin s1) as H2. rewrite H1, Hwritten, Hu in H2.
    unfold both in H2. injection H2 as H2 H3. split; assumption. }
  destruct (Place.lat (currentPlace s0)) as [lat |]; [| exact Hthrow].
  destruct (Place.lon (currentPlace s0)) as [lon |]; [| exact Hthrow].
  cbn [bindP].
  destruct (Htail (set_textContent "wxSub" (today_wxSub host lat lon)
                     (today_written host data c s0)))
    as (s1 & r1 & E1 & H1).
  unfold try_finally, try_catch in E1. rewrite E1.
  eexists _, _. split; [reflexivity |].
  assert (H2 : both (set_textContent "wxSub" (today_wxSub host lat lon)
                       (today_written host data c s0))
               = both (today_written host data c s0)).
  { unfold both. rewrite !shown_set_ne by discriminate. reflexivity. }
  rewrite H2, Hwritten, Hu in H1. unfold both in H1.
  injection H1 as H1 H3. split; assumption.
Qed.

End Keeps.

(** ** The unit toggle *)

(** The value of [temperature_unit] in a request, by the preference. *)
Definition unit_param (u : Unit.t) : jsstr :=
  match u with Unit.F => js "fahrenheit" | Unit.C => js "celsius" end.

Lemma toggle_involutive (u : Unit.t) : toggle (toggle u) = u.
Proof. destruct u; reflexivity. Qed.

Section Units.

Variable host : Host.

(** The page right after the synchronous part of a click on [unitBtn],
    when a place is selected. *)
Definition toggled (lat lon : Q) (s : State) : State :=
  setPlace (Place.name (currentPlace s)) lat lon (Place.tz (currentPlace s))
    (setLoading true
       (clearError
          (set_textContent "unitBtn" (Str (unit_suffix (toggle (unit' s))))
             (set_unit (toggle (unit' s)) s)))).

Lemma unitBtn_click_selected (lat lon : Q) (s : State) :
  Place.lat (currentPlace s) = Some lat ->
  Place.lon (currentPlace s) = Some lon ->
  isWellFormed (Place.tz (currentPlace s)) = true ->
  unitBtn_click host s
  = AwaitForecast (toggled lat lon s)
      {| rq_latitude := lat; rq_longitude := lon;
         rq_timezone := Place.tz (currentPlace s);
         rq_temperature_unit := unit_param (toggle (unit' s));
         rq_windspeed_unit := js "kmh";
         rq_forecast_days := 7 |}
      (coords_resume host).
Proof.
  intros Hlat Hlon Htz. unfold unitBtn_click. run_proc. state_proj.
  rewrite Hlat, Hlon. rewrite loadWeatherByCoords_start by exact Htz.
  unfold toggled, forecast_request, unit_param. state_proj. reflexivity.
Qed.

Lemma unitBtn_click_unselected (s : State) :
  Place.lat (currentPlace s) = None \/ Place.lon (currentPlace s) = None ->
  exists s',
    unitBtn_click host s = Done s' (Return tt)
    /\ unit' s' = toggle (unit' s).
Proof.
  intros H. unfold unitBtn_click. run_proc. state_proj.
  destruct (Place.lat (currentPlace s)) as [lat |], (Place.lon (currentPlace s)) as [lon |];
    try (eexists; split; reflexivity).
  destruct H; discriminate.
Qed.

Lemma toggled_state (lat lon : Q) (s : State) :
  Place.lat (currentPlace s) = Some lat ->
  Place.lon (currentPlace s) = Some lon ->
  unit' (toggled lat lon s) = toggle (unit' s)
  /\ currentPlace (toggled lat lon s) = currentPlace s.
Proof.
  intros Hlat Hlon. split; [reflexivity |].
  unfold toggled, setPlace. state_proj.
  destruct (currentPlace s) as [n la lo z]. simpl in *. congruence.
Qed.

End Units.



(** ** The timer discipline holds on every reachable page *)

(** The part of the state the debounce logic lives in. *)
Definition tm (s : State) : option positive * Timers := (debounceTimer s, timers s).

Lemma one_timer_tm (s s' : State) : tm s' = tm s -> one_timer s -> one_timer s'.
Proof.
  unfold tm, one_timer. intros E H p Hp.
  assert (Ed : debounceTimer s' = debounceTimer s) by exact (f_equal fst E).
  assert (Et : timers s' = timers s) by exact (f_equal snd E).
  rewrite Ed. apply H. rewrite <- Et. exact Hp.
Qed.

(** A run that never touches the timers, now or after any response,
    whatever the page has become in between. *)
Fixpoint calm {A} (p : Proc A) (s0 : State) : Prop :=
  match p with
  | Done s _ => tm s = tm s0
  | AwaitGeocode s _ k => tm s = tm s0 /\ forall res s', calm (k res s') s'
  | AwaitForecast s _ k => tm s = tm s0 /\ forall res s', calm (k res s') s'
  end.

Definition calmM {A} (m : M A) : Prop := forall s, calm (m s) s.

Lemma calm_tm {A} (p : Proc A) (s0 s1 : State) :
  tm s0 = tm s1 -> calm p s0 -> calm p s1.
Proof. intros E. destruct p; simpl; rewrite E; exact id. Qed.

Lemma calm_state_of {A} (p : Proc A) (s0 : State) :
  calm p s0 -> tm (state_of p) = tm s0.
Proof. destruct p; simpl; tauto. Qed.

Lemma calm_bindP {A B} (p : Proc A) (f : A -> M B) (s0 : State) :
  calm p s0 -> (forall a, calmM (f a)) -> calm (bindP p f) s0.
Proof.
  intros Hp Hf. revert s0 Hp.
  induction p as [s r | s q k IH | s rq k IH]; intros s0 Hp.
  - destruct r as [a | e]; simpl in *; [| exact Hp].
    apply (calm_tm _ s s0 Hp). apply Hf.
  - simpl in *. destruct Hp as [Ht Hk]. split; [exact Ht |].
    intros res s'. apply IH. apply Hk.
  - simpl in *. destruct Hp as [Ht Hk]. split; [exact Ht |].
    intros res s'. apply IH. apply Hk.
Qed.

Lemma calm_bind {A B} (m : M A) (f : A -> M B) :
  calmM m -> (forall a, calmM (f a)) -> calmM (bind m f).
Proof. intros Hm Hf s. unfold bind. apply calm_bindP; [apply Hm | exact Hf]. Qed.

Lemma calm_catchP {A} (p : Proc A) (h : exn -> M A) (s0 : State) :
  calm p s0 -> (forall e, calmM (h e)) -> calm (catchP p h) s0.
Proof.
  intros Hp Hh. revert s0 Hp.
  induction p as [s r | s q k IH | s rq k IH]; intros s0 Hp.
  - destruct r as [a | e]; simpl in *; [exact Hp |].
    apply (calm_tm _ s s0 Hp). apply Hh.
  - simpl in *. destruct Hp as [Ht Hk]. split; [exact Ht |].
    intros res s'. apply IH. apply Hk.
  - simpl in *. destruct Hp as [Ht Hk]. split; [exact Ht |].
    intros res s'. apply IH. apply Hk.
Qed.

Lemma calm_try_catch {A} (m : M A) (h : exn -> M A) :
  calmM m -> (forall e, calmM (h e)) -> calmM (try_catch m h).
Proof. intros Hm Hh s. unfold try_catch. apply calm_catchP; [apply Hm | exact Hh]. Qed.

Lemma calm_finallyP {A} (p : Proc A) (fin : State -> State) (s0 : State) :
  calm p s0 -> (forall s, tm (fin s) = tm s) -> calm (finallyP p fin) s0.
Proof.
  intros Hp Hfin. revert s0 Hp.
  induction p as [s r | s q k IH | s rq k IH]; intros s0 Hp.
  - simpl in *. rewrite Hfin. exact Hp.
  - simpl in *. destruct Hp as [Ht Hk]. split; [exact Ht |].
    intros res s'. apply IH. apply Hk.
  - simpl in *. destruct Hp as [Ht Hk]. split; [exact Ht |].
    intros res s'. apply IH. apply Hk.
Qed.

Lemma calm_try_finally {A} (m : M A) (fin : State -> State) :
  calmM m -> (forall s, tm (fin s) = tm s) -> calmM (try_finally m fin).
Proof. intros Hm Hf s. unfold try_finally. apply calm_finallyP; [apply Hm | exact Hf]. Qed.

Lemma calm_keeps {A} (m : M A) : keeps tm m -> calmM m.
Proof. intros H s. destruct (H s) as (s' & r & E & Ht). rewrite E. exact Ht. Qed.

Lemma calm_act (f : State -> State) : (forall s, tm (f s) = tm s) -> calmM (act f).
Proof. intros H s. apply H. Qed.

Lemma tm_makeCharts (series : Series.t) (s : State) : tm (makeCharts series s) = tm s.
Proof. unfold makeCharts, ensureChartJs. destruct (window_Chart s); reflexivity. Qed.

Lemma tm_setLoading (b : bool) (s : State) : tm (setLoading b s) = tm s.
Proof. destruct b; reflexivity. Qed.

Section Calm.

Variable host : Host.

Lemma keeps_tm_setTodayCard (data : Forecast) : keeps tm (setTodayCard host data).
Proof.
  unfold setTodayCard.
  repeat first
    [ apply keeps_bind; [| intros ?]
    | apply keeps_gets | apply keeps_lift
    | apply keeps_act; intros ?; reflexivity ].
Qed.

Lemma keeps_tm_render (data : Forecast) : keeps tm (render host data).
Proof.
  unfold render.
  apply keeps_bind; [apply keeps_lift | intros c].
  apply keeps_bind; [apply keeps_act; intros s; reflexivity | intros _].
  apply keeps_bind; [apply keeps_tm_setTodayCard | intros _].
  apply (keeps_after_today host tm data).
  - reflexivity.
  - reflexivity.
  - reflexivity.
  - apply tm_makeCharts.
Qed.

Lemma calm_loadWeatherByCoords (lat lon : Q) (label tz : jsstr) :
  calmM (loadWeatherByCoords host lat lon label tz).
Proof.
  intros s. destruct (isWellFormed tz) eqn:Htz.
  2: { rewrite (loadWeatherByCoords_malformed host _ _ _ _ _ Htz). reflexivity. }
  rewrite loadWeatherByCoords_start by exact Htz. simpl. split; [reflexivity |].
  intros res s'. unfold coords_resume.
  apply calm_try_finally; [| apply tm_setLoading].
  apply calm_try_catch.
  - apply calm_keeps.
    apply keeps_bind; [apply keeps_lift | intros data; apply keeps_tm_render].
  - intros e. apply calm_act. reflexivity.
Qed.

Lemma calm_loadWeatherByCityName (name : jsstr) :
  calmM (loadWeatherByCityName host name).
Proof.
  intros s. destruct (isWellFormed name) eqn:Hname.
  2: { rewrite (loadWeatherByCityName_malformed host _ _ Hname). reflexivity. }
  rewrite loadWeatherByCityName_start by exact Hname.
  simpl. split; [destruct s; reflexivity |].
  intros res s'. unfold city_resume.
  apply calm_try_finally; [| apply tm_setLoading].
  apply calm_try_catch.
  - apply calm_bind; [intros s0; reflexivity | intros g].
    destruct (no_results g).
    + apply calm_act. reflexivity.
    + apply calm_bind; [intros s0; reflexivity | intros r].
      apply calm_loadWeatherByCoords.
  - intros e. apply calm_act. reflexivity.
Qed.

Lemma calm_geocode (query : jsstr) : calmM (geocode host query).
Proof.
  intros s. unfold geocode. destruct (isWellFormed query); [| reflexivity].
  cbn [calm]. split; [reflexivity |].
  intros res s'. reflexivity.
Qed.

Lemma calm_handleAutocomplete : calmM (handleAutocomplete host).
Proof.
  unfold handleAutocomplete.
  apply calm_bind; [intros s; reflexivity | intros q].
  destruct (length q <? 2)%nat.
  - apply calm_act. reflexivity.
  - apply calm_try_catch.
    + apply calm_bind; [apply calm_geocode | intros g].
      apply calm_act. intros s0. unfold showSuggestions.
      destruct (results_or_empty g); reflexivity.
    + intros e. apply calm_act. reflexivity.
Qed.

Lemma calm_searchBtn_click : calmM (searchBtn_click host).
Proof.
  unfold searchBtn_click.
  apply calm_bind; [intros s; reflexivity | intros q].
  destruct (negb (truthy q)).
  - apply calm_act. reflexivity.
  - apply calm_bind; [apply calm_act; reflexivity | intros _].
    apply calm_loadWeatherByCityName.
Qed.

Lemma calm_unitBtn_click : calmM (unitBtn_click host).
Proof.
  unfold unitBtn_click.
  apply calm_bind; [intros s; reflexivity | intros u0].
  apply calm_bind; [apply calm_act; reflexivity | intros _].
  apply calm_bind; [intros s; reflexivity | intros u].
  apply calm_bind; [apply calm_act; reflexivity | intros _].
  apply calm_bind; [intros s; reflexivity | intros place].
  destruct (Place.lat place), (Place.lon place);
    try (apply calm_act; reflexivity).
  apply calm_loadWeatherByCoords.
Qed.

Lemma calm_suggItem_click (r : Candidate.t) : calmM (suggItem_click host r).
Proof.
  unfold suggItem_click.
  apply calm_bind; [apply calm_act; reflexivity | intros _].
  apply calm_bind; [apply calm_act; reflexivity | intros _].
  apply calm_loadWeatherByCoords.
Qed.

(** The invariant of the event loop: the timer discipline, and every
    suspended run is one that leaves the timers alone when resumed. *)
Definition resumes_calm (p : Proc unit) : Prop :=
  match p with
  | Done _ _ => True
  | AwaitGeocode _ _ k => forall res s', calm (k res s') s'
  | AwaitForecast _ _ k => forall res s', calm (k res s') s'
  end.

Definition steady (w : World) : Prop :=
  one_timer (page w) /\ Forall resumes_calm (suspended w).

Lemma steady_settle (p : Proc unit) (w : World) :
  steady w -> calm p (page w) -> steady (settle p w).
Proof.
  intros [Hone Hsus] Hp. split.
  - unfold settle. cbn [page].
    apply (one_timer_tm (page w)); [apply calm_state_of; exact Hp | exact Hone].
  - unfold settle. cbn [suspended].
    destruct p as [s r | s q k | s rq k]; [exact Hsus | |];
      (apply Forall_app; split; [exact Hsus |]);
      (apply Forall_cons_2; [| apply Forall_nil_2]);
      simpl in *; apply Hp.
Qed.

Lemma steady_start (m : M unit) (w : World) :
  steady w -> calmM m -> steady (start m w).
Proof. intros Hw Hm. apply steady_settle; [exact Hw | apply Hm]. Qed.

Lemma steady_on_page (f : State -> State) (w : World) :
  steady w -> (forall s, tm (f s) = tm s) -> steady (on_page f w).
Proof.
  intros [Hone Hsus] Hf. split; [| exact Hsus].
  unfold on_page. cbn [page]. apply (one_timer_tm (page w)); [apply Hf | exact Hone].
Qed.

Lemma tm_document_click (outside : bool) (s : State) :
  tm (document_click outside s) = tm s.
Proof. destruct outside; reflexivity. Qed.

Lemma steady_fire (l : list (positive * Z)) (w : World) :
  steady w -> steady (fire host l w).
Proof.
  revert w. induction l as [| [id d] r IH]; intros w Hw; [exact Hw |].
  simpl. destruct (is_pending id (page w)) eqn:Epending; [| apply IH; exact Hw].
  apply IH. destruct Hw as [Hone Hsus].
  split.
  - pose proof (fire_one_timer host [(id, d)] w Hone) as H1. simpl in H1.
    rewrite Epending in H1. exact H1.
  - unfold start, settle, on_page. cbn [page suspended].
    destruct (handleAutocomplete host (clearTimeout id (set_clock d (page w))))
      as [s r0 | s q k | s rq k] eqn:E; [exact Hsus | |];
      (apply Forall_app; split; [exact Hsus |]);
      (apply Forall_cons_2; [| apply Forall_nil_2]);
      pose proof (calm_handleAutocomplete (clearTimeout id (set_clock d (page w)))) as Hc;
      rewrite E in Hc; simpl in *; apply Hc.
Qed.

Lemma steady_advance (t : Z) (w : World) : steady w -> steady (advance host t w).
Proof.
  intros Hw. split.
  - apply advance_one_timer. apply Hw.
  - unfold advance, on_page. cbn [suspended]. apply steady_fire. exact Hw.
Qed.

Lemma steady_respond (n : nat) (reply : Reply) (w : World) :
  steady w -> steady (respond n reply w).
Proof.
  intros [Hone Hsus]. unfold respond.
  destruct (suspended w !! n) as [p |] eqn:Hn; [| split; assumption].
  assert (Hp : resumes_calm p).
  { rewrite Forall_forall in Hsus. apply Hsus.
    apply (list_elem_of_lookup_2 _ n). exact Hn. }
  assert (Hrest : Forall resumes_calm (take n (suspended w) ++ drop (S n) (suspended w))).
  { apply Forall_app. split; [apply Forall_take | apply Forall_drop]; exact Hsus. }
  destruct p as [s r | s q k | s rq k], reply as [res | res]; simpl;
    try (split; assumption);
    (apply steady_settle; [split; [exact Hone | exact Hrest] | apply Hp]).
Qed.

Lemma steady_handle (e : Event) (w : World) : steady w -> steady (handle host e w).
Proof.
  intros Hw.
  destruct e as [v | | key | outside | r | | | latitude longitude | err | n reply];
    cbn [handle].
  - destruct Hw as [Hone Hsus]. split; [| exact Hsus].
    unfold on_page. cbn [page].
    destruct (cityInput_input_timer v (page w) Hone) as (Hp & Hd & _).
    unfold one_timer. rewrite Hp, Hd. intros p [<- | []]. reflexivity.
  - apply steady_on_page; [| apply tm_document_click].
    apply steady_start; [exact Hw | apply calm_searchBtn_click].
  - unfold cityInput_keydown. destruct key.
    + apply steady_on_page; [| apply tm_document_click].
      apply steady_start; [exact Hw | apply calm_searchBtn_click].
    + apply steady_on_page; [exact Hw | reflexivity].
    + exact Hw.
  - apply steady_on_page; [exact Hw | apply tm_document_click].
  - apply steady_on_page; [| apply tm_document_click].
    apply steady_start; [exact Hw | apply calm_suggItem_click].
  - apply steady_on_page; [| apply tm_document_click].
    apply steady_start; [exact Hw | apply calm_unitBtn_click].
  - unfold geoBtn_clicked, geoBtn_click.
    destruct (negb (geolocation host));
      (apply steady_on_page; [| apply tm_document_click]);
      (split; [apply (one_timer_tm (page w)); [reflexivity | apply Hw] | apply Hw]).
  - unfold located. destruct (locating w) as [| n]; [exact Hw |].
    apply (steady_start (geo_success host latitude longitude));
      [| unfold geo_success; apply calm_loadWeatherByCoords].
    destruct Hw as [Hone Hsus]. split; [exact Hone | exact Hsus].
  - unfold located. destruct (locating w) as [| n]; [exact Hw |].
    apply steady_on_page; [| reflexivity].
    destruct Hw as [Hone Hsus]. split; [exact Hone | exact Hsus].
  - apply steady_respond. exact Hw.
Qed.

Lemma steady_run (trace : list (Z * Event)) (w : World) :
  steady w -> steady (run host trace w).
Proof.
  revert w. induction trace as [| [t e] r IH]; intros w Hw; [exact Hw |].
  cbn [run]. apply IH. apply steady_handle. apply steady_advance. exact Hw.
Qed.

(** Every page reached from the start of the script, through any
    events, responses and waits, has at most the timeout remembered in
    [debounceTimer] pending. *)
Lemma reachable_one_timer (chartjs : bool) (trace : list (Z * Event)) :
  one_timer (page (run host trace (initial_world host chartjs))).
Proof.
  apply steady_run. unfold initial_world, init.
  apply steady_start; [| apply calm_loadWeatherByCityName].
  split; [intros p [] | apply Forall_nil_2].
Qed.

End Calm.

(** ** Debounce and blank input, on every reachable page *)

Section Reachable.

Variable host : Host.

(** C6. On any page reached from the start of the script, two
    keystrokes less than 280 ms apart, the first leaving the text [a] in
    the field and the second the text [b]: from the first keystroke on,
    whatever time passes afterwards, at most one geocoding query goes out,
    and it is the query for [b] (trimmed), never one for [a].  None goes
    out before 280 ms have passed since the second keystroke, none when
    [b] has fewer than two characters, and none when [b] holds a lone
    surrogate ([geocode] then fails before it calls [fetch]).  Otherwise
    the query does go out once the 280 ms have passed. *)
Theorem debounce_latest_keystroke
    (chartjs : bool) (history : list (Z * Event))
    (a b : jsstr) (t1 t2 T : Z) :
  t1 <= t2 < t1 + 280 ->
  exists qs,
    issued (advance host T (run host [(t1, Input a); (t2, Input b)]
                         (run host history (initial_world host chartjs))))
      = issued (advance host t1 (run host history (initial_world host chartjs))) ++ qs
    /\ (qs = [] \/ qs = [GeocodeRequest (trim b)])
    /\ (T < t2 + 280 \/ (length (trim b) < 2)%nat \/ isWellFormed (trim b) = false ->
        qs = [])
    /\ (clock (timers (page (run host history (initial_world host chartjs)))) <= t1 ->
        t2 + 280 <= T ->
        (2 <= length (trim b))%nat -> isWellFormed (trim b) = true ->
        qs = [GeocodeRequest (trim b)]).
Proof.
  intros Ht. apply debounce_pair; [apply reachable_one_timer | exact Ht].
Qed.

(** C5. Text that is empty or only whitespace trims to the empty
    string, and then neither path reaches [geocode]: the search button
    shows "Type a city name" and returns, and [handleAutocomplete] hides
    the suggestions and returns.  More generally, with fewer than two
    characters after trimming, [handleAutocomplete] returns at once with
    the suggestion list hidden; on any page reached from the start of the
    script, a keystroke that leaves such a text, followed by any wait,
    issues no request and leaves no run suspended, and once the timer has
    fired (280 ms after the keystroke) no timeout is pending and the list
    is hidden. *)
Theorem blank_input_issues_no_request :
  (forall s,
     forallb is_space (cityInput_value s) = true ->
     trim (cityInput_value s) = []
     /\ searchBtn_click host s
        = Done (showError (js "Type a city name")
                  (js "Example: Pune, Kathmandu, Patna, New York.") s)
               (Return tt)
     /\ handleAutocomplete host s = Done (hideSuggestions s) (Return tt))
  /\ (forall s,
        (length (trim (cityInput_value s)) < 2)%nat ->
        handleAutocomplete host s = Done (hideSuggestions s) (Return tt)
        /\ classList_contains "suggestions" "show" (hideSuggestions s) = false)
  /\ (forall w,
        trim (cityInput_value (page w)) = [] ->
        issued (handle host SearchClick w) = issued w
        /\ suspended (handle host SearchClick w) = suspended w)
  /\ (forall chartjs history v T,
        (length (trim v) < 2)%nat ->
        issued (advance host T (handle host (Input v)
                             (run host history (initial_world host chartjs))))
          = issued (run host history (initial_world host chartjs))
        /\ suspended (advance host T (handle host (Input v)
                                   (run host history (initial_world host chartjs))))
           = suspended (run host history (initial_world host chartjs))
        /\ (clock (timers (page (run host history (initial_world host chartjs)))) + 280 <= T ->
            classList_contains "suggestions" "show"
              (page (advance host T (handle host (Input v)
                                  (run host history (initial_world host chartjs))))) = false
            /\ pending (timers (page (advance host T (handle host (Input v)
                                  (run host history (initial_world host chartjs)))))) = [])).
Proof.
  destruct (blank_input_from host) as (H1 & H2 & H3 & H4).
  split; [exact H1 |]. split; [exact H2 |]. split; [exact H3 |].
  intros chartjs history v T Hshort.
  apply H4; [apply reachable_one_timer | exact Hshort].
Qed.

End Reachable.

Lemma debounce_latest_keystroke_witness :
  issued (advance demo_host 1000
            (run demo_host [(0, Input (js "P")); (50, Input (js "Pu"))]
               (initial_world demo_host true)))
  = [GeocodeRequest (js "Kathmandu"); GeocodeRequest (js "Pu")].
Proof.
  destruct (debounce_latest_keystroke demo_host true [] (js "P") (js "Pu") 0 50 1000
              ltac:(lia))
    as (qs & E & _ & _ & Hlive).
  cbn [run] in *. rewrite E, Hlive.
  - vm_compute. reflexivity.
  - vm_compute. discriminate.
  - lia.
  - vm_compute. lia.
  - vm_compute. reflexivity.
Defined.

Lemma blank_input_issues_no_request_witness :
  issued (advance demo_host 1000 (handle demo_host (Input (js "   ")) (initial_world demo_host true)))
    = [GeocodeRequest (js "Kathmandu")]
  /\ issued (advance demo_host 1000 (handle demo_host (Input (js " x ")) (initial_world demo_host true)))
     = [GeocodeRequest (js "Kathmandu")]
  /\ searchBtn_click demo_host (set_cityInput_value (js "   ") (initial_state true))
     = Done (showError (js "Type a city name")
               (js "Example: Pune, Kathmandu, Patna, New York.")
               (set_cityInput_value (js "   ") (initial_state true)))
            (Return tt).
Proof.
  destruct (blank_input_issues_no_request demo_host) as (Hblank & _ & _ & Hkey).
  split; [| split].
  - destruct (Hkey true [] (js "   ") 1000) as (Hi & _); [vm_compute; lia |].
    cbn [run] in *. rewrite Hi. vm_compute. reflexivity.
  - destruct (Hkey true [] (js " x ") 1000) as (Hi & _); [vm_compute; lia |].
    cbn [run] in *. rewrite Hi. vm_compute. reflexivity.
  - destruct (Hblank (set_cityInput_value (js "   ") (initial_state true)))
      as (_ & Hs & _); [vm_compute; reflexivity | exact Hs].
Defined.

(** ** A session, run *)

Definition kathmandu : Candidate.t :=
  {| Candidate.name := js "Kathmandu";
     Candidate.admin1 := Some (js "Bagmati");
     Candidate.country := Some (js "Nepal");
     Candidate.latitude := 27.70169;
     Candidate.longitude := 85.3206 |}.

(** The script starts, the geocoder answers with Kathmandu, the forecast
    arrives. *)
Definition session_loaded (chartjs : bool) : World :=
  run demo_host
    [(120, Respond 0 (GeocodeReply (Json (GeoObject (Some [kathmandu])))));
     (340, Respond 0 (ForecastReply (Json payload_21_6)))]
    (initial_world demo_host chartjs).

Example session_requests :
  issued (session_loaded true)
  = [GeocodeRequest (js "Kathmandu");
     ForecastRequest_
       {| rq_latitude := 27.70169; rq_longitude := 85.3206;
          rq_timezone := js "auto"; rq_temperature_unit := js "celsius";
          rq_windspeed_unit := js "kmh"; rq_forecast_days := 7 |}]
  /\ suspended (session_loaded true) = [].
Proof. vm_compute. split; reflexivity. Qed.

Example session_page :
  shown "placePill" (page (session_loaded true))
    = Some (Str (js "Kathmandu, Bagmati, Nepal"))
  /\ shown "tempNow" (page (session_loaded true)) = Some (Numeral (Fin 22))
  /\ shown "humNow" (page (session_loaded true)) = Some (Str (js "—"))
  /\ shown "rainNow" (page (session_loaded true)) = Some (Numeral (Fin 40))
  /\ shown "statusPill" (page (session_loaded true)) = Some (Str (js "Ready"))
  /\ length (forecastGrid (page (session_loaded true))) = 2%nat
  /\ (chart_labels <$> tempChart (charts (page (session_loaded true))))
     = Some [js "2024-05-01T00:00"; js "2024-05-01T01:00"; js "2024-05-01T02:00"]
  /\ classList_contains "errorBox" "hidden" (page (session_loaded true)) = true.
Proof. vm_compute. repeat split; reflexivity. Qed.

(** The same session without Chart.js. *)
Example session_without_charts :
  shown "tempNow" (page (session_loaded false)) = Some (Numeral (Fin 22))
  /\ length (forecastGrid (page (session_loaded false))) = 2%nat
  /\ charts (page (session_loaded false))
     = {| tempChart := None; rainChart := None; windChart := None |}
  /\ shown "errorTitle" (page (session_loaded false))
     = Some (Str (js "Could not load charts"))
  /\ classList_contains "errorBox" "hidden" (page (session_loaded false)) = false.
Proof. vm_compute. repeat split; reflexivity. Qed.

(** Typing "P", then "Pu" 50 ms later, then "Pun" 400 ms after that; then
    two clicks on the unit button. *)
Example session_typing_and_units :
  issued (run demo_host
            [(1000, Input (js "P")); (1050, Input (js "Pu")); (1450, Input (js "Pun"));
             (2000, UnitClick); (2100, UnitClick)]
            (session_loaded true))
  = issued (session_loaded true)
    ++ [GeocodeRequest (js "Pu");
        GeocodeRequest (js "Pun");
        ForecastRequest_
          {| rq_latitude := 27.70169; rq_longitude := 85.3206;
             rq_timezone := js "auto"; rq_temperature_unit := js "fahrenheit";
             rq_windspeed_unit := js "kmh"; rq_forecast_days := 7 |};
        ForecastRequest_
          {| rq_latitude := 27.70169; rq_longitude := 85.3206;
             rq_timezone := js "auto"; rq_temperature_unit := js "celsius";
             rq_windspeed_unit := js "kmh"; rq_forecast_days := 7 |}].
Proof. vm_compute. reflexivity. Qed.

(** * Further properties of the script *)

(** ** Weather codes that are not table keys *)

Lemma table_key_value (q : Q) (z : Z) : q == inject_Z z -> table_key (Number q) = Some z.
Proof.
  intros E. unfold table_key.
  rewrite (Qred_complete q (inject_Z z) E).
  rewrite Qred_identity by (simpl; apply Z.gcd_1_r).
  reflexivity.
Qed.

Lemma table_key_is_value (q : Q) (k : Z) :
  table_key (Number q) = Some k -> q == inject_Z k.
Proof.
  unfold table_key. cbv zeta.
  destruct (Z.eqb_spec (Z.pos (Qden (Qred q))) 1) as [Hden | Hden]; [| discriminate].
  intros E. injection E as <-.
  rewrite <- (Qred_correct q) at 1.
  destruct (Qred q) as [n dn]. simpl in *.
  injection Hden as ->. reflexivity.
Qed.

(** X1. [decodeWeatherCode] looks at the value of the code only: a
    number equal to the integer [z], however it is written, gets what the
    integer gets; and everything that is not an integer-valued number (a
    missing [weather_code], [null], a fraction) gets the fallback
    ["Unknown"]. *)
Theorem decodeWeatherCode_by_value :
  (forall q z, q == inject_Z z ->
     decodeWeatherCode (Number q) = decodeWeatherCode (Number (inject_Z z)))
  /\ (forall v,
        (forall q z, v = Number q -> ~ q == inject_Z z) ->
        decodeWeatherCode v = {| Wx.t := js "Unknown"; Wx.i := js "🌡️" |}).
Proof.
  split.
  - intros q z E. unfold decodeWeatherCode.
    rewrite (table_key_value q z E), table_key_integer. reflexivity.
  - intros v Hv. unfold decodeWeatherCode.
    destruct (table_key v) as [k |] eqn:Ek; [| reflexivity].
    destruct v as [| | q]; try discriminate.
    exfalso. apply (Hv q k eq_refl). apply table_key_is_value. exact Ek.
Qed.

Lemma decodeWeatherCode_by_value_witness :
  Wx.t (decodeWeatherCode (Number (190 # 2))) = js "Thunderstorm"
  /\ decodeWeatherCode (Number (1 # 2)) = {| Wx.t := js "Unknown"; Wx.i := js "🌡️" |}
  /\ decodeWeatherCode Undefined = {| Wx.t := js "Unknown"; Wx.i := js "🌡️" |}.
Proof.
  destruct decodeWeatherCode_by_value as [Hvalue Hother].
  split; [| split].
  - rewrite (Hvalue (190 # 2) 95); [vm_compute; reflexivity | reflexivity].
  - apply Hother. intros q z E. injection E as <-.
    unfold Qeq. simpl. lia.
  - apply Hother. intros q z E. discriminate.
Defined.

(** ** The today card: what it writes, and what it leaves *)

(** The nodes [setTodayCard] assigns. *)
Definition today_nodes : list string :=
  [ "wxIcon"; "wxMain"; "conditionBadge"; "tempNow"; "tempFeel"; "windNow";
    "humNow"; "precipNow"; "rainNow"; "tempUnit"; "feelUnit"; "windUnit";
    "rainUnit"; "wxSub" ]%string.

(** What lies beyond the text of the nodes: classes, attributes, charts,
    forecast grid, unit and place. *)
Definition beyond_text (s : State) :=
  (classList s, attributes s, charts s, forecastGrid s, unit' s, currentPlace s).

Lemma beyond_text_set_textContent (id : string) (v : text) (s : State) :
  beyond_text (set_textContent id v s) = beyond_text s.
Proof. reflexivity. Qed.

Section Today_more.

Variable host : Host.

Lemma today_written_frame (data : Forecast) (c : Current.t) (s : State) :
  beyond_text (today_written host data c s) = beyond_text s
  /\ forall id, ~ In id today_nodes ->
       shown id (today_written host data c s) = shown id s.
Proof.
  unfold today_written. cbv zeta. split.
  - rewrite !beyond_text_set_textContent. reflexivity.
  - intros id Hid.
    rewrite !shown_set_ne by (intros E; apply Hid; rewrite E; simpl; tauto).
    reflexivity.
Qed.

(** The texts of the today card after [setTodayCard], whether it ends
    normally or throws at the line of [wxSub]. *)
Lemma setTodayCard_written (data : Forecast) (c : Current.t) (s : State) :
  current data = Some c ->
  exists s' r,
    setTodayCard host data s = Done s' r
    /\ forall id, id <> "wxSub" ->
         shown id s' = shown id (today_written host data c s).
Proof.
  intros Hc. rewrite setTodayCard_run, Hc.
  destruct (Place.lat (currentPlace s)) as [lat |];
    [destruct (Place.lon (currentPlace s)) as [lon |] |];
    eexists _, _; (split; [reflexivity |]); intros id Hid;
    rewrite ?shown_set_ne by exact Hid; reflexivity.
Qed.

(** X2. Only the humidity and the rain chance have a placeholder.  The
    temperature, the apparent temperature and the wind speed go through
    [Math.round] unguarded: a [null] is shown as 0 and a missing field as
    NaN.  A missing or [null] precipitation is shown as [toFixed] of 0. *)
Theorem setTodayCard_unguarded_fields (data : Forecast) (c : Current.t) (s : State) :
  current data = Some c ->
  exists s' r,
    setTodayCard host data s = Done s' r
    /\ (Current.temperature_2m c = Null -> shown "tempNow" s' = Some (Numeral (Fin 0)))
    /\ (Current.temperature_2m c = Undefined -> shown "tempNow" s' = Some (Numeral NaN))
    /\ (Current.apparent_temperature c = Null -> shown "tempFeel" s' = Some (Numeral (Fin 0)))
    /\ (Current.apparent_temperature c = Undefined -> shown "tempFeel" s' = Some (Numeral NaN))
    /\ (Current.wind_speed_10m c = Null -> shown "windNow" s' = Some (Numeral (Fin 0)))
    /\ (Current.wind_speed_10m c = Undefined -> shown "windNow" s' = Some (Numeral NaN))
    /\ (Current.precipitation c = Null \/ Current.precipitation c = Undefined ->
        shown "precipNow" s' = Some (Str (toFixed host 0 1)))
    /\ (forall q, Current.precipitation c = Number q ->
        shown "precipNow" s' = Some (Str (toFixed host q 1))).
Proof.
  intros Hc. destruct (setTodayCard_written data c s Hc) as (s' & r & E & Hshown).
  exists s', r. split; [exact E |].
  assert (Ht : shown "tempNow" s' = Some (Numeral (Math_round (Current.temperature_2m c)))).
  { rewrite Hshown by discriminate. unfold today_written. cbv zeta. shown_solve. }
  assert (Hf : shown "tempFeel" s' = Some (Numeral (Math_round (Current.apparent_temperature c)))).
  { rewrite Hshown by discriminate. unfold today_written. cbv zeta. shown_solve. }
  assert (Hw : shown "windNow" s' = Some (Numeral (Math_round (Current.wind_speed_10m c)))).
  { rewrite Hshown by discriminate. unfold today_written. cbv zeta. shown_solve. }
  assert (Hp : shown "precipNow" s'
               = Some (Str (toFixed host (nullish (Current.precipitation c) 0%Q id) 1))).
  { rewrite Hshown by discriminate. unfold today_written. cbv zeta. shown_solve. }
  repeat split.
  - intros H. rewrite Ht, H. reflexivity.
  - intros H. rewrite Ht, H. reflexivity.
  - intros H. rewrite Hf, H. reflexivity.
  - intros H. rewrite Hf, H. reflexivity.
  - intros H. rewrite Hw, H. reflexivity.
  - intros H. rewrite Hw, H. reflexivity.
  - intros [H | H]; rewrite Hp, H; reflexivity.
  - intros q H. rewrite Hp, H. reflexivity.
Qed.

(** X3. [setTodayCard] touches the text of its fourteen nodes and
    nothing else: classes, attributes, charts, forecast grid, unit and
    place are as before, and so is the text of every other node.  When
    [data.current] is missing it throws before writing anything. *)
Theorem setTodayCard_frame (data : Forecast) (s : State) :
  (current data = None -> setTodayCard host data s = Done s (Throw (TypeError host)))
  /\ exists s' r,
       setTodayCard host data s = Done s' r
       /\ (classList s', attributes s', charts s', forecastGrid s', unit' s', currentPlace s')
          = (classList s, attributes s, charts s, forecastGrid s, unit' s, currentPlace s)
       /\ forall id, ~ In id today_nodes -> shown id s' = shown id s.
Proof.
  split.
  - intros Hc. rewrite setTodayCard_run, Hc. reflexivity.
  - rewrite setTodayCard_run.
    destruct (current data) as [c |].
    + destruct (today_written_frame data c s) as (H1 & H2).
      assert (Hthrow :
                exists s' r,
                  Done (today_written host data c s) (Throw (TypeError host))
                  = @Done unit s' r
                  /\ beyond_text s' = beyond_text s
                  /\ forall id, ~ In id today_nodes -> shown id s' = shown id s).
      { exists (today_written host data c s), (Throw (TypeError host)).
        split; [reflexivity |]. split; [exact H1 | exact H2]. }
      destruct (Place.lat (currentPlace s)) as [lat |]; [| exact Hthrow].
      destruct (Place.lon (currentPlace s)) as [lon |]; [| exact Hthrow].
      exists (set_textContent "wxSub" (today_wxSub host lat lon)
                (today_written host data c s)), (Return tt).
      split; [reflexivity |]. split.
      * change (beyond_text (set_textContent "wxSub" (today_wxSub host lat lon)
                               (today_written host data c s)) = beyond_text s).
        rewrite beyond_text_set_textContent. exact H1.
      * intros id Hid.
        rewrite shown_set_ne by (intros E; apply Hid; rewrite E; simpl; tauto).
        apply H2. exact Hid.
    + exists s, (Throw (TypeError host)). split; [reflexivity |].
      split; [reflexivity |]. intros id _. reflexivity.
Qed.

End Today_more.

(** A payload with gaps in its current conditions and nothing else. *)
Definition payload_gaps : Forecast :=
  {| current := Some
       {| Current.time := None; Current.temperature_2m := Null;
          Current.apparent_temperature := Undefined;
          Current.relative_humidity_2m := Number 40;
          Current.precipitation := Undefined;
          Current.weather_code := Number 3;
          Current.wind_speed_10m := Null |};
     hourly := None; daily := None |}.

Lemma setTodayCard_unguarded_fields_witness :
  exists s' r,
    setTodayCard demo_host payload_gaps (page_kathmandu true) = Done s' r
    /\ shown "tempNow" s' = Some (Numeral (Fin 0))
    /\ shown "tempFeel" s' = Some (Numeral NaN)
    /\ shown "precipNow" s' = Some (Str (toFixed demo_host 0 1)).
Proof.
  destruct (setTodayCard_unguarded_fields demo_host payload_gaps _ (page_kathmandu true) eq_refl)
    as (s' & r & E & Ht & _ & _ & Hf & _ & _ & Hp & _).
  exists s', r. split; [exact E |].
  split; [apply Ht; reflexivity |].
  split; [apply Hf; reflexivity | apply Hp; right; reflexivity].
Defined.

Lemma setTodayCard_frame_witness :
  setTodayCard demo_host {| current := None; hourly := None; daily := None |}
    (page_kathmandu true)
  = Done (page_kathmandu true) (Throw (TypeError demo_host)).
Proof.
  destruct (setTodayCard_frame demo_host
              {| current := None; hourly := None; daily := None |}
              (page_kathmandu true)) as [H _].
  apply H. reflexivity.
Defined.

(** ** The forecast grid: one card per day, or none *)

Section Grid_more.

Variable host : Host.

Lemma cards_from_lookup wcode tmin tmax pmax psum u (days : list jsstr) (k i : nat) (day : jsstr) :
  days !! i = Some day ->
  cards_from host wcode tmin tmax pmax psum u days k !! i
  = Some (card_of host wcode tmin tmax pmax psum u day (k + i)).
Proof.
  revert k i. induction days as [| d0 rest IH]; intros k i Hi; [discriminate |].
  destruct i as [| i]; simpl in *.
  - injection Hi as ->. rewrite Nat.add_0_r. reflexivity.
  - rewrite (IH (S k) i Hi). do 2 f_equal. lia.
Qed.

(** X4. When the daily arrays are there, [buildForecastCards] replaces
    the children of the grid, whatever they were, by one card per entry of
    [daily.time], in order; the card at index [i] is made of the entries
    at index [i] of the other arrays and carries the unit of the moment.
    The chip shows that unit; no other text, no class, no chart and no
    variable changes. *)
Theorem buildForecastCards_one_card_per_day
    (data : Forecast) (d : Daily.t) (days : list jsstr)
    (wcode tmin tmax pmax psum : list field) (s : State) :
  daily data = Some d ->
  Daily.time d = Some days ->
  Daily.weather_code d = Some wcode ->
  Daily.temperature_2m_min d = Some tmin ->
  Daily.temperature_2m_max d = Some tmax ->
  Daily.precipitation_probability_max d = Some pmax ->
  Daily.precipitation_sum d = Some psum ->
  exists s',
    buildForecastCards host data s = Done s' (Return tt)
    /\ length (forecastGrid s') = length days
    /\ (forall i day,
          days !! i = Some day ->
          forecastGrid s' !! i
          = Some {| fDay := toLocale host WeekdayShort (Some day);
                    fMeta := toLocale host MonthDay (Some day);
                    fIcon_title := Wx.t (decodeWeatherCode (index wcode i));
                    fIcon := Wx.i (decodeWeatherCode (index wcode i));
                    fTemps_min := Math_round (index tmin i);
                    fTemps_max := Math_round (index tmax i);
                    fTemps_unit := unit_suffix (unit' s);
                    fRain := match index pmax i with
                             | Number q => Numeral (Fin q)
                             | _ => Str (js "—")
                             end;
                    fPrecip := toFixed host
                                 match index psum i with Number q => q | _ => 0%Q end 1 |})
    /\ shown "forecastChip" s' = Some (Str (js "Daily • " ++ unit_suffix (unit' s)))
    /\ (forall id, id <> "forecastChip" -> shown id s' = shown id s)
    /\ (classList s', attributes s', charts s', unit' s', currentPlace s')
       = (classList s, attributes s, charts s, unit' s, currentPlace s).
Proof.
  intros Hd Hdays Hwcode Htmin Htmax Hpmax Hpsum.
  eexists. split.
  { apply (buildForecastCards_run host d wcode tmin tmax pmax psum
             Hwcode Htmin Htmax Hpmax Hpsum data days s Hd Hdays). }
  split; [apply cards_from_length |].
  split.
  { intros i day Hi.
    change (cards_from host wcode tmin tmax pmax psum (unit' s) days 0 !! i = Some
              {| fDay := toLocale host WeekdayShort (Some day);
                 fMeta := toLocale host MonthDay (Some day);
                 fIcon_title := Wx.t (decodeWeatherCode (index wcode i));
                 fIcon := Wx.i (decodeWeatherCode (index wcode i));
                 fTemps_min := Math_round (index tmin i);
                 fTemps_max := Math_round (index tmax i);
                 fTemps_unit := unit_suffix (unit' s);
                 fRain := match index pmax i with
                          | Number q => Numeral (Fin q)
                          | _ => Str (js "—")
                          end;
                 fPrecip := toFixed host
                              match index psum i with Number q => q | _ => 0%Q end 1 |}).
    rewrite (cards_from_lookup wcode tmin tmax pmax psum (unit' s) days 0 i day Hi).
    unfold card_of, nullish. simpl Nat.add.
    destruct (index pmax i), (index psum i); reflexivity. }
  split; [apply shown_set_eq |].
  split; [| reflexivity].
  intros id Hid. rewrite shown_set_ne by exact Hid. reflexivity.
Qed.

Lemma forecast_card_missing (d : Daily.t) (day : jsstr) (i : nat) (s : State) :
  Daily.weather_code d = None \/ Daily.temperature_2m_min d = None
  \/ Daily.temperature_2m_max d = None
  \/ Daily.precipitation_probability_max d = None
  \/ Daily.precipitation_sum d = None ->
  forecast_card host d day i s = Done s (Throw (TypeError host)).
Proof.
  intros H. unfold forecast_card, read.
  destruct (Daily.weather_code d); [| reflexivity].
  destruct (Daily.temperature_2m_min d); [| reflexivity].
  destruct (Daily.temperature_2m_max d); [| reflexivity].
  destruct (Daily.precipitation_probability_max d); [| reflexivity].
  destruct (Daily.precipitation_sum d); [| reflexivity].
  destruct H as [H | [H | [H | [H | H]]]]; discriminate.
Qed.

(** X5. How [buildForecastCards] fails.  Without [data.daily] it throws
    and the page is untouched.  Without [daily.time], or with at least one
    day and one of the five other arrays missing, it throws after it has
    emptied the grid: the old cards are gone, no card is added and the
    chip is not written.  With no day at all it ends normally, the grid
    empty, even if the other arrays are missing. *)
Theorem buildForecastCards_failures (data : Forecast) (s : State) :
  (daily data = None ->
   buildForecastCards host data s = Done s (Throw (TypeError host)))
  /\ (forall d,
        daily data = Some d -> Daily.time d = None ->
        buildForecastCards host data s
        = Done (set_forecastGrid [] s) (Throw (TypeError host)))
  /\ (forall d day rest,
        daily data = Some d -> Daily.time d = Some (day :: rest) ->
        Daily.weather_code d = None \/ Daily.temperature_2m_min d = None
        \/ Daily.temperature_2m_max d = None
        \/ Daily.precipitation_probability_max d = None
        \/ Daily.precipitation_sum d = None ->
        buildForecastCards host data s
        = Done (set_forecastGrid [] s) (Throw (TypeError host)))
  /\ (forall d,
        daily data = Some d -> Daily.time d = Some [] ->
        buildForecastCards host data s
        = Done (set_textContent "forecastChip"
                  (Str (js "Daily • " ++ unit_suffix (unit' s)))
                  (set_forecastGrid [] s))
               (Return tt)).
Proof.
  split; [| split; [| split]].
  - intros Hd. unfold buildForecastCards, lift, read. rewrite Hd. reflexivity.
  - intros d Hd Ht. unfold buildForecastCards, lift, read. rewrite Hd.
    unfold bind at 1. cbn [bindP]. unfold bind at 1, act at 1. cbn [bindP].
    rewrite Ht. reflexivity.
  - intros d day rest Hd Ht Hmissing.
    unfold buildForecastCards, lift, read. rewrite Hd.
    unfold bind at 1. cbn [bindP]. unfold bind at 1, act at 1. cbn [bindP].
    rewrite Ht. unfold bind at 1. cbn [bindP]. unfold bind at 1.
    cbn [forecast_loop]. unfold bind at 1.
    rewrite (forecast_card_missing d day 0 _ Hmissing). reflexivity.
  - intros d Hd Ht. unfold buildForecastCards, lift, read. rewrite Hd.
    unfold bind at 1. cbn [bindP]. unfold bind at 1, act at 1. cbn [bindP].
    rewrite Ht. unfold bind at 1. cbn [bindP]. unfold bind at 1.
    cbn [forecast_loop ret bindP]. run_proc. state_proj. reflexivity.
Qed.

End Grid_more.

Lemma buildForecastCards_one_card_per_day_witness :
  exists s',
    buildForecastCards demo_host payload_21_6 (page_kathmandu true) = Done s' (Return tt)
    /\ length (forecastGrid s') = 2%nat
    /\ (fTemps_max <$> forecastGrid s' !! 1%nat) = Some (Fin 26)
    /\ (fRain <$> forecastGrid s' !! 1%nat) = Some (Str (js "—")).
Proof.
  destruct (buildForecastCards_one_card_per_day demo_host payload_21_6 _ _ _ _ _ _ _
              (page_kathmandu true) eq_refl eq_refl eq_refl eq_refl eq_refl eq_refl eq_refl)
    as (s' & E & Hlen & Hcard & _).
  exists s'. split; [exact E |]. split; [exact Hlen |].
  rewrite (Hcard 1%nat (js "2024-05-02") eq_refl). split; reflexivity.
Defined.

(** A daily section with two days and no probability array. *)
Definition payload_daily_gap : Forecast :=
  {| current := None; hourly := None;
     daily := Some
       {| Daily.time := Some [js "2024-05-01"; js "2024-05-02"];
          Daily.temperature_2m_max := Some [Number 24.4; Number 25.5];
          Daily.temperature_2m_min := Some [Number 12.5; Number 13.2];
          Daily.precipitation_sum := Some [Number 0; Null];
          Daily.precipitation_probability_max := None;
          Daily.weather_code := Some [Number 0; Number 61] |} |}.

Lemma buildForecastCards_failures_witness :
  buildForecastCards demo_host payload_daily_gap (page_kathmandu true)
  = Done (set_forecastGrid [] (page_kathmandu true)) (Throw (TypeError demo_host))
  /\ buildForecastCards demo_host payload_gaps (page_kathmandu true)
     = Done (page_kathmandu true) (Throw (TypeError demo_host)).
Proof.
  split.
  - destruct (buildForecastCards_failures demo_host payload_daily_gap (page_kathmandu true))
      as (_ & _ & H & _).
    apply (H _ (js "2024-05-01") [js "2024-05-02"] eq_refl eq_refl).
    right. right. right. left. reflexivity.
  - destruct (buildForecastCards_failures demo_host payload_gaps (page_kathmandu true))
      as (H & _).
    apply H. reflexivity.
Defined.

(** ** The series and the charts *)

Section Series_more.

Variable host : Host.

(** X6. [next24HoursSeries] returns exactly when [data.hourly] and its
    four arrays ([time], [temperature_2m], [precipitation_probability],
    [wind_speed_10m]) are all there; when any of them is missing it throws
    the engine's [TypeError], and nothing else. *)
Theorem next24HoursSeries_needs_every_array (data : Forecast) :
  ((exists sr, next24HoursSeries host data = Return sr)
   <-> exists h, hourly data = Some h
                 /\ is_Some (Hourly.time h)
                 /\ is_Some (Hourly.temperature_2m h)
                 /\ is_Some (Hourly.precipitation_probability h)
                 /\ is_Some (Hourly.wind_speed_10m h))
  /\ (forall e, next24HoursSeries host data = Throw e -> e = TypeError host)
  /\ (hourly data = None -> next24HoursSeries host data = Throw (TypeError host)).
Proof.
  unfold next24HoursSeries, read, slice0.
  destruct (hourly data) as [h |] eqn:Hh.
  - destruct (Hourly.time h) as [times |] eqn:E1,
             (Hourly.temperature_2m h) as [temperature |] eqn:E2,
             (Hourly.precipitation_probability h) as [probability |] eqn:E3,
             (Hourly.wind_speed_10m h) as [speed |] eqn:E4;
      (split; [split |]).
    all: try (intros [sr Hsr]; first
                [ discriminate
                | exists h; split; [reflexivity |];
                  rewrite E1, E2, E3, E4; repeat split; eexists; reflexivity ]).
    all: try (intros (h' & Hh' & H1 & H2 & H3 & H4); injection Hh' as <-;
              first
                [ eexists; reflexivity
                | rewrite E1 in H1; destruct H1; discriminate
                | rewrite E2 in H2; destruct H2; discriminate
                | rewrite E3 in H3; destruct H3; discriminate
                | rewrite E4 in H4; destruct H4; discriminate ]).
    all: split; [| intros; discriminate];
      intros e E; first [discriminate | injection E as <-; reflexivity].
  - split; [split |].
    + intros [sr Hsr]. discriminate.
    + intros (h & Hh' & _). discriminate.
    + split; [| reflexivity]. intros e E. injection E as <-. reflexivity.
Qed.

(** X7. With Chart.js present, [makeCharts] puts three fresh charts in
    the three variables.  They share the labels of the series; the
    temperature and wind charts plot the series as they are, gaps
    included; the rain chart plots 0 where the probability is [null] or
    missing, so all its points are numbers, as many as the series has; the
    temperature axis is titled with the unit of the moment.  Text, classes
    and forecast grid are not touched. *)
Theorem makeCharts_with_chartjs (series : Series.t) (s : State) :
  window_Chart s = true ->
  exists tc rc wc,
    charts (makeCharts series s)
    = {| tempChart := Some tc; rainChart := Some rc; windChart := Some wc |}
    /\ (chart_labels tc, chart_labels rc, chart_labels wc)
       = (Series.labels series, Series.labels series, Series.labels series)
    /\ (dataset_data tc, dataset_data wc) = (Series.temps series, Series.wind series)
    /\ length (dataset_data rc) = length (Series.rainP series)
    /\ (forall i v, dataset_data rc !! i = Some v ->
          exists q, v = Number q
                    /\ (Series.rainP series !! i = Some (Number q)
                        \/ (q = 0%Q /\ (Series.rainP series !! i = Some Null
                                        \/ Series.rainP series !! i = Some Undefined))))
    /\ y_title tc = unit_suffix (unit' s)
    /\ (suggestedMax tc, suggestedMax rc, suggestedMax wc) = (None, Some 100, None)
    /\ (destroyed tc, destroyed rc, destroyed wc) = (false, false, false)
    /\ (textContent (makeCharts series s), classList (makeCharts series s),
        forecastGrid (makeCharts series s))
       = (textContent s, classList s, forecastGrid s).
Proof.
  intros H. unfold makeCharts, ensureChartJs. rewrite H. cbn [negb].
  eexists _, _, _. split; [reflexivity |].
  split; [reflexivity |]. split; [reflexivity |].
  split; [cbn [dataset_data]; apply length_map |].
  split.
  { intros i v. cbn [dataset_data]. rewrite list_lookup_fmap.
    destruct (Series.rainP series !! i) as [x |]; [| discriminate].
    simpl. intros E. injection E as <-.
    destruct x as [| | q]; simpl.
    - exists 0%Q. split; [reflexivity |]. right. split; [reflexivity |]. right. reflexivity.
    - exists 0%Q. split; [reflexivity |]. right. split; [reflexivity |]. left. reflexivity.
    - exists q. split; [reflexivity |]. left. reflexivity. }
  repeat split.
Qed.

End Series_more.

Lemma next24HoursSeries_needs_every_array_witness :
  (exists sr, next24HoursSeries demo_host payload_21_6 = Return sr)
  /\ next24HoursSeries demo_host payload_gaps = Throw (TypeError demo_host).
Proof.
  split.
  - destruct (next24HoursSeries_needs_every_array demo_host payload_21_6) as ([_ H] & _).
    apply H. eexists. split; [reflexivity |]. repeat split; eexists; reflexivity.
  - destruct (next24HoursSeries_needs_every_array demo_host payload_gaps) as (_ & _ & H).
    apply H. reflexivity.
Defined.

Lemma makeCharts_with_chartjs_witness :
  exists tc rc wc,
    charts (makeCharts {| Series.labels := [js "00:00"; js "01:00"];
                          Series.temps := [Number 18; Null];
                          Series.rainP := [Null; Number 55];
                          Series.wind := [Number 5; Number 6] |}
              (page_kathmandu true))
    = {| tempChart := Some tc; rainChart := Some rc; windChart := Some wc |}
    /\ dataset_data rc = [Number 0; Number 55]
    /\ dataset_data tc = [Number 18; Null].
Proof.
  destruct (makeCharts_with_chartjs
              {| Series.labels := [js "00:00"; js "01:00"];
                 Series.temps := [Number 18; Null];
                 Series.rainP := [Null; Number 55];
                 Series.wind := [Number 5; Number 6] |}
              (page_kathmandu true) eq_refl)
    as (tc & rc & wc & E & _ & Hdata & _).
  exists tc, rc, wc. split; [exact E |].
  assert (Hrc : rainChart (charts (makeCharts
                  {| Series.labels := [js "00:00"; js "01:00"];
                     Series.temps := [Number 18; Null];
                     Series.rainP := [Null; Number 55];
                     Series.wind := [Number 5; Number 6] |}
                  (page_kathmandu true))) = Some rc) by (rewrite E; reflexivity).
  split.
  - vm_compute in Hrc. injection Hrc as <-. reflexivity.
  - exact (f_equal fst Hdata).
Defined.

(** ** How a load sequence ends *)

Lemma classList_set_currentPlace (p : Place.t) (s : State) :
  classList (set_currentPlace p s) = classList s.
Proof. reflexivity. Qed.

Lemma loading_hidden_after (s : State) :
  classList_contains "loading" "hidden" (setLoading false s) = true
  /\ shown "statusPill" (setLoading false s) = Some (Str (js "Ready")).
Proof.
  split.
  - unfold classList_contains. apply bool_decide_eq_true_2.
    rewrite classList_setLoading. apply elem_of_union. left.
    apply elem_of_singleton. reflexivity.
  - unfold setLoading. apply shown_set_eq.
Qed.

Section Flow_more.

Variable host : Host.

(** Whatever the response and the page it meets, the rest of
    [loadWeatherByCoords] ends normally. *)
Lemma coords_resume_settles (res : response Forecast) (s : State) :
  exists s', coords_resume host res s = Done (setLoading false s') (Return tt).
Proof.
  assert (Hbody : keeps prefs (let! data := lift (forecast_response res) in render host data)%proc).
  { apply keeps_bind; [apply keeps_lift | intros data; apply keeps_prefs_render]. }
  destruct (Hbody s) as (s1 & r & E & _).
  unfold coords_resume, try_finally, try_catch. rewrite E.
  destruct r as [[] | e]; cbn [catchP finallyP].
  - exists s1. reflexivity.
  - unfold coords_catch, act. cbn [finallyP]. eexists. reflexivity.
Qed.

(** X8. [loadWeatherByCoords] in two halves.  Up to the request: the
    error box is hidden, the loading indicator is visible, the status pill
    says "Loading…", and the request carries the coordinates and timezone
    it was given, the unit of the moment, km/h and 7 days.  After the
    response, whatever it is and whatever the page has become: the
    sequence ends without throwing, the loading indicator is hidden again
    and the status pill says "Ready" (what the body or [showError] wrote
    there, "Updated" or "Error", is overwritten by the [finally]
    block).  With a timezone for which no URL can be built (the script
    itself only passes "auto") there is no request, and the sequence
    ends at once in the same way. *)
Theorem loadWeatherByCoords_always_settles
    (lat lon : Q) (label tz : jsstr) (s : State) :
  (isWellFormed tz = true ->
   exists s1 rq k,
     loadWeatherByCoords host lat lon label tz s = AwaitForecast s1 rq k
     /\ classList_contains "errorBox" "hidden" s1 = true
     /\ classList_contains "loading" "hidden" s1 = false
     /\ shown "statusPill" s1 = Some (Str (js "Loading…"))
     /\ rq = {| rq_latitude := lat; rq_longitude := lon; rq_timezone := tz;
                rq_temperature_unit :=
                  match unit' s with Unit.F => js "fahrenheit" | Unit.C => js "celsius" end;
                rq_windspeed_unit := js "kmh"; rq_forecast_days := 7 |}
     /\ forall res s2, exists s3,
          k res s2 = Done s3 (Return tt)
          /\ classList_contains "loading" "hidden" s3 = true
          /\ shown "statusPill" s3 = Some (Str (js "Ready")))
  /\ (isWellFormed tz = false ->
      exists s3,
        loadWeatherByCoords host lat lon label tz s = Done s3 (Return tt)
        /\ classList_contains "loading" "hidden" s3 = true
        /\ shown "statusPill" s3 = Some (Str (js "Ready"))).
Proof.
  split; [intros Htz | intros Htz].
  2: { eexists. split; [apply (loadWeatherByCoords_malformed host _ _ _ _ _ Htz) |].
       apply loading_hidden_after. }
  eexists _, _, _. split; [apply (loadWeatherByCoords_start host _ _ _ _ _ Htz) |].
  assert (Hcl : classList (setPlace label lat lon tz (setLoading true (clearError s)))
                = ({[ ("errorBox", "hidden") ]} ∪ classList s) ∖ {[ ("loading", "hidden") ]}).
  { unfold setPlace. rewrite classList_set_textContent, classList_set_currentPlace.
    rewrite classList_setLoading. reflexivity. }
  split; [| split; [| split; [| split]]].
  - unfold classList_contains. apply bool_decide_eq_true_2. rewrite Hcl.
    apply elem_of_difference. split.
    + apply elem_of_union. left. apply elem_of_singleton. reflexivity.
    + intros H. apply elem_of_singleton in H. discriminate.
  - unfold classList_contains. apply bool_decide_eq_false_2. rewrite Hcl.
    intros H. apply elem_of_difference in H as [_ H]. apply H.
    apply elem_of_singleton. reflexivity.
  - unfold setPlace. rewrite shown_set_ne by discriminate.
    rewrite shown_set_currentPlace. unfold setLoading. apply shown_set_eq.
  - reflexivity.
  - intros res s2. destruct (coords_resume_settles res s2) as [s' E].
    exists (setLoading false s'). split; [exact E |]. apply loading_hidden_after.
Qed.

(** X9. The messages of a failed forecast.  The title is always "Could
    not load weather".  A response that is not ok gives the subtitle
    "Forecast request failed."; a rejection gives the message of the
    error, or, when that message is empty, "Check your internet and try
    again.".  A request that cannot be built (a timezone
    [encodeURIComponent] refuses) is reported in the same way, with the
    message of the [URIError]. *)
Theorem forecast_failure_messages (lat lon : Q) (label tz : jsstr) (s : State) :
  (isWellFormed tz = true ->
   exists s1 rq k,
     loadWeatherByCoords host lat lon label tz s = AwaitForecast s1 rq k
     /\ forall s2,
          (exists s3, k NotOk s2 = Done s3 (Return tt)
                      /\ shown "errorTitle" s3 = Some (Str (js "Could not load weather"))
                      /\ shown "errorSub" s3 = Some (Str (js "Forecast request failed.")))
          /\ (forall e, message e <> [] ->
                exists s3, k (Rejects e) s2 = Done s3 (Return tt)
                           /\ shown "errorTitle" s3 = Some (Str (js "Could not load weather"))
                           /\ shown "errorSub" s3 = Some (Str (message e)))
          /\ (exists s3, k (Rejects (Error [])) s2 = Done s3 (Return tt)
                         /\ shown "errorTitle" s3 = Some (Str (js "Could not load weather"))
                         /\ shown "errorSub" s3
                            = Some (Str (js "Check your internet and try again."))))
  /\ (isWellFormed tz = false ->
      exists s3,
        loadWeatherByCoords host lat lon label tz s = Done s3 (Return tt)
        /\ shown "errorTitle" s3 = Some (Str (js "Could not load weather"))
        /\ shown "errorSub" s3
           = Some (Str (match message (URIError host) with
                        | [] => js "Check your internet and try again."
                        | m => m
                        end))).
Proof.
  split; [intros Htz | intros Htz].
  2: { eexists. split; [apply (loadWeatherByCoords_malformed host _ _ _ _ _ Htz) |].
       destruct (errorBox_visible_after_showError (js "Could not load weather")
                   (message_or (URIError host) (js "Check your internet and try again."))
                   false (setPlace label lat lon tz (setLoading true (clearError s))))
         as (_ & Ht & Hs).
       split; [exact Ht |]. rewrite Hs. unfold message_or.
       destruct (message (URIError host)); reflexivity. }
  eexists _, _, _. split; [apply (loadWeatherByCoords_start host _ _ _ _ _ Htz) |].
  intros s2.
  assert (Hgen : forall res e sub,
            forecast_response res = Throw e ->
            message_or e (js "Check your internet and try again.") = sub ->
            exists s3, coords_resume host res s2 = Done s3 (Return tt)
                       /\ shown "errorTitle" s3 = Some (Str (js "Could not load weather"))
                       /\ shown "errorSub" s3 = Some (Str sub)).
  { intros res e sub He Hsub. eexists.
    split; [apply (coords_resume_failure host res e s2 He) |].
    rewrite Hsub.
    destruct (errorBox_visible_after_showError (js "Could not load weather") sub false s2)
      as (_ & Ht & Hs).
    split; assumption. }
  split; [| split].
  - apply (Hgen NotOk (Error (js "Forecast request failed."))); [reflexivity |].
    vm_compute. reflexivity.
  - intros e He. apply (Hgen (Rejects e) e); [reflexivity |].
    unfold message_or. destruct (message e); [contradiction | reflexivity].
  - apply (Hgen (Rejects (Error [])) (Error [])); reflexivity.
Qed.

End Flow_more.

Lemma loadWeatherByCoords_always_settles_witness :
  exists s1 rq k s3,
    loadWeatherByCoords demo_host 27.7 85.32 (js "Kathmandu") (js "auto")
      (initial_state true) = AwaitForecast s1 rq k
    /\ rq_temperature_unit rq = js "celsius"
    /\ k (Json payload_21_6) s1 = Done s3 (Return tt)
    /\ shown "statusPill" s3 = Some (Str (js "Ready")).
Proof.
  destruct (loadWeatherByCoords_always_settles demo_host 27.7 85.32 (js "Kathmandu")
              (js "auto") (initial_state true)) as [Hwf _].
  destruct (Hwf eq_refl) as (s1 & rq & k & E & _ & _ & _ & Hrq & H).
  destruct (H (Json payload_21_6) s1) as (s3 & E3 & _ & Hpill).
  exists s1, rq, k, s3. split; [exact E |]. split; [rewrite Hrq; reflexivity |].
  split; [exact E3 | exact Hpill].
Defined.

Lemma forecast_failure_messages_witness :
  exists s1 rq k s3,
    loadWeatherByCoords demo_host 27.7 85.32 (js "Kathmandu") (js "auto")
      (initial_state true) = AwaitForecast s1 rq k
    /\ k (Rejects (Error (js "Failed to fetch"))) s1 = Done s3 (Return tt)
    /\ shown "errorSub" s3 = Some (Str (js "Failed to fetch")).
Proof.
  destruct (forecast_failure_messages demo_host 27.7 85.32 (js "Kathmandu") (js "auto")
              (initial_state true)) as [Hwf _].
  destruct (Hwf eq_refl) as (s1 & rq & k & E & H).
  destruct (H s1) as (_ & Hrej & _).
  destruct (Hrej (Error (js "Failed to fetch"))) as (s3 & E3 & _ & Hsub).
  - vm_compute. discriminate.
  - exists s1, rq, k, s3. split; [exact E |]. split; [exact E3 | exact Hsub].
Defined.

(** ** The city search after its response *)

Section City_more.

Variable host : Host.

Lemma city_resume_found (r : Candidate.t) (rest : list Candidate.t) (s : State) :
  city_resume host (Json (GeoObject (Some (r :: rest)))) s
  = finallyP
      (catchP
         (loadWeatherByCoords host (Candidate.latitude r) (Candidate.longitude r)
            (place_label r) (js "auto") s)
         city_catch)
      (setLoading false).
Proof. reflexivity. Qed.

(** X10. A city search that finds something.  Only the first result
    counts: the forecast is requested for its coordinates with the
    timezone "auto", and it becomes the selected place under the label
    "name, region, country".  When the forecast response arrives the
    sequence ends without throwing, with the loading indicator hidden and
    the pill "Ready"; a failed forecast is reported as "Could not load
    weather", never as "City search failed", because
    [loadWeatherByCoords] catches its own errors. *)
Theorem city_found_loads_first_result
    (r : Candidate.t) (rest : list Candidate.t) (s : State) :
  exists s1 rq k,
    city_resume host (Json (GeoObject (Some (r :: rest)))) s = AwaitForecast s1 rq k
    /\ currentPlace s1
       = {| Place.name := place_label r; Place.lat := Some (Candidate.latitude r);
            Place.lon := Some (Candidate.longitude r); Place.tz := js "auto" |}
    /\ shown "placePill" s1 = Some (Str (place_label r))
    /\ (rq_latitude rq, rq_longitude rq, rq_timezone rq)
       = (Candidate.latitude r, Candidate.longitude r, js "auto")
    /\ forall res s2, exists s3,
         k res s2 = Done s3 (Return tt)
         /\ classList_contains "loading" "hidden" s3 = true
         /\ shown "statusPill" s3 = Some (Str (js "Ready"))
         /\ (forall e, forecast_response res = Throw e ->
               shown "errorTitle" s3 = Some (Str (js "Could not load weather"))).
Proof.
  rewrite city_resume_found, loadWeatherByCoords_auto. cbn [catchP finallyP].
  eexists _, _, _. split; [reflexivity |].
  split; [| split; [| split]].
  - reflexivity.
  - unfold setPlace. apply shown_set_eq.
  - reflexivity.
  - intros res s2.
    destruct (coords_resume_settles host res s2) as [s' E].
    exists (setLoading false (setLoading false s')).
    split; [| split; [| split]].
    + rewrite E. reflexivity.
    + apply loading_hidden_after.
    + apply loading_hidden_after.
    + intros e He.
      pose proof (coords_resume_failure host res e s2 He) as E2.
      rewrite E in E2. apply (f_equal state_of) in E2. cbn [state_of] in E2.
      rewrite setLoading_shown by discriminate.
      rewrite E2.
      apply (errorBox_visible_after_showError (js "Could not load weather")).
Qed.

End City_more.

Section City_failure.

Variable host : Host.

(** X11. A city search whose request fails.  The error box shows
    "City search failed" with, as subtitle, "Geocoding request failed."
    for a response that is not ok, the message of the error for a
    rejection, and "Try again." when that message is empty.  No forecast is
    requested, and what the page showed before stays: selected place,
    place pill, charts, forecast grid and unit. *)
Theorem city_search_failure (s : State) :
  let sub (res : response GeoBody) : jsstr :=
    match res with
    | NotOk => js "Geocoding request failed."
    | Rejects e => match message e with [] => js "Try again." | m => m end
    | Json _ => []
    end in
  forall res, (forall g, res <> Json g) ->
    exists s3,
      city_resume host res s = Done s3 (Return tt)
      /\ classList_contains "errorBox" "hidden" s3 = false
      /\ shown "errorTitle" s3 = Some (Str (js "City search failed"))
      /\ shown "errorSub" s3 = Some (Str (sub res))
      /\ (currentPlace s3, charts s3, forecastGrid s3, unit' s3, shown "placePill" s3)
         = (currentPlace s, charts s, forecastGrid s, unit' s, shown "placePill" s).
Proof.
  intros sub res Hres.
  assert (Hthrow : exists e, geocode_response res = Throw e
                             /\ message_or e (js "Try again.") = sub res).
  { destruct res as [e | | g].
    - exists e. split; [reflexivity |]. unfold message_or, sub.
      destruct (message e); reflexivity.
    - eexists. split; [reflexivity |]. vm_compute. reflexivity.
    - destruct (Hres g eq_refl). }
  destruct Hthrow as (e & He & Hsub).
  eexists. split; [apply (city_resume_failure host res e s He) |].
  rewrite Hsub.
  destruct (errorBox_visible_after_showError (js "City search failed") (sub res) false s)
    as (Hbox & Ht & Hs).
  split; [exact Hbox |]. split; [exact Ht |]. split; [exact Hs |].
  destruct (setLoading_frame false (showError (js "City search failed") (sub res) s))
    as (H1 & H2 & H3 & H4 & H5).
  destruct (showError_frame (js "City search failed") (sub res) s)
    as (G1 & G2 & G3 & G4 & G5).
  rewrite H1, H2, H3, H4, H5 by discriminate.
  rewrite G1, G2, G3, G4, G5. reflexivity.
Qed.

End City_failure.

Lemma city_search_failure_witness :
  exists s3,
    city_resume demo_host NotOk (initial_state true) = Done s3 (Return tt)
    /\ shown "errorSub" s3 = Some (Str (js "Geocoding request failed.")).
Proof.
  destruct (city_search_failure demo_host (initial_state true) NotOk)
    as (s3 & E & _ & _ & Hs & _).
  - intros g. discriminate.
  - exists s3. split; [exact E | exact Hs].
Defined.

(** ** The suggestion list *)

Lemma classList_hideSuggestions (s : State) :
  classList (hideSuggestions s) = classList s ∖ {[ ("suggestions", "show") ]}.
Proof. reflexivity. Qed.

Lemma attributes_hideSuggestions (s : State) :
  attributes (hideSuggestions s)
  = <[("suggestions", "aria-hidden") := js "true"]> (attributes s).
Proof. reflexivity. Qed.

Lemma hideSuggestions_frame (s : State) :
  (textContent (hideSuggestions s), suggestions_children (hideSuggestions s),
   lastSuggestions (hideSuggestions s), timers (hideSuggestions s),
   debounceTimer (hideSuggestions s), cityInput_value (hideSuggestions s))
  = (textContent s, suggestions_children s, lastSuggestions s, timers s,
     debounceTimer s, cityInput_value s).
Proof. reflexivity. Qed.

(** Whether the list is open: the class "show" and the attribute
    "aria-hidden". *)
Definition suggestions_open (s : State) : bool * option jsstr :=
  (classList_contains "suggestions" "show" s,
   attributes s !! ("suggestions", "aria-hidden")).

Lemma suggestions_open_hide (s : State) :
  suggestions_open (hideSuggestions s) = (false, Some (js "true")).
Proof.
  unfold suggestions_open. f_equal.
  - unfold classList_contains. apply bool_decide_eq_false_2.
    rewrite classList_hideSuggestions. intros H.
    apply elem_of_difference in H as [_ H]. apply H.
    apply elem_of_singleton. reflexivity.
  - rewrite attributes_hideSuggestions. apply lookup_insert_eq.
Qed.

Lemma showSuggestions_frame (items : list Candidate.t) (s : State) :
  suggestions_open (showSuggestions items s)
  = match items with
    | [] => (false, Some (js "true"))
    | _ :: _ => (true, Some (js "false"))
    end
  /\ textContent (showSuggestions items s) = textContent s.
Proof.
  destruct items as [| r0 rest].
  - split; [| reflexivity]. unfold showSuggestions. apply suggestions_open_hide.
  - split; [| reflexivity]. unfold suggestions_open. f_equal.
    + unfold classList_contains. apply bool_decide_eq_true_2.
      unfold showSuggestions. state_proj. unfold classList_add. state_proj.
      apply elem_of_union. left. apply elem_of_singleton. reflexivity.
    + unfold showSuggestions. state_proj. apply lookup_insert_eq.
Qed.

(** X12. [showSuggestions] replaces the list: whatever items were there
    before, afterwards there is exactly one item per result, in the order
    of the results, each remembering its own result for the click; the
    results are kept in [lastSuggestions].  The list is open (class
    "show", aria-hidden "false") exactly when there is at least one
    result, and closed (no "show", aria-hidden "true") otherwise.  Texts
    of the page, the input field and the timers are not touched. *)
Theorem showSuggestions_replaces_list (items : list Candidate.t) (s : State) :
  let s' := showSuggestions items s in
  length (suggestions_children s') = length items
  /\ (forall i r, items !! i = Some r ->
        exists it, suggestions_children s' !! i = Some it
                   /\ suggTarget it = r /\ suggName it = Candidate.name r)
  /\ lastSuggestions s' = items
  /\ suggestions_open s'
     = match items with
       | [] => (false, Some (js "true"))
       | _ :: _ => (true, Some (js "false"))
       end
  /\ (textContent s', cityInput_value s', timers s', debounceTimer s')
     = (textContent s, cityInput_value s, timers s, debounceTimer s).
Proof.
  intros s'. subst s'. destruct items as [| r0 rest].
  - split; [reflexivity |]. split; [intros i r H; discriminate |].
    split; [reflexivity |]. split; [| reflexivity].
    unfold showSuggestions. apply suggestions_open_hide.
  - split; [| split; [| split; [| split]]].
    + unfold showSuggestions. state_proj. rewrite length_map. reflexivity.
    + intros i r H. exists (sugg_item r). split; [| split; reflexivity].
      unfold showSuggestions. state_proj.
      change (sugg_item r0 :: map sugg_item rest) with (sugg_item <$> (r0 :: rest)).
      rewrite list_lookup_fmap, H. reflexivity.
    + reflexivity.
    + unfold suggestions_open. f_equal.
      * unfold classList_contains. apply bool_decide_eq_true_2.
        unfold showSuggestions. state_proj. unfold classList_add. state_proj.
        apply elem_of_union. left. apply elem_of_singleton. reflexivity.
      * unfold showSuggestions. state_proj. apply lookup_insert_eq.
    + reflexivity.
Qed.

Lemma showSuggestions_replaces_list_witness :
  let r := {| Candidate.name := js "Pune"; Candidate.admin1 := Some (js "Maharashtra");
              Candidate.country := Some (js "India");
              Candidate.latitude := 18.52; Candidate.longitude := 73.86 |} in
  exists it,
    suggestions_children (showSuggestions [r] (initial_state true)) !! 0%nat = Some it
    /\ suggTarget it = r.
Proof.
  intros r.
  destruct (showSuggestions_replaces_list [r] (initial_state true)) as (_ & H & _).
  destruct (H 0%nat r eq_refl) as (it & E & Ht & _).
  exists it. split; [exact E | exact Ht].
Defined.

(** ** Binary64 rounding *)

Section Binary64_facts.

Import Binary64.


Lemma two_pow_pos (z : Z) : (0 < 2 ^ z)%Q.
Proof. apply Qpower_0_lt. reflexivity. Qed.


Lemma ilog2_lt (a : Q) : (0 < a)%Q -> (a < 2 ^ (ilog2 a + 1))%Q.
Proof.
  intros Ha. unfold ilog2.
  set (ln := Z.log2 (Qnum a)). set (ld := Z.log2 (Zpos (Qden a))).
  destruct (Qle_bool (2 ^ (ln - ld)) a) eqn:E.
  - assert (Hn : 0 < Qnum a).
    { destruct a as [n d]. unfold Qlt in Ha. simpl in *. lia. }
    pose proof (Z.log2_spec (Qnum a) Hn) as [_ Hn2]. fold ln in Hn2.
    pose proof (Z.log2_spec (Zpos (Qden a)) (Pos2Z.is_pos _)) as [Hd1 _]. fold ld in Hd1.
    assert (Hln : 0 <= ln) by apply Z.log2_nonneg.
    assert (Hld : 0 <= ld) by apply Z.log2_nonneg.
    replace (ln - ld + 1) with (Z.succ ln - ld) by lia.
    rewrite Qpower_minus by discriminate.
    rewrite <- (Zpower_Qpower 2 (Z.succ ln)) by lia.
    rewrite <- (Zpower_Qpower 2 ld) by exact Hld.
    apply Qlt_shift_div_l.
    + rewrite (Zpower_Qpower 2 ld) by exact Hld. apply two_pow_pos.
    + destruct a as [n d]. unfold Qlt. simpl in *.
      assert (0 < 2 ^ ld) by (apply Z.pow_pos_nonneg; lia).
      nia.
  - replace (ln - ld - 1 + 1) with (ln - ld) by lia.
    apply Qnot_le_lt. intros H. apply Qle_bool_iff in H. congruence.
Qed.





End Binary64_facts.

(** The double written 1.115 lies just below 1.115; a hundred times
    it, rounded to binary64, is 111.5, so it is shown as 1.12, where
    exact arithmetic would give 1.11. *)
Example round2_1_115 :
  round2 (5021513584518103 # 4503599627370496)
  = Binary64.round (112 / 100)
  /\ round_half_up ((5021513584518103 # 4503599627370496) * 100) = 111.
Proof. vm_compute. split; reflexivity. Qed.




(** X14. The label of a place is the name of the result followed by
    what the suggestion list shows under it: name, then ", " and the
    region and country line when that line is not empty.  Missing or empty
    region or country never leave a dangling separator. *)
Theorem place_label_is_name_and_meta (r : Candidate.t) :
  place_label r
  = Candidate.name r ++ match sugg_meta r with [] => [] | m => js ", " ++ m end.
Proof.
  unfold place_label, sugg_meta, comma_if.
  destruct (Candidate.admin1 r) as [[| a0 a] |], (Candidate.country r) as [[| c0 c] |];
    cbn [truthy app]; try reflexivity.
  all: repeat rewrite <- app_assoc; rewrite ?app_nil_r; cbn [app]; reflexivity.
Qed.

(** ** The autocomplete lookup after its response *)

Section Autocomplete_more.

Variable host : Host.

(** [handleAutocomplete] from the moment the response is there. *)
Definition autocomplete_resume (res : response GeoBody) : M unit :=
  try_catch
    (let! g := lift (geocode_response res) in
     act (showSuggestions (results_or_empty g)))
    (fun _ => act hideSuggestions).

Lemma handleAutocomplete_await (s : State) :
  (2 <= length (trim (cityInput_value s)))%nat ->
  isWellFormed (trim (cityInput_value s)) = true ->
  handleAutocomplete host s = AwaitGeocode s (trim (cityInput_value s)) autocomplete_resume.
Proof.
  intros Hlen Hwf. unfold handleAutocomplete. run_proc.
  destruct (Nat.ltb_spec (length (trim (cityInput_value s))) 2); [lia |].
  unfold try_catch, bind, geocode. rewrite Hwf. reflexivity.
Qed.

Lemma errorBox_hidden_add_show (s : State) :
  classList_contains "errorBox" "hidden" (classList_add "suggestions" "show" s)
  = classList_contains "errorBox" "hidden" s.
Proof.
  unfold classList_contains. apply bool_decide_ext.
  unfold classList_add. state_proj. rewrite elem_of_union, elem_of_singleton.
  split; [intros [H | H]; [discriminate | exact H] | intros H; right; exact H].
Qed.

Lemma errorBox_hidden_hideSuggestions (s : State) :
  classList_contains "errorBox" "hidden" (hideSuggestions s)
  = classList_contains "errorBox" "hidden" s.
Proof.
  unfold classList_contains. apply bool_decide_ext.
  rewrite classList_hideSuggestions, elem_of_difference, elem_of_singleton.
  split; [intros [H _]; exact H | intros H; split; [exact H | discriminate]].
Qed.

Lemma errorBox_hidden_showSuggestions (items : list Candidate.t) (s : State) :
  classList_contains "errorBox" "hidden" (showSuggestions items s)
  = classList_contains "errorBox" "hidden" s.
Proof.
  destruct items as [| r rest].
  - unfold showSuggestions. rewrite errorBox_hidden_hideSuggestions. reflexivity.
  - unfold showSuggestions, setAttribute, classList_contains. state_proj.
    apply (errorBox_hidden_add_show
             (set_suggestions_children (map sugg_item (r :: rest))
                (set_suggestions_children [] (set_lastSuggestions (r :: rest) s)))).
Qed.

(** X15. The outcome of an autocomplete lookup.  With at least two
    characters in the field (trimmed) the lookup asks for that text.
    Whatever comes back, and whatever the page has become meanwhile, the
    callback ends without throwing.  A body with results shows them; a
    body without results, a response that is not ok and a rejection all
    just close the list.  A failure is swallowed: the error box and every
    text of the page stay as they were.  That includes the failure to
    build the request at all (a text with a lone surrogate): then nothing
    is asked and the list is closed at once. *)
Theorem autocomplete_failure_is_silent (s : State) :
  (2 <= length (trim (cityInput_value s)))%nat ->
  (isWellFormed (trim (cityInput_value s)) = true ->
   exists k,
     handleAutocomplete host s = AwaitGeocode s (trim (cityInput_value s)) k
     /\ forall res s2, exists s3,
          k res s2 = Done s3 (Return tt)
          /\ s3 = match res with
                  | Json g => showSuggestions (results_or_empty g) s2
                  | _ => hideSuggestions s2
                  end
          /\ suggestions_open s3
             = match res with
               | Json (GeoObject (Some (_ :: _))) => (true, Some (js "false"))
               | _ => (false, Some (js "true"))
               end
          /\ textContent s3 = textContent s2
          /\ classList_contains "errorBox" "hidden" s3
             = classList_contains "errorBox" "hidden" s2)
  /\ (isWellFormed (trim (cityInput_value s)) = false ->
      exists s3,
        handleAutocomplete host s = Done s3 (Return tt)
        /\ s3 = hideSuggestions s
        /\ suggestions_open s3 = (false, Some (js "true"))
        /\ textContent s3 = textContent s
        /\ classList_contains "errorBox" "hidden" s3
           = classList_contains "errorBox" "hidden" s).
Proof.
  intros Hlen. split; [intros Hwf | intros Hwf].
  2: { exists (hideSuggestions s).
       split; [apply (handleAutocomplete_malformed host s Hlen Hwf) |].
       split; [reflexivity |]. split; [apply suggestions_open_hide |].
       split; [reflexivity | apply errorBox_hidden_hideSuggestions]. }
  exists autocomplete_resume.
  split; [apply handleAutocomplete_await; assumption |].
  intros res s2.
  destruct res as [e | | g].
  - exists (hideSuggestions s2). split; [reflexivity |]. split; [reflexivity |].
    split; [apply suggestions_open_hide |]. split; [reflexivity |].
    apply errorBox_hidden_hideSuggestions.
  - exists (hideSuggestions s2). split; [reflexivity |]. split; [reflexivity |].
    split; [apply suggestions_open_hide |]. split; [reflexivity |].
    apply errorBox_hidden_hideSuggestions.
  - exists (showSuggestions (results_or_empty g) s2).
    split; [reflexivity |]. split; [reflexivity |].
    destruct (showSuggestions_frame (results_or_empty g) s2) as (Hopen & Htext).
    split; [| split; [exact Htext | apply errorBox_hidden_showSuggestions]].
    rewrite Hopen. destruct g as [| [[| r rest] |]]; reflexivity.
Qed.

End Autocomplete_more.

Lemma autocomplete_failure_is_silent_witness :
  exists k s3,
    handleAutocomplete demo_host (set_cityInput_value (js " Pu ") (initial_state true))
      = AwaitGeocode (set_cityInput_value (js " Pu ") (initial_state true)) (js "Pu") k
    /\ k NotOk (initial_state true) = Done s3 (Return tt)
    /\ textContent s3 = textContent (initial_state true).
Proof.
  destruct (autocomplete_failure_is_silent demo_host
              (set_cityInput_value (js " Pu ") (initial_state true)))
    as [Hwf _].
  - vm_compute. lia.
  - destruct (Hwf eq_refl) as (k & E & H).
    destruct (H NotOk (initial_state true)) as (s3 & E3 & _ & _ & Ht & _).
    exists k, s3. split; [| split; [exact E3 | exact Ht]].
    rewrite E. f_equal.
Defined.

(** ** Listeners *)

Lemma classList_clearError (s : State) :
  classList (clearError s) = {[ ("errorBox", "hidden") ]} ∪ classList s.
Proof. reflexivity. Qed.

(** The page while a load is pending: error box hidden, loading
    indicator visible, status "Loading…". *)
Lemma loading_shown_after (s : State) :
  classList_contains "errorBox" "hidden" (setLoading true (clearError s)) = true
  /\ classList_contains "loading" "hidden" (setLoading true (clearError s)) = false
  /\ shown "statusPill" (setLoading true (clearError s)) = Some (Str (js "Loading…")).
Proof.
  assert (Hcl : classList (setLoading true (clearError s))
                = ({[ ("errorBox", "hidden") ]} ∪ classList s) ∖ {[ ("loading", "hidden") ]}).
  { rewrite classList_setLoading, classList_clearError. reflexivity. }
  split; [| split].
  - unfold classList_contains. apply bool_decide_eq_true_2. rewrite Hcl.
    apply elem_of_difference. split.
    + apply elem_of_union. left. apply elem_of_singleton. reflexivity.
    + intros H. apply elem_of_singleton in H. discriminate.
  - unfold classList_contains. apply bool_decide_eq_false_2. rewrite Hcl.
    intros H. apply elem_of_difference in H as [_ H]. apply H.
    apply elem_of_singleton. reflexivity.
  - unfold setLoading. apply shown_set_eq.
Qed.

Lemma not_open_after_load_start (s : State) :
  classList_contains "suggestions" "show" (setLoading true (clearError (hideSuggestions s)))
  = false.
Proof.
  unfold classList_contains. apply bool_decide_eq_false_2.
  rewrite classList_setLoading, classList_clearError, classList_hideSuggestions.
  intros H. apply elem_of_difference in H as [H _].
  apply elem_of_union in H as [H | H].
  - apply elem_of_singleton in H. discriminate.
  - apply elem_of_difference in H as [_ H]. apply H.
    apply elem_of_singleton. reflexivity.
Qed.

Section Listeners_more.

Variable host : Host.

(** X16. A click on Search with text in the field: the query is the
    text without its surrounding white space, exactly one geocoding
    request goes out for it, the suggestion list is closed, the error box
    hidden and the loading indicator shown; selected place and text of the
    field are not changed by the click.  When the text holds a lone
    surrogate no URL can be built: no request goes out, the search fails
    at once with "City search failed" and the message of the [URIError],
    and the loading indicator is hidden again. *)
Theorem search_click_queries_trimmed_text (s : State) :
  trim (cityInput_value s) <> [] ->
  (isWellFormed (trim (cityInput_value s)) = true ->
   exists s1 k,
     searchBtn_click host s = AwaitGeocode s1 (trim (cityInput_value s)) k
     /\ request_of (searchBtn_click host s) = [GeocodeRequest (trim (cityInput_value s))]
     /\ classList_contains "suggestions" "show" s1 = false
     /\ classList_contains "errorBox" "hidden" s1 = true
     /\ classList_contains "loading" "hidden" s1 = false
     /\ shown "statusPill" s1 = Some (Str (js "Loading…"))
     /\ (currentPlace s1, cityInput_value s1) = (currentPlace s, cityInput_value s))
  /\ (isWellFormed (trim (cityInput_value s)) = false ->
      exists s3,
        searchBtn_click host s = Done s3 (Return tt)
        /\ request_of (searchBtn_click host s) = []
        /\ classList_contains "suggestions" "show" s3 = false
        /\ classList_contains "errorBox" "hidden" s3 = false
        /\ classList_contains "loading" "hidden" s3 = true
        /\ shown "errorTitle" s3 = Some (Str (js "City search failed"))
        /\ shown "errorSub" s3
           = Some (Str (match message (URIError host) with
                        | [] => js "Try again."
                        | m => m
                        end))
        /\ (currentPlace s3, cityInput_value s3) = (currentPlace s, cityInput_value s)).
Proof.
  intros Hq.
  assert (Estep : searchBtn_click host s
                  = loadWeatherByCityName host (trim (cityInput_value s))
                      (hideSuggestions s)).
  { unfold searchBtn_click. run_proc.
    destruct (trim (cityInput_value s)) as [| c q] eqn:Et; [contradiction |].
    cbn [truthy negb]. run_proc. reflexivity. }
  split; [intros Hwf | intros Hwf].
  - assert (E : searchBtn_click host s
                = AwaitGeocode (setLoading true (clearError (hideSuggestions s)))
                    (trim (cityInput_value s)) (city_resume host)).
    { rewrite Estep. apply loadWeatherByCityName_start. exact Hwf. }
    rewrite E. eexists _, _. split; [reflexivity |]. split; [reflexivity |].
    split; [apply not_open_after_load_start |].
    destruct (loading_shown_after (hideSuggestions s)) as (H1 & H2 & H3).
    split; [exact H1 |]. split; [exact H2 |]. split; [exact H3 |]. reflexivity.
  - set (sub := message_or (URIError host) (js "Try again.")).
    set (s1 := setLoading true (clearError (hideSuggestions s))).
    assert (E : searchBtn_click host s
                = Done (setLoading false (showError (js "City search failed") sub s1))
                    (Return tt)).
    { rewrite Estep. apply loadWeatherByCityName_malformed. exact Hwf. }
    rewrite E. eexists. split; [reflexivity |]. split; [reflexivity |].
    destruct (errorBox_visible_after_showError (js "City search failed") sub false s1)
      as (Hbox & Ht & Hs).
    split.
    { pose proof (not_open_after_load_start s) as Hclosed. fold s1 in Hclosed.
      unfold classList_contains in *. apply bool_decide_eq_false_2.
      apply bool_decide_eq_false_1 in Hclosed.
      rewrite classList_setLoading, classList_showError.
      intros H. apply Hclosed.
      apply elem_of_union in H as [H | H].
      - apply elem_of_singleton in H. discriminate.
      - apply elem_of_difference in H as [H _]. exact H. }
    split; [exact Hbox |].
    split; [apply loading_hidden_after |].
    split; [exact Ht |].
    split; [rewrite Hs; unfold sub, message_or; destruct (message (URIError host)); reflexivity |].
    reflexivity.
Qed.

(** X17. The unit button before any place is selected: the preference
    flips, the button shows the new unit and the status pill says
    "Unit: " followed by it; no request goes out, and nothing else on the
    page changes, so values already shown keep their old unit. *)
Theorem unit_toggle_without_place (s : State) :
  Place.lat (currentPlace s) = None \/ Place.lon (currentPlace s) = None ->
  exists s',
    unitBtn_click host s = Done s' (Return tt)
    /\ unit' s' = toggle (unit' s)
    /\ textContent s'
       = <["statusPill" := Str (js "Unit: " ++ unit_suffix (toggle (unit' s)))]>
           (<["unitBtn" := Str (unit_suffix (toggle (unit' s)))]> (textContent s))
    /\ (currentPlace s', charts s', forecastGrid s', classList s', attributes s')
       = (currentPlace s, charts s, forecastGrid s, classList s, attributes s).
Proof.
  intros H. unfold unitBtn_click. run_proc. state_proj.
  destruct (Place.lat (currentPlace s)) as [lat |] eqn:Elat,
           (Place.lon (currentPlace s)) as [lon |] eqn:Elon;
    try (eexists; split; [reflexivity |]; split; [reflexivity |];
         split; [reflexivity |]; state_proj; reflexivity).
  destruct H; discriminate.
Qed.

(** X18. A click on an item of the suggestion list: the field takes
    "name, country" (no region), the list closes, the result becomes the
    selected place under its full label, and one forecast request goes out
    for its coordinates with the timezone "auto"; no geocoding request is
    made. *)
Theorem suggestion_click_loads_result (r : Candidate.t) (s : State) :
  exists s1 rq k,
    suggItem_click host r s = AwaitForecast s1 rq k
    /\ cityInput_value s1 = Candidate.name r ++ comma_if (Candidate.country r)
    /\ classList_contains "suggestions" "show" s1 = false
    /\ currentPlace s1
       = {| Place.name := place_label r; Place.lat := Some (Candidate.latitude r);
            Place.lon := Some (Candidate.longitude r); Place.tz := js "auto" |}
    /\ shown "placePill" s1 = Some (Str (place_label r))
    /\ rq = forecast_request (Candidate.latitude r) (Candidate.longitude r) (js "auto") s.
Proof.
  assert (E : suggItem_click host r s
              = loadWeatherByCoords host (Candidate.latitude r) (Candidate.longitude r)
                  (place_label r) (js "auto")
                  (hideSuggestions
                     (set_cityInput_value
                        (Candidate.name r ++ comma_if (Candidate.country r)) s))).
  { reflexivity. }
  rewrite E, loadWeatherByCoords_auto.
  eexists _, _, _. split; [reflexivity |].
  split; [reflexivity |]. split; [| split; [reflexivity | split; [| reflexivity]]].
  - generalize (set_cityInput_value
                  (Candidate.name r ++ comma_if (Candidate.country r)) s).
    intros s0. pose proof (not_open_after_load_start s0) as H.
    unfold classList_contains in *. apply bool_decide_eq_false_2.
    apply bool_decide_eq_false_1 in H.
    unfold setPlace. rewrite classList_set_textContent, classList_set_currentPlace.
    exact H.
  - unfold setPlace. apply shown_set_eq.
Qed.

End Listeners_more.

Lemma search_click_queries_trimmed_text_witness :
  request_of (searchBtn_click demo_host
                (set_cityInput_value (js "  Pune ") (initial_state true)))
  = [GeocodeRequest (js "Pune")].
Proof.
  destruct (search_click_queries_trimmed_text demo_host
              (set_cityInput_value (js "  Pune ") (initial_state true)))
    as [Hwf _].
  - vm_compute. discriminate.
  - destruct (Hwf eq_refl) as (s1 & k & _ & Hrq & _).
    rewrite Hrq. f_equal.
Defined.

Lemma unit_toggle_without_place_witness :
  exists s',
    unitBtn_click demo_host (initial_state true) = Done s' (Return tt)
    /\ shown "statusPill" s' = Some (Str (js "Unit: °F")).
Proof.
  destruct (unit_toggle_without_place demo_host (initial_state true)) as (s' & E & _ & Ht & _).
  - left. reflexivity.
  - exists s'. split; [exact E |]. unfold shown. rewrite Ht.
    rewrite lookup_insert_eq. vm_compute. reflexivity.
Defined.

(** ** Geolocation *)

Lemma classList_after_showError_contains (title subtitle : jsstr) (s : State) :
  classList_contains "errorBox" "hidden" (showError title subtitle s) = false
  /\ classList_contains "loading" "hidden" (showError title subtitle s)
     = classList_contains "loading" "hidden" s.
Proof.
  unfold classList_contains. split.
  - apply bool_decide_eq_false_2. rewrite classList_showError.
    intros H. apply elem_of_difference in H as [_ H]. apply H.
    apply elem_of_singleton. reflexivity.
  - apply bool_decide_ext. rewrite classList_showError.
    rewrite elem_of_difference, elem_of_singleton.
    split; [intros [H _]; exact H | intros H; split; [exact H | discriminate]].
Qed.

Lemma showError_texts (title subtitle : jsstr) (s : State) :
  shown "statusPill" (showError title subtitle s) = Some (Str (js "Error"))
  /\ shown "errorTitle" (showError title subtitle s) = Some (Str title)
  /\ shown "errorSub" (showError title subtitle s) = Some (Str subtitle).
Proof.
  unfold showError. split; [apply shown_set_eq |]. split.
  - rewrite !shown_set_ne by discriminate. apply shown_set_eq.
  - rewrite shown_set_ne by discriminate. apply shown_set_eq.
Qed.

(** X19. The location button when the position is not obtained.
    Without geolocation support the click shows "Geolocation not
    supported", asks for no position and leaves the loading indicator as
    it was.  With support the click shows the loading indicator and asks
    for the position; if that is refused, the indicator is hidden and the
    error box shows "Location denied" with the message of the error (or
    "Allow location permission and try again." when it is empty), and the
    status pill stays on "Error": here the message is written after the
    indicator is reset, unlike in the load sequences, which end on
    "Ready". *)
Theorem location_not_obtained (s : State) :
  (let (s1, asked) := geoBtn_click false s in
   asked = false
   /\ classList_contains "errorBox" "hidden" s1 = false
   /\ shown "errorTitle" s1 = Some (Str (js "Geolocation not supported"))
   /\ classList_contains "loading" "hidden" s1 = classList_contains "loading" "hidden" s)
  /\ (let (s1, asked) := geoBtn_click true s in
      asked = true
      /\ classList_contains "errorBox" "hidden" s1 = true
      /\ classList_contains "loading" "hidden" s1 = false
      /\ forall err s2,
           classList_contains "loading" "hidden" (geo_error err s2) = true
           /\ classList_contains "errorBox" "hidden" (geo_error err s2) = false
           /\ shown "statusPill" (geo_error err s2) = Some (Str (js "Error"))
           /\ shown "errorTitle" (geo_error err s2) = Some (Str (js "Location denied"))
           /\ shown "errorSub" (geo_error err s2)
              = Some (Str (match message err with
                           | [] => js "Allow location permission and try again."
                           | m => m
                           end))).
Proof.
  split.
  - unfold geoBtn_click. cbn [negb]. split; [reflexivity |].
    destruct (classList_after_showError_contains (js "Geolocation not supported")
                (js "Your browser does not support location access.") (clearError s))
      as [Hbox Hload].
    split; [exact Hbox |].
    split; [apply showError_texts |].
    rewrite Hload. unfold classList_contains. apply bool_decide_ext.
    rewrite classList_clearError, elem_of_union, elem_of_singleton.
    split; [intros [H | H]; [discriminate | exact H] | intros H; right; exact H].
  - unfold geoBtn_click. cbn [negb]. split; [reflexivity |].
    destruct (loading_shown_after s) as (H1 & H2 & _).
    split; [exact H1 |]. split; [exact H2 |].
    intros err s2. unfold geo_error.
    destruct (classList_after_showError_contains (js "Location denied")
                (message_or err (js "Allow location permission and try again."))
                (setLoading false s2)) as [Hbox Hload].
    destruct (showError_texts (js "Location denied")
                (message_or err (js "Allow location permission and try again."))
                (setLoading false s2)) as (Hp & Ht & Hs).
    split; [rewrite Hload; apply loading_hidden_after |].
    split; [exact Hbox |]. split; [exact Hp |]. split; [exact Ht |].
    rewrite Hs. unfold message_or. destruct (message err); reflexivity.
Qed.

(** X20. The location button when the position is obtained: the place
    becomes "My location" at the reported coordinates with the timezone
    "auto", one forecast request goes out for them in the unit of the
    moment, and the sequence then ends like every load, indicator hidden
    and status "Ready". *)
Theorem location_obtained (host : Host) (latitude longitude : Q) (s : State) :
  exists s1 k,
    geo_success host latitude longitude s
    = AwaitForecast s1 (forecast_request latitude longitude (js "auto") s) k
    /\ currentPlace s1
       = {| Place.name := js "My location"; Place.lat := Some latitude;
            Place.lon := Some longitude; Place.tz := js "auto" |}
    /\ shown "placePill" s1 = Some (Str (js "My location"))
    /\ forall res s2, exists s3,
         k res s2 = Done s3 (Return tt)
         /\ classList_contains "loading" "hidden" s3 = true
         /\ shown "statusPill" s3 = Some (Str (js "Ready")).
Proof.
  unfold geo_success. rewrite loadWeatherByCoords_auto.
  eexists _, _. split; [reflexivity |]. split; [reflexivity |].
  split; [unfold setPlace; apply shown_set_eq |].
  intros res s2. destruct (coords_resume_settles host res s2) as [s' E].
  exists (setLoading false s'). split; [exact E |]. apply loading_hidden_after.
Qed.

(** ** Closing the list cancels nothing *)

(** What decides which lookups go out as time passes: the requests so
    far, the timers and the text of the field. *)
Definition lookup_view (w : World) : list Request * (option positive * Timers) * jsstr :=
  (issued w, tm (page w), cityInput_value (page w)).

Lemma lookup_view_inv (w w' : World) :
  lookup_view w = lookup_view w' ->
  issued w = issued w' /\ debounceTimer (page w) = debounceTimer (page w')
  /\ timers (page w) = timers (page w')
  /\ cityInput_value (page w) = cityInput_value (page w').
Proof.
  unfold lookup_view, tm. intros E.
  assert (E1 := f_equal (fun x => fst (fst x)) E).
  assert (E2 := f_equal (fun x => fst (snd (fst x))) E).
  assert (E3 := f_equal (fun x => snd (snd (fst x))) E).
  assert (E4 := f_equal snd E).
  cbn [fst snd] in *. repeat split; assumption.
Qed.

Section Escape.

Variable host : Host.

Lemma lookup_view_timeout (id : positive) (d : Z) (w w' : World) :
  lookup_view w = lookup_view w' ->
  lookup_view (start (handleAutocomplete host) (on_page (fun s => clearTimeout id (set_clock d s)) w))
  = lookup_view (start (handleAutocomplete host) (on_page (fun s => clearTimeout id (set_clock d s)) w')).
Proof.
  intros E. apply lookup_view_inv in E as (Ei & Ed & Et & Ev).
  unfold lookup_view, start, settle, on_page, tm. cbn [page issued].
  destruct (handleAutocomplete_effect host (clearTimeout id (set_clock d (page w))))
    as (Hr & Ht & Hd & Hv).
  destruct (handleAutocomplete_effect host (clearTimeout id (set_clock d (page w'))))
    as (Hr' & Ht' & Hd' & Hv').
  rewrite Hr, Ht, Hd, Hv, Hr', Ht', Hd', Hv'.
  unfold clearTimeout, set_clock. state_proj. rewrite Ei, Ed, Et, Ev. reflexivity.
Qed.

Lemma lookup_view_fire (l : list (positive * Z)) (w w' : World) :
  lookup_view w = lookup_view w' -> lookup_view (fire host l w) = lookup_view (fire host l w').
Proof.
  revert w w'. induction l as [| [id d] r IH]; intros w w' E; [exact E |].
  cbn [fire].
  assert (Ep : is_pending id (page w) = is_pending id (page w')).
  { unfold is_pending. apply lookup_view_inv in E as (_ & _ & Et & _).
    rewrite Et. reflexivity. }
  rewrite Ep. destruct (is_pending id (page w')).
  - apply IH. apply lookup_view_timeout. exact E.
  - apply IH. exact E.
Qed.

Lemma lookup_view_advance (t : Z) (w w' : World) :
  lookup_view w = lookup_view w' ->
  lookup_view (advance host t w) = lookup_view (advance host t w').
Proof.
  intros E. unfold advance.
  assert (Et : timers (page w) = timers (page w'))
    by (apply lookup_view_inv in E; tauto).
  rewrite Et.
  pose proof (lookup_view_fire (due t (timers (page w'))) w w' E) as H.
  apply lookup_view_inv in H as (Hi & Hd & Ht & Hv).
  unfold lookup_view, on_page, tm, set_clock. cbn [page issued]. state_proj.
  rewrite Hi, Hd, Ht, Hv. reflexivity.
Qed.

Lemma respond_autocomplete (n : nat) (s : State) (q : jsstr)
    (res : response GeoBody) (w : World) :
  suspended w !! n = Some (AwaitGeocode s q autocomplete_resume) ->
  page (respond n (GeocodeReply res) w) = state_of (autocomplete_resume res (page w)).
Proof.
  intros E. unfold respond. rewrite E. cbn [resume]. reflexivity.
Qed.

(** X21. Closing the suggestion list, by Escape or by a click
    elsewhere on the page, cancels nothing.  The list is closed at once,
    but the debounce timer stays armed and the lookups in flight stay in
    flight: as time passes exactly the same requests go out as if the list
    had not been closed, and when a lookup then answers with results the
    list opens again. *)
Theorem closing_the_list_cancels_nothing (w : World) :
  handle host (KeyDown Escape) w = on_page hideSuggestions w
  /\ handle host (DocumentClick true) w = on_page hideSuggestions w
  /\ suggestions_open (page (on_page hideSuggestions w)) = (false, Some (js "true"))
  /\ suspended (on_page hideSuggestions w) = suspended w
  /\ timers (page (on_page hideSuggestions w)) = timers (page w)
  /\ (forall T, issued (advance host T (on_page hideSuggestions w)) = issued (advance host T w))
  /\ (forall n s q r rest,
        suspended w !! n = Some (AwaitGeocode s q autocomplete_resume) ->
        suggestions_open
          (page (respond n (GeocodeReply (Json (GeoObject (Some (r :: rest)))))
                   (on_page hideSuggestions w)))
        = (true, Some (js "false"))).
Proof.
  split; [reflexivity |]. split; [reflexivity |].
  split; [apply suggestions_open_hide |].
  split; [reflexivity |]. split; [reflexivity |]. split.
  - intros T.
    assert (E : lookup_view (on_page hideSuggestions w) = lookup_view w) by reflexivity.
    apply (lookup_view_advance T) in E. apply lookup_view_inv in E. tauto.
  - intros n s q r rest E.
    rewrite (respond_autocomplete n s q _ (on_page hideSuggestions w) E).
    cbn [on_page page].
    change (state_of (autocomplete_resume (Json (GeoObject (Some (r :: rest))))
                        (hideSuggestions (page w))))
      with (showSuggestions (r :: rest) (hideSuggestions (page w))).
    apply (showSuggestions_frame (r :: rest)).
Qed.

End Escape.

Lemma closing_the_list_cancels_nothing_witness :
  let r := {| Candidate.name := js "Pune"; Candidate.admin1 := None;
              Candidate.country := Some (js "India");
              Candidate.latitude := 18.52; Candidate.longitude := 73.86 |} in
  let s := set_cityInput_value (js "Pu") (initial_state true) in
  let w := start (handleAutocomplete demo_host)
             {| page := s; issued := []; suspended := []; locating := 0 |} in
  suggestions_open
    (page (respond 0 (GeocodeReply (Json (GeoObject (Some [r]))))
             (on_page hideSuggestions w)))
  = (true, Some (js "false")).
Proof.
  intros r s w.
  destruct (closing_the_list_cancels_nothing demo_host w) as (_ & _ & _ & _ & _ & _ & H).
  apply (H 0%nat s (js "Pu") r []). reflexivity.
Defined.

(** ** A burst of keystrokes *)

(** Keystrokes as events: each pair is the time of the keystroke and the
    text it leaves in the field. *)
Definition keystrokes (l : list (Z * jsstr)) : list (Z * Event) :=
  map (fun p => (fst p, Input (snd p))) l.

(** Each keystroke comes less than 280 ms after the one before, the
    first one after time [t]. *)
Fixpoint spaced (t : Z) (l : list (Z * jsstr)) : Prop :=
  match l with
  | [] => True
  | p :: r => t <= fst p < t + 280 /\ spaced (fst p) r
  end.

Lemma last_cons_default {A} (a d : A) (l : list A) : List.last (a :: l) d = List.last l a.
Proof.
  revert a d. induction l as [| b r IH]; intros a d; [reflexivity |].
  change (List.last (a :: b :: r) d) with (List.last (b :: r) d).
  rewrite (IH b d), (IH b a). reflexivity.
Qed.

Section Burst.

Variable host : Host.

(** After a keystroke on a page that keeps the timer discipline, and a
    burst of further keystrokes: nothing has been requested, and the one
    timeout left is due 280 ms after the clock of the last keystroke. *)
Lemma burst_from (rest : list (Z * jsstr)) :
  forall (t : Z) (v : jsstr) (w0 : World),
    one_timer (page w0) ->
    t <= clock (timers (page w0)) ->
    spaced t rest ->
    exists c,
      fst (List.last rest (t, v)) <= c
      /\ (clock (timers (page w0)) = t -> c = fst (List.last rest (t, v)))
      /\ issued (run host (keystrokes rest) (handle host (Input v) w0)) = issued w0
      /\ forall T,
           issued (advance host T (run host (keystrokes rest) (handle host (Input v) w0)))
           = issued w0 ++ (if c + 280 <=? T
                           then autocomplete_requests (snd (List.last rest (t, v)))
                           else []).
Proof.
  induction rest as [| [t' v'] r IH]; intros t v w0 Hone Hc Hsp.
  - exists (clock (timers (page w0))). cbn [List.last fst snd keystrokes map run].
    split; [exact Hc |]. split; [intros E; exact E |].
    destruct (keystroke_then_wait host v 0 w0 Hone) as (Hi & _).
    split; [exact Hi |]. intros T.
    destruct (keystroke_then_wait host v T w0 Hone) as (_ & _ & _ & _ & Hadv & _).
    exact Hadv.
  - destruct Hsp as [[Hlo Hhi] Hsp]. cbn [fst] in Hlo, Hhi, Hsp.
    rewrite last_cons_default.
    cbn [keystrokes map run fst snd].
    fold (keystrokes r).
    destruct (keystroke_then_wait host v t' w0 Hone) as (_ & _ & Hone1 & Hc1 & Hadv & _).
    set (w1 := advance host t' (handle host (Input v) w0)) in *.
    assert (Hone' : one_timer (page w1)) by (apply advance_one_timer; exact Hone1).
    assert (Hc' : t' <= clock (timers (page w1))) by apply advance_clock.
    assert (Hi' : issued w1 = issued w0).
    { rewrite Hadv. destruct (Z.leb_spec (clock (timers (page w0)) + 280) t');
        [lia | apply app_nil_r]. }
    destruct (IH t' v' w1 Hone' Hc' Hsp) as (c & Hc2 & Hex & Hi & HT).
    exists c. split; [exact Hc2 |]. split.
    + intros E. apply Hex. unfold w1. apply advance_clock_exact. rewrite Hc1. lia.
    + split; [rewrite Hi; exact Hi' |].
      intros T. rewrite HT, Hi'. reflexivity.
Qed.

(** X22. Debounce over a whole burst.  On any page reached from the
    start of the script, a burst of keystrokes, each less than 280 ms
    after the one before: during the burst no geocoding query goes out,
    however long the burst lasts; afterwards at most one goes out,
    whatever time passes, and it is the query for the text the last
    keystroke left (trimmed), not before 280 ms after that keystroke.
    None goes out when that text has fewer than two characters or holds a
    lone surrogate ([geocode] then fails before it calls [fetch]);
    otherwise the query does go out by then. *)
Theorem debounce_burst
    (chartjs : bool) (history : list (Z * Event))
    (t : Z) (v : jsstr) (rest : list (Z * jsstr)) (T : Z) :
  spaced t rest ->
  let w := run host history (initial_world host chartjs) in
  let w' := run host (keystrokes ((t, v) :: rest)) w in
  let t_last := fst (List.last rest (t, v)) in
  let v_last := snd (List.last rest (t, v)) in
  issued w' = issued (advance host t w)
  /\ exists qs,
       issued (advance host T w') = issued (advance host t w) ++ qs
       /\ (qs = [] \/ qs = [GeocodeRequest (trim v_last)])
       /\ (T < t_last + 280 \/ (length (trim v_last) < 2)%nat
           \/ isWellFormed (trim v_last) = false -> qs = [])
       /\ (clock (timers (page w)) <= t -> t_last + 280 <= T ->
           (2 <= length (trim v_last))%nat -> isWellFormed (trim v_last) = true ->
           qs = [GeocodeRequest (trim v_last)]).
Proof.
  intros Hsp w w' t_last v_last.
  assert (Hone : one_timer (page (advance host t w))).
  { apply advance_one_timer. apply reachable_one_timer. }
  destruct (burst_from rest t v (advance host t w) Hone (advance_clock host t w) Hsp)
    as (c & Hc & Hex & Hi & HT).
  fold t_last in Hc, Hex. fold v_last in HT.
  assert (Ew : w' = run host (keystrokes rest) (handle host (Input v) (advance host t w)))
    by reflexivity.
  rewrite Ew. split; [exact Hi |].
  eexists. split; [apply HT |].
  unfold autocomplete_requests. split; [| split].
  - destruct (c + 280 <=? T); [| left; reflexivity].
    destruct (length (trim v_last) <? 2)%nat; [left; reflexivity |].
    destruct (isWellFormed (trim v_last)); [right | left]; reflexivity.
  - intros [H | [H | H]].
    + destruct (Z.leb_spec (c + 280) T); [lia | reflexivity].
    + destruct (c + 280 <=? T); [| reflexivity].
      destruct (Nat.ltb_spec (length (trim v_last)) 2); [reflexivity | lia].
    + rewrite H. destruct (c + 280 <=? T); [| reflexivity].
      destruct (length (trim v_last) <? 2)%nat; reflexivity.
  - intros Hclock HT2 Hlen Hwf.
    rewrite (Hex (advance_clock_exact host t w Hclock)), Hwf.
    destruct (Z.leb_spec (t_last + 280) T); [| lia].
    destruct (Nat.ltb_spec (length (trim v_last)) 2); [lia | reflexivity].
Qed.

End Burst.

Lemma debounce_burst_witness :
  issued (advance demo_host 1000
            (run demo_host
               (keystrokes [(0, js "P"); (100, js "Pu"); (300, js "Pun"); (550, js "Pune")])
               (initial_world demo_host true)))
  = issued (advance demo_host 0 (initial_world demo_host true)) ++ [GeocodeRequest (js "Pune")].
Proof.
  destruct (debounce_burst demo_host true [] 0 (js "P")
              [(100, js "Pu"); (300, js "Pun"); (550, js "Pune")] 1000)
    as (_ & qs & E & _ & _ & H).
  - cbn [spaced fst]. lia.
  - cbn [run] in *. rewrite E. f_equal.
    rewrite H; [f_equal | vm_compute; discriminate | cbn [List.last fst]; lia
               | vm_compute; lia | vm_compute; reflexivity].
Defined.

(** ** A response that arrives after the place has changed *)

(** The place on screen together with the temperature shown. *)
Definition place_and_temperature (s : State) : Place.t * option text * option text :=
  (currentPlace s, shown "placePill" s, shown "tempNow" s).

Lemma place_and_temperature_set_textContent (id : string) (v : text) (s : State) :
  id <> "placePill" -> id <> "tempNow" ->
  place_and_temperature (set_textContent id v s) = place_and_temperature s.
Proof.
  intros H1 H2. unfold place_and_temperature.
  rewrite !(shown_set_ne _ id) by congruence. reflexivity.
Qed.

Section Stale.

Variable host : Host.

(** A payload with current conditions, rendered on any page: the place
    is left as found and the temperature is the payload's, however the
    rest of the sequence ends. *)
Lemma coords_resume_place_and_temperature (data : Forecast) (c : Current.t) (s : State) :
  current data = Some c ->
  exists s',
    coords_resume host (Json data) s = Done s' (Return tt)
    /\ place_and_temperature s'
       = (currentPlace s, shown "placePill" s,
          Some (Numeral (Math_round (Current.temperature_2m c)))).
Proof.
  intros Hc.
  destruct (coords_resume_settles host (Json data) s) as [s3 E3].
  exists (setLoading false s3). split; [exact E3 |].
  set (view := place_and_temperature).
  assert (Hcatch : forall e, keeps view (coords_catch e)).
  { intros e. unfold coords_catch. apply keeps_act. intros s0.
    unfold view, place_and_temperature.
    rewrite !showError_shown by discriminate. reflexivity. }
  assert (Hfin : forall s0, view (setLoading false s0) = view s0).
  { intros s0. unfold view, place_and_temperature.
    rewrite !setLoading_shown by discriminate. reflexivity. }
  assert (Htail : keeps view (try_finally (try_catch (after_today host data) coords_catch)
                                (setLoading false))).
  { apply keeps_try_finally; [| exact Hfin].
    apply keeps_try_catch; [| exact Hcatch].
    apply keeps_after_today.
    - intros g s0. reflexivity.
    - intros v s0. apply place_and_temperature_set_textContent; discriminate.
    - intros v s0. apply place_and_temperature_set_textContent; discriminate.
    - intros series s0. unfold view, place_and_temperature.
      rewrite !shown_makeCharts by discriminate.
      unfold makeCharts, ensureChartJs. destruct (window_Chart s0); reflexivity. }
  assert (Hwritten : forall s0,
            view (today_written host data c s0)
            = (currentPlace s0, shown "placePill" s0,
               Some (Numeral (Math_round (Current.temperature_2m c))))).
  { intros s0. unfold view, place_and_temperature.
    destruct (today_written_frame host data c s0) as [Hb Hs].
    rewrite (Hs "placePill") by (simpl; intros H; intuition discriminate).
    assert (Hp : currentPlace (today_written host data c s0) = currentPlace s0)
      by exact (f_equal snd Hb).
    rewrite Hp. f_equal. unfold today_written. cbv zeta. shown_solve. }
  revert E3.
  unfold coords_resume, try_finally, try_catch, bind, lift.
  cbn [forecast_response bindP].
  rewrite (render_split host data c s Hc), setTodayCard_run, Hc.
  set (s0 := setTimePill host (Current.time c) s).
  assert (Hs0 : (currentPlace s0, shown "placePill" s0) = (currentPlace s, shown "placePill" s)).
  { unfold s0, setTimePill. rewrite shown_set_ne by discriminate. reflexivity. }
  assert (Hthrow : forall s',
            finallyP (catchP (Done (today_written host data c s0) (Throw (TypeError host)))
                        coords_catch) (setLoading false)
            = Done (setLoading false s') (Return tt) ->
            view (setLoading false s')
            = (currentPlace s, shown "placePill" s,
               Some (Numeral (Math_round (Current.temperature_2m c))))).
  { intros s'. cbn [catchP].
    destruct (Hcatch (TypeError host) (today_written host data c s0))
      as (s1 & r1 & E1 & H1).
    rewrite E1. cbn [finallyP]. intros E.
    apply (f_equal state_of) in E. cbn [state_of] in E. rewrite <- E.
    rewrite Hfin, H1, Hwritten.
    apply (f_equal (fun x => (x, Some (Numeral (Math_round (Current.temperature_2m c))))))
      in Hs0. exact Hs0. }
  destruct (Place.lat (currentPlace s0)) as [lat |]; [| apply Hthrow].
  destruct (Place.lon (currentPlace s0)) as [lon |]; [| apply Hthrow].
  cbn [bindP].
  destruct (Htail (set_textContent "wxSub" (today_wxSub host lat lon)
                     (today_written host data c s0)))
    as (s1 & r1 & E1 & H1).
  unfold try_finally, try_catch in E1. rewrite E1. intros E.
  apply (f_equal state_of) in E. cbn [state_of] in E. rewrite <- E, H1.
  unfold view. rewrite place_and_temperature_set_textContent by discriminate.
  fold view. rewrite Hwritten.
  apply (f_equal (fun x => (x, Some (Numeral (Math_round (Current.temperature_2m c))))))
    in Hs0. exact Hs0.
Qed.

(** A click on a suggestion, as a step of the event loop. *)
Lemma handle_suggestion_click (r : Candidate.t) (w : World) :
  exists s1,
    handle host (SuggestionClick r) w
    = {| page := s1;
         issued := issued w
                   ++ [ForecastRequest_
                         (forecast_request (Candidate.latitude r) (Candidate.longitude r)
                            (js "auto") (page w))];
         suspended := suspended w
                      ++ [AwaitForecast s1
                            (forecast_request (Candidate.latitude r) (Candidate.longitude r)
                               (js "auto") (page w))
                            (coords_resume host)];
         locating := locating w |}
    /\ currentPlace s1
       = {| Place.name := place_label r; Place.lat := Some (Candidate.latitude r);
            Place.lon := Some (Candidate.longitude r); Place.tz := js "auto" |}
    /\ shown "placePill" s1 = Some (Str (place_label r))
    /\ unit' s1 = unit' (page w).
Proof.
  assert (E : suggItem_click host r (page w)
              = loadWeatherByCoords host (Candidate.latitude r) (Candidate.longitude r)
                  (place_label r) (js "auto")
                  (hideSuggestions
                     (set_cityInput_value
                        (Candidate.name r ++ comma_if (Candidate.country r)) (page w))))
    by reflexivity.
  rewrite loadWeatherByCoords_auto in E.
  eexists. split.
  - unfold handle, start. rewrite E. unfold settle, on_page, document_click.
    cbn [state_of request_of page issued suspended]. reflexivity.
  - split; [reflexivity |]. split; [unfold setPlace; apply shown_set_eq | reflexivity].
Qed.

(** X23. Responses are not matched to the place on screen.  Two
    suggestions are clicked one after the other, and the forecast for the
    first arrives only after the second click: the page then shows the
    second place (label and coordinates) with the temperature of the
    first, while the request for the second is still in flight. *)
Theorem stale_response_under_new_place
    (a b : Candidate.t) (data : Forecast) (c : Current.t) (w : World) :
  current data = Some c ->
  let w2 := handle host (SuggestionClick b) (handle host (SuggestionClick a) w) in
  let w3 := respond (length (suspended w)) (ForecastReply (Json data)) w2 in
  (exists rqa rqb,
     issued w2 = issued w ++ [ForecastRequest_ rqa; ForecastRequest_ rqb]
     /\ (rq_latitude rqa, rq_longitude rqa) = (Candidate.latitude a, Candidate.longitude a)
     /\ (rq_latitude rqb, rq_longitude rqb) = (Candidate.latitude b, Candidate.longitude b)
     /\ exists sa sb ka kb,
          suspended w2 = suspended w ++ [AwaitForecast sa rqa ka; AwaitForecast sb rqb kb]
          /\ suspended w3 = suspended w ++ [AwaitForecast sb rqb kb])
  /\ shown "placePill" (page w3) = Some (Str (place_label b))
  /\ currentPlace (page w3)
     = {| Place.name := place_label b; Place.lat := Some (Candidate.latitude b);
          Place.lon := Some (Candidate.longitude b); Place.tz := js "auto" |}
  /\ shown "tempNow" (page w3) = Some (Numeral (Math_round (Current.temperature_2m c))).
Proof.
  intros Hc w2 w3.
  destruct (handle_suggestion_click a w) as (sa & Ea & _).
  destruct (handle_suggestion_click b (handle host (SuggestionClick a) w))
    as (sb & Eb & Hpb & Hlb & _).
  assert (E2 : w2 = handle host (SuggestionClick b) (handle host (SuggestionClick a) w))
    by reflexivity.
  rewrite Eb in E2. rewrite Ea in E2. cbn [page issued suspended] in E2.
  rewrite <- !app_assoc in E2. cbn [app] in E2.
  clearbody w2. clear Ea Eb.
  set (rqa := forecast_request (Candidate.latitude a) (Candidate.longitude a)
                (js "auto") (page w)) in *.
  set (rqb := forecast_request (Candidate.latitude b) (Candidate.longitude b)
                (js "auto") sa) in *.
  assert (Hlook : suspended w2 !! length (suspended w)
                  = Some (AwaitForecast sa rqa (coords_resume host))).
  { rewrite E2. cbn [suspended]. apply list_lookup_middle. reflexivity. }
  destruct (coords_resume_place_and_temperature data c (page w2) Hc) as (s3 & E3 & Hv).
  assert (Ew3 : w3 = {| page := s3; issued := issued w2;
                        suspended := take (length (suspended w)) (suspended w2)
                                     ++ drop (S (length (suspended w))) (suspended w2);
                        locating := locating w2 |}).
  { unfold w3, respond. rewrite Hlook. cbn [resume]. rewrite E3.
    unfold settle. cbn [state_of request_of page issued suspended].
    rewrite app_nil_r. reflexivity. }
  assert (Hsus : suspended w3 = suspended w ++ [AwaitForecast sb rqb (coords_resume host)]).
  { rewrite Ew3, E2. cbn [suspended].
    rewrite take_app_length, drop_app_ge by lia.
    replace (S (length (suspended w)) - length (suspended w))%nat with 1%nat by lia.
    reflexivity. }
  assert (Hpage : page w3 = s3) by (rewrite Ew3; reflexivity).
  assert (Hpage2 : page w2 = sb) by (rewrite E2; reflexivity).
  rewrite Hpage. rewrite Hpage2 in Hv.
  unfold place_and_temperature in Hv.
  assert (H1 : currentPlace s3 = currentPlace sb)
    by exact (f_equal (fun x => fst (fst x)) Hv).
  assert (H2 : shown "placePill" s3 = shown "placePill" sb)
    by exact (f_equal (fun x => snd (fst x)) Hv).
  assert (H3 : shown "tempNow" s3 = Some (Numeral (Math_round (Current.temperature_2m c))))
    by exact (f_equal snd Hv).
  split.
  - exists rqa, rqb. split; [rewrite E2; reflexivity |].
    split; [reflexivity |]. split; [reflexivity |].
    exists sa, sb, (coords_resume host), (coords_resume host).
    split; [rewrite E2; reflexivity | exact Hsus].
  - rewrite H1, H2. split; [exact Hlb |]. split; [exact Hpb | exact H3].
Qed.

End Stale.

Lemma stale_response_under_new_place_witness :
  let a := {| Candidate.name := js "Pune"; Candidate.admin1 := None;
              Candidate.country := Some (js "India");
              Candidate.latitude := 18.52; Candidate.longitude := 73.86 |} in
  let b := {| Candidate.name := js "Patna"; Candidate.admin1 := None;
              Candidate.country := Some (js "India");
              Candidate.latitude := 25.59; Candidate.longitude := 85.14 |} in
  let w := {| page := initial_state true; issued := []; suspended := []; locating := 0 |} in
  let w3 := respond 0 (ForecastReply (Json payload_21_6))
              (handle demo_host (SuggestionClick b) (handle demo_host (SuggestionClick a) w)) in
  shown "placePill" (page w3) = Some (Str (place_label b))
  /\ shown "tempNow" (page w3) = Some (Numeral (Math_round (Number 21.6))).
Proof.
  intros a b w w3.
  destruct (stale_response_under_new_place demo_host a b payload_21_6 _ w eq_refl)
    as (_ & Hp & _ & Ht).
  split; [exact Hp | exact Ht].
Defined.

(** ** A payload without hourly data *)

(** The charts together with two figures of the today card. *)
Definition charts_and_today (s : State) : Charts * option text * option text :=
  (charts s, shown "tempNow" s, shown "rainNow" s).

Lemma charts_and_today_set_textContent (id : string) (v : text) (s : State) :
  id <> "tempNow" -> id <> "rainNow" ->
  charts_and_today (set_textContent id v s) = charts_and_today s.
Proof.
  intros H1 H2. unfold charts_and_today.
  rewrite !(shown_set_ne _ id) by congruence. reflexivity.
Qed.

Section Partial.

Variable host : Host.

Lemma keeps_buildForecastCards {B} (p : State -> B) (data : Forecast) :
  (forall g s, p (set_forecastGrid g s) = p s) ->
  (forall v s, p (set_textContent "forecastChip" v s) = p s) ->
  keeps p (buildForecastCards host data).
Proof.
  intros Hgrid Hchip. unfold buildForecastCards.
  apply keeps_bind; [apply keeps_lift | intros d].
  apply keeps_bind; [apply keeps_act; apply Hgrid | intros _].
  apply keeps_bind; [apply keeps_lift | intros days].
  apply keeps_bind; [| intros _].
  - apply keeps_forecast_loop. intros card s. apply Hgrid.
  - apply keeps_bind; [apply keeps_gets | intros u].
    apply keeps_act. apply Hchip.
Qed.

(** Without [data.hourly] the steps after the today card throw before
    the charts are touched. *)
Lemma after_today_without_hourly (data : Forecast) (s : State) :
  hourly data = None ->
  exists s' e,
    after_today host data s = Done s' (Throw e)
    /\ charts_and_today s' = charts_and_today s.
Proof.
  intros Hh. unfold after_today, bind.
  destruct (keeps_buildForecastCards charts_and_today data
              (fun g s0 => eq_refl)
              (fun v s0 => charts_and_today_set_textContent "forecastChip" v s0
                             ltac:(discriminate) ltac:(discriminate)) s)
    as (s' & r & E & Hv).
  rewrite E. destruct r as [[] | e]; cbn [bindP].
  - unfold lift, next24HoursSeries, read. rewrite Hh. cbn [bindP].
    exists s', (TypeError host). split; [reflexivity | exact Hv].
  - exists s', e. split; [reflexivity | exact Hv].
Qed.

(** X24. A payload with current conditions but without [hourly].  The
    today card is written first, with the payload's temperature and the
    placeholder for the rain chance; then the sequence fails: the error
    box shows "Could not load weather", the status ends on "Ready", and
    the charts are the ones that were there before, neither destroyed nor
    redrawn. *)
Theorem payload_without_hourly_updates_half
    (data : Forecast) (c : Current.t) (s : State) :
  current data = Some c ->
  hourly data = None ->
  exists s3,
    coords_resume host (Json data) s = Done s3 (Return tt)
    /\ shown "tempNow" s3 = Some (Numeral (Math_round (Current.temperature_2m c)))
    /\ shown "rainNow" s3 = Some (Str (js "—"))
    /\ charts s3 = charts s
    /\ classList_contains "errorBox" "hidden" s3 = false
    /\ shown "errorTitle" s3 = Some (Str (js "Could not load weather"))
    /\ shown "statusPill" s3 = Some (Str (js "Ready")).
Proof.
  intros Hc Hh.
  assert (Hrain : getClosestHourly host data Key.precipitation_probability = Null).
  { unfold getClosestHourly, getClosestHourly_try, read. rewrite Hc, Hh. reflexivity. }
  assert (Hwritten : forall s0,
            charts_and_today (today_written host data c s0)
            = (charts s0, Some (Numeral (Math_round (Current.temperature_2m c))),
               Some (Str (js "—")))).
  { intros s0. unfold charts_and_today.
    destruct (today_written_frame host data c s0) as [Hb _].
    assert (Hch : charts (today_written host data c s0) = charts s0)
      by exact (f_equal (fun x => snd (fst (fst (fst x)))) Hb).
    rewrite Hch. unfold today_written. cbv zeta. rewrite Hrain.
    f_equal; [f_equal |]; shown_solve. }
  assert (Hbody : exists s' e,
            render host data s = Done s' (Throw e)
            /\ charts_and_today s'
               = (charts s, Some (Numeral (Math_round (Current.temperature_2m c))),
                  Some (Str (js "—")))).
  { rewrite (render_split host data c s Hc), setTodayCard_run, Hc.
    set (s0 := setTimePill host (Current.time c) s).
    assert (Hs0 : charts s0 = charts s) by reflexivity.
    assert (Hthrow : exists s' e,
              bindP (Done (today_written host data c s0) (Throw (TypeError host)))
                (fun _ : unit => after_today host data) = Done s' (Throw e)
              /\ charts_and_today s'
                 = (charts s, Some (Numeral (Math_round (Current.temperature_2m c))),
                    Some (Str (js "—")))).
    { cbn [bindP]. eexists _, _. split; [reflexivity |]. rewrite Hwritten, Hs0. reflexivity. }
    destruct (Place.lat (currentPlace s0)) as [lat |]; [| exact Hthrow].
    destruct (Place.lon (currentPlace s0)) as [lon |]; [| exact Hthrow].
    cbn [bindP].
    destruct (after_today_without_hourly data
                (set_textContent "wxSub" (today_wxSub host lat lon)
                   (today_written host data c s0)) Hh)
      as (s' & e & E & Hv).
    exists s', e. split; [exact E |].
    rewrite Hv, charts_and_today_set_textContent by discriminate.
    rewrite Hwritten, Hs0. reflexivity. }
  destruct Hbody as (s' & e & E & Hv).
  exists (setLoading false
            (showError (js "Could not load weather")
               (message_or e (js "Check your internet and try again.")) s')).
  split.
  { unfold coords_resume, try_finally, try_catch, bind, lift.
    cbn [forecast_response bindP]. rewrite E. reflexivity. }
  destruct (errorBox_visible_after_showError (js "Could not load weather")
              (message_or e (js "Check your internet and try again.")) false s')
    as (Hbox & Ht & _).
  destruct (setLoading_frame false
              (showError (js "Could not load weather")
                 (message_or e (js "Check your internet and try again.")) s'))
    as (_ & Hch & _ & _ & Hsh).
  destruct (showError_frame (js "Could not load weather")
              (message_or e (js "Check your internet and try again.")) s')
    as (_ & Hch' & _).
  unfold charts_and_today in Hv.
  assert (H1 : charts s' = charts s) by exact (f_equal (fun x => fst (fst x)) Hv).
  assert (H2 : shown "tempNow" s' = Some (Numeral (Math_round (Current.temperature_2m c))))
    by exact (f_equal (fun x => snd (fst x)) Hv).
  assert (H3 : shown "rainNow" s' = Some (Str (js "—"))) by exact (f_equal snd Hv).
  split; [rewrite Hsh by discriminate; rewrite showError_shown by discriminate; exact H2 |].
  split; [rewrite Hsh by discriminate; rewrite showError_shown by discriminate; exact H3 |].
  split; [rewrite Hch, Hch'; exact H1 |].
  split; [exact Hbox |]. split; [exact Ht |].
  apply loading_hidden_after.
Qed.

End Partial.

(** A payload with current conditions only. *)
Definition payload_current_only : Forecast :=
  {| current := current payload_21_6; hourly := None; daily := None |}.

Lemma payload_without_hourly_updates_half_witness :
  exists s3,
    coords_resume demo_host (Json payload_current_only) (page_kathmandu true)
    = Done s3 (Return tt)
    /\ shown "tempNow" s3 = Some (Numeral (Math_round (Number 21.6)))
    /\ charts s3 = charts (page_kathmandu true).
Proof.
  destruct (payload_without_hourly_updates_half demo_host payload_current_only _
              (page_kathmandu true) eq_refl eq_refl)
    as (s3 & E & Ht & _ & Hch & _).
  exists s3. split; [exact E |]. split; [exact Ht | exact Hch].
Defined.

Lemma city_found_loads_first_result_witness :
  let r := {| Candidate.name := js "Pune"; Candidate.admin1 := Some (js "Maharashtra");
              Candidate.country := Some (js "India");
              Candidate.latitude := 18.52; Candidate.longitude := 73.86 |} in
  exists s1 rq k s3,
    city_resume demo_host (Json (GeoObject (Some [r]))) (initial_state true)
    = AwaitForecast s1 rq k
    /\ k NotOk s1 = Done s3 (Return tt)
    /\ shown "errorTitle" s3 = Some (Str (js "Could not load weather")).
Proof.
  intros r.
  destruct (city_found_loads_first_result demo_host r [] (initial_state true))
    as (s1 & rq & k & E & _ & _ & _ & H).
  destruct (H NotOk s1) as (s3 & E3 & _ & _ & Herr).
  exists s1, rq, k, s3. split; [exact E |]. split; [exact E3 |].
  apply (Herr (Error (js "Forecast request failed."))). reflexivity.
Defined.

(** ** Two clicks on the unit button *)

Section Unit_round_trip.

Variable host : Host.

(** A payload with current conditions, rendered on any page: the
    temperature is the payload's, the unit next to it is the preference of
    that moment, and preference and place are left as found. *)
Lemma coords_resume_renders (data : Forecast) (c : Current.t) (s : State) :
  current data = Some c ->
  exists s',
    coords_resume host (Json data) s = Done s' (Return tt)
    /\ shown "tempNow" s' = Some (Numeral (Math_round (Current.temperature_2m c)))
    /\ shown "tempUnit" s' = Some (Str (unit_suffix (unit' s)))
    /\ shown "feelUnit" s' = Some (Str (unit_suffix (unit' s)))
    /\ unit' s' = unit' s
    /\ currentPlace s' = currentPlace s.
Proof.
  intros Hc.
  destruct (coords_resume_place_and_temperature host data c s Hc) as (s' & E & Hv).
  destruct (coords_resume_tempUnit host data c s Hc) as (s2 & r2 & E2 & Ht & Hf).
  destruct (keeps_prefs_coords_resume host (Json data) s) as (s3 & r3 & E3 & Hp).
  assert (Es2 : s2 = s') by (rewrite E in E2; apply (f_equal state_of) in E2; symmetry; exact E2).
  assert (Es3 : s3 = s') by (rewrite E in E3; apply (f_equal state_of) in E3; symmetry; exact E3).
  subst s2 s3. exists s'. split; [exact E |].
  split; [exact (f_equal snd Hv) |].
  split; [exact Ht |]. split; [exact Hf |].
  split; [exact (f_equal fst Hp) | exact (f_equal snd Hp)].
Qed.

(** Whatever the response, the rest of a load ends normally and leaves
    preference and place as found. *)
Lemma coords_resume_prefs (res : response Forecast) (s : State) :
  exists s',
    coords_resume host res s = Done s' (Return tt)
    /\ unit' s' = unit' s /\ currentPlace s' = currentPlace s.
Proof.
  destruct (coords_resume_settles host res s) as (s0 & E).
  destruct (keeps_prefs_coords_resume host res s) as (s3 & r3 & E3 & Hp).
  rewrite E in E3. apply (f_equal state_of) in E3. cbn [state_of] in E3. subst s3.
  eexists. split; [exact E |].
  split; [exact (f_equal fst Hp) | exact (f_equal snd Hp)].
Qed.

(** The request of a click on the unit button, on a page with a place:
    spelled out, by the unit before the click. *)
Lemma unitBtn_click_request (lat lon : Q) (s : State) :
  Place.lat (currentPlace s) = Some lat ->
  Place.lon (currentPlace s) = Some lon ->
  isWellFormed (Place.tz (currentPlace s)) = true ->
  exists s1,
    unitBtn_click host s
    = AwaitForecast s1
        {| rq_latitude := lat; rq_longitude := lon;
           rq_timezone := Place.tz (currentPlace s);
           rq_temperature_unit :=
             match unit' s with Unit.C => js "fahrenheit" | Unit.F => js "celsius" end;
           rq_windspeed_unit := js "kmh"; rq_forecast_days := 7 |}
        (coords_resume host)
    /\ unit' s1 = match unit' s with Unit.C => Unit.F | Unit.F => Unit.C end
    /\ currentPlace s1 = currentPlace s
    /\ shown "unitBtn" s1
       = Some (Str match unit' s with Unit.C => js "°F" | Unit.F => js "°C" end).
Proof.
  intros Hlat Hlon Htz. exists (toggled lat lon s).
  split; [| split; [| split]].
  - rewrite (unitBtn_click_selected host lat lon s Hlat Hlon Htz).
    unfold unit_param, toggle. destruct (unit' s); reflexivity.
  - destruct (toggled_state lat lon s Hlat Hlon) as [Hu _].
    rewrite Hu. unfold toggle. destruct (unit' s); reflexivity.
  - apply (toggled_state lat lon s Hlat Hlon).
  - unfold toggled, setPlace. rewrite shown_set_ne by discriminate.
    rewrite shown_set_currentPlace, setLoading_shown by discriminate.
    unfold clearError, classList_add. rewrite shown_set_classList, shown_set_eq.
    cbn [unit' set_unit]. unfold unit_suffix, toggle. destruct (unit' s); reflexivity.
Qed.

(** C9. Two clicks on the unit button, with a place selected.  Each
    click flips the preference (C to F, F to C), shows it on the button
    and, in the same step, issues a forecast request for the place that
    carries the new unit ("fahrenheit" or "celsius"): the first request
    carries the flipped unit, the second the original one, and after the
    second click the preference is the original again, whether the second
    click comes after the first response (whatever it is) or before it.  A
    response is rendered with the unit label of the preference at the
    moment it arrives.  When the first response arrives before the second
    click, it is shown under the flipped unit, and the second under the
    original one.  When both requests are in flight, whichever response is
    rendered last stays on the page under the original unit's label: that
    is the second response if they arrive in order, and the first one,
    requested in the flipped unit, if they arrive the other way round. *)
Theorem unit_toggle_round_trip (lat lon : Q) (s : State) :
  Place.lat (currentPlace s) = Some lat ->
  Place.lon (currentPlace s) = Some lon ->
  isWellFormed (Place.tz (currentPlace s)) = true ->
  let flip := fun u => match u with Unit.C => Unit.F | Unit.F => Unit.C end in
  let label := fun u => match u with Unit.C => js "°C" | Unit.F => js "°F" end in
  let request := fun u =>
    {| rq_latitude := lat; rq_longitude := lon;
       rq_timezone := Place.tz (currentPlace s);
       rq_temperature_unit :=
         match u with Unit.C => js "celsius" | Unit.F => js "fahrenheit" end;
       rq_windspeed_unit := js "kmh"; rq_forecast_days := 7 |} in
  let rendered := fun (s' : State) (c : Current.t) (u : Unit.t) =>
    shown "tempNow" s' = Some (Numeral (Math_round (Current.temperature_2m c)))
    /\ shown "tempUnit" s' = Some (Str (label u))
    /\ shown "feelUnit" s' = Some (Str (label u)) in
  exists s1 k1,
    unitBtn_click host s = AwaitForecast s1 (request (flip (unit' s))) k1
    /\ unit' s1 = flip (unit' s)
    /\ shown "unitBtn" s1 = Some (Str (label (flip (unit' s))))
    /\ (forall res, exists s2 s3 k2,
          k1 res s1 = Done s2 (Return tt)
          /\ (forall data c,
                res = Json data -> current data = Some c ->
                rendered s2 c (flip (unit' s)))
          /\ unitBtn_click host s2 = AwaitForecast s3 (request (unit' s)) k2
          /\ unit' s3 = unit' s
          /\ shown "unitBtn" s3 = Some (Str (label (unit' s)))
          /\ forall data2 c2,
               current data2 = Some c2 ->
               exists s4,
                 k2 (Json data2) s3 = Done s4 (Return tt)
                 /\ rendered s4 c2 (unit' s) /\ unit' s4 = unit' s)
    /\ (exists s3 k2,
          unitBtn_click host s1 = AwaitForecast s3 (request (unit' s)) k2
          /\ unit' s3 = unit' s
          /\ forall data1 c1 data2 c2,
               current data1 = Some c1 -> current data2 = Some c2 ->
               (exists s4 s5,
                  k1 (Json data1) s3 = Done s4 (Return tt)
                  /\ k2 (Json data2) s4 = Done s5 (Return tt)
                  /\ rendered s5 c2 (unit' s) /\ unit' s5 = unit' s)
               /\ (exists s4 s5,
                     k2 (Json data2) s3 = Done s4 (Return tt)
                     /\ k1 (Json data1) s4 = Done s5 (Return tt)
                     /\ rendered s5 c1 (unit' s) /\ unit' s5 = unit' s)).
Proof.
  intros Hlat Hlon Htz flip label request rendered.
  assert (Hclick : forall s0,
            currentPlace s0 = currentPlace s ->
            exists s1,
              unitBtn_click host s0
              = AwaitForecast s1 (request (flip (unit' s0))) (coords_resume host)
              /\ unit' s1 = flip (unit' s0)
              /\ currentPlace s1 = currentPlace s
              /\ shown "unitBtn" s1 = Some (Str (label (flip (unit' s0))))).
  { intros s0 Hp.
    destruct (unitBtn_click_request lat lon s0) as (s1 & E & Hu & Hp1 & Hb);
      try (rewrite Hp; assumption).
    exists s1. split; [| split; [exact Hu | split; [rewrite Hp1; exact Hp |]]].
    - rewrite E, Hp. unfold request, flip. destruct (unit' s0); reflexivity.
    - rewrite Hb. unfold label, flip. destruct (unit' s0); reflexivity. }
  assert (Hrender : forall data c s0,
            current data = Some c ->
            exists s',
              coords_resume host (Json data) s0 = Done s' (Return tt)
              /\ rendered s' c (unit' s0)
              /\ unit' s' = unit' s0 /\ currentPlace s' = currentPlace s0).
  { intros data c s0 Hc.
    destruct (coords_resume_renders data c s0 Hc) as (s' & E & Ht & Hu & Hf & Hpref & Hpl).
    exists s'. split; [exact E |]. split; [| split; assumption].
    unfold rendered, label. rewrite Ht, Hu, Hf. unfold unit_suffix.
    destruct (unit' s0); repeat split; reflexivity. }
  assert (Hback : forall u, flip (flip u) = u) by (intros []; reflexivity).
  destruct (Hclick s eq_refl) as (s1 & E1 & Hu1 & Hp1 & Hb1).
  exists s1, (coords_resume host).
  split; [exact E1 |]. split; [exact Hu1 |]. split; [exact Hb1 |].
  split.
  - intros res.
    destruct (coords_resume_prefs res s1) as (s2 & E2 & Hu2 & Hp2).
    destruct (Hclick s2 ltac:(rewrite Hp2; exact Hp1)) as (s3 & E3 & Hu3 & Hp3 & Hb3).
    rewrite Hu2, Hu1, Hback in E3, Hu3, Hb3.
    exists s2, s3, (coords_resume host).
    split; [exact E2 |]. split.
    { intros data c -> Hc.
      destruct (Hrender data c s1 Hc) as (s' & E' & Hr & _).
      rewrite E2 in E'. apply (f_equal state_of) in E'. cbn [state_of] in E'. subst s'.
      rewrite Hu1 in Hr. exact Hr. }
    split; [exact E3 |]. split; [exact Hu3 |]. split; [exact Hb3 |].
    intros data2 c2 Hc2.
    destruct (Hrender data2 c2 s3 Hc2) as (s4 & E4 & Hr & Hu4 & _).
    rewrite Hu3 in Hr, Hu4. exists s4. split; [exact E4 |]. split; assumption.
  - destruct (Hclick s1 Hp1) as (s3 & E3 & Hu3 & Hp3 & Hb3).
    rewrite Hu1, Hback in E3, Hu3, Hb3.
    exists s3, (coords_resume host).
    split; [exact E3 |]. split; [exact Hu3 |].
    intros data1 c1 data2 c2 Hc1 Hc2. split.
    + destruct (Hrender data1 c1 s3 Hc1) as (s4 & E4 & _ & Hu4 & _).
      destruct (Hrender data2 c2 s4 Hc2) as (s5 & E5 & Hr & Hu5 & _).
      rewrite Hu4, Hu3 in Hr, Hu5.
      exists s4, s5. split; [exact E4 |]. split; [exact E5 |]. split; assumption.
    + destruct (Hrender data2 c2 s3 Hc2) as (s4 & E4 & _ & Hu4 & _).
      destruct (Hrender data1 c1 s4 Hc1) as (s5 & E5 & Hr & Hu5 & _).
      rewrite Hu4, Hu3 in Hr, Hu5.
      exists s4, s5. split; [exact E4 |]. split; [exact E5 |]. split; assumption.
Qed.

End Unit_round_trip.

(** The forecast of [payload_21_6] in degrees Fahrenheit. *)
Definition payload_70_9 : Forecast :=
  {| current := Some
       {| Current.time := Some (js "2024-05-01T10:15");
          Current.temperature_2m := Number 70.9;
          Current.apparent_temperature := Number 68.7;
          Current.relative_humidity_2m := Undefined;
          Current.precipitation := Null;
          Current.weather_code := Number 0;
          Current.wind_speed_10m := Number 7.5 |};
     hourly := hourly payload_21_6;
     daily := daily payload_21_6 |}.

(** "No stale unit in a later render", read on two clicks whose
    requests are both in flight: the response to the first request, when
    it is rendered after the second, is shown with the unit that request
    carried. *)
Definition response_shown_in_request_unit (host : Host) (s : State) : Prop :=
  forall s1 rq1 k1 s3 rq2 k2 data1 c1 data2 c2 s4 s5,
    unitBtn_click host s = AwaitForecast s1 rq1 k1 ->
    unitBtn_click host s1 = AwaitForecast s3 rq2 k2 ->
    current data1 = Some c1 ->
    current data2 = Some c2 ->
    k2 (Json data2) s3 = Done s4 (Return tt) ->
    k1 (Json data1) s4 = Done s5 (Return tt) ->
    (rq_temperature_unit rq1 = js "fahrenheit" ->
     shown "tempUnit" s5 = Some (Str (js "°F")))
    /\ (rq_temperature_unit rq1 = js "celsius" ->
        shown "tempUnit" s5 = Some (Str (js "°C"))).

(** Kathmandu in Celsius, the unit button clicked twice before any
    response; the Celsius response arrives first, the Fahrenheit response
    second: the page ends with 71 under "°C". *)
Lemma unit_toggle_round_trip_counterexample :
  ~ response_shown_in_request_unit demo_host (page_kathmandu true).
Proof.
  intros H.
  destruct (unitBtn_click_request demo_host 27.7 85.32 (page_kathmandu true)
              eq_refl eq_refl eq_refl) as (s1 & E1 & Hu1 & Hp1 & _).
  destruct (unitBtn_click_request demo_host 27.7 85.32 s1) as (s3 & E3 & Hu3 & _);
    try (rewrite Hp1; reflexivity).
  destruct (coords_resume_renders demo_host payload_21_6 _ s3 eq_refl)
    as (s4 & E4 & _ & _ & _ & Hu4 & _).
  destruct (coords_resume_renders demo_host payload_70_9 _ s4 eq_refl)
    as (s5 & E5 & _ & Hlabel & _).
  destruct (H _ _ _ _ _ _ payload_70_9 _ payload_21_6 _ s4 s5 E1 E3 eq_refl eq_refl E4 E5)
    as [HF _].
  specialize (HF eq_refl).
  rewrite Hlabel, Hu4, Hu3, Hu1 in HF.
  vm_compute in HF. discriminate HF.
Qed.

Lemma unit_toggle_round_trip_witness :
  exists s1 k1 s3 k2 s4 s5,
    unitBtn_click demo_host (page_kathmandu true)
    = AwaitForecast s1
        {| rq_latitude := 27.7; rq_longitude := 85.32; rq_timezone := js "auto";
           rq_temperature_unit := js "fahrenheit";
           rq_windspeed_unit := js "kmh"; rq_forecast_days := 7 |} k1
    /\ unitBtn_click demo_host s1
       = AwaitForecast s3
           {| rq_latitude := 27.7; rq_longitude := 85.32; rq_timezone := js "auto";
              rq_temperature_unit := js "celsius";
              rq_windspeed_unit := js "kmh"; rq_forecast_days := 7 |} k2
    /\ unit' s3 = Unit.C
    /\ k2 (Json payload_21_6) s3 = Done s4 (Return tt)
    /\ k1 (Json payload_70_9) s4 = Done s5 (Return tt)
    /\ shown "tempNow" s5 = Some (Numeral (Math_round (Number 70.9)))
    /\ shown "tempUnit" s5 = Some (Str (js "°C")).
Proof.
  destruct (unit_toggle_round_trip demo_host 27.7 85.32 (page_kathmandu true)
              eq_refl eq_refl eq_refl)
    as (s1 & k1 & E1 & _ & _ & _ & s3 & k2 & E3 & Hu3 & Hover).
  destruct (Hover payload_70_9 _ payload_21_6 _ eq_refl eq_refl)
    as (_ & s4 & s5 & E4 & E5 & (Ht & Hl & _) & _).
  exists s1, k1, s3, k2, s4, s5.
  split; [exact E1 |]. split; [exact E3 |]. split; [exact Hu3 |].
  split; [exact E4 |]. split; [exact E5 |]. split; [exact Ht | exact Hl].
Defined.

(** ** The order of a failure and the click on [document] *)

Lemma State_ext (s t : State) :
  unit' s = unit' t -> currentPlace s = currentPlace t -> charts s = charts t ->
  debounceTimer s = debounceTimer t -> lastSuggestions s = lastSuggestions t ->
  textContent s = textContent t -> classList s = classList t ->
  attributes s = attributes t -> cityInput_value s = cityInput_value t ->
  forecastGrid s = forecastGrid t -> suggestions_children s = suggestions_children t ->
  window_Chart s = window_Chart t -> timers s = timers t ->
  s = t.
Proof. destruct s, t. simpl. intros. subst. reflexivity. Qed.

(** [cityInput]'s Enter dispatches the click from inside a listener, so
    the listener of [document] runs before the rejection of [geocode] is
    handled, where for a click of the user it runs after.  The two orders
    give the same page: closing the list commutes with showing an error
    and with the loading indicator. *)
Lemma hideSuggestions_commutes (title subtitle : jsstr) (b : bool) (s : State) :
  hideSuggestions (setLoading b (showError title subtitle s))
  = setLoading b (showError title subtitle (hideSuggestions s)).
Proof.
  apply State_ext;
    lazymatch goal with
    | |- classList _ = classList _ => idtac
    | _ => destruct b; reflexivity
    end.
  rewrite classList_hideSuggestions, !classList_setLoading, !classList_showError,
    classList_hideSuggestions.
  apply set_eq. intros x. destruct b.
  - rewrite !elem_of_difference, !elem_of_singleton. tauto.
  - rewrite !elem_of_difference, !elem_of_union, !elem_of_difference, !elem_of_singleton.
    split.
    + intros [[-> | [HC He]] Hs]; [left; reflexivity | right; tauto].
    + intros [-> | [[HC Hs] He]]; [split; [left; reflexivity | discriminate] |].
      split; [right; tauto | exact Hs].
Qed.

(** ** A text that cannot be encoded *)

(** A lone leading surrogate followed by "x": neither the search button
    nor the autocomplete lookup makes a request; the search reports
    "City search failed", the lookup stays silent. *)
Example lone_surrogate_no_request :
  let text := [55357%N; 120%N] in
  let s := set_cityInput_value text (initial_state true) in
  isWellFormed text = false
  /\ request_of (searchBtn_click demo_host s) = []
  /\ shown "errorTitle" (state_of (searchBtn_click demo_host s))
     = Some (Str (js "City search failed"))
  /\ shown "errorSub" (state_of (searchBtn_click demo_host s))
     = Some (Str (js "URI malformed"))
  /\ request_of (handleAutocomplete demo_host s) = []
  /\ shown "errorTitle" (state_of (handleAutocomplete demo_host s)) = None
  /\ issued (advance demo_host 1000
               (run demo_host [(0, Input (js "P")); (50, Input text)]
                  (initial_world demo_host true)))
     = [GeocodeRequest (js "Kathmandu")].
Proof. vm_compute. repeat split; reflexivity. Qed.
